(** * mathexp.py: parsing and evaluation of mathematical expressions

    A shallow embedding of [src/mathexp.py] and the properties its
    specification states about it.

    Layout:
    - [Py]: the fragment of the Python 3 runtime the module relies on
      (exceptions, [str] operations, [int] and [float] arithmetic, the
      [float] constructor), dictionaries, and the platform's mathematics
      as a parameter;
    - the module itself, function by function, under the names of the
      source;
    - the notions the specification speaks of: balance, split candidates,
      expressions as operator-precedence arithmetic reads them;
    - the lemmas, and the properties of the specification, one section per
      claim;
    - further properties of the code. *)

From Stdlib Require Import ZArith List Ascii String Bool Lia.
From Stdlib Require Import Floats.SpecFloat.
From stdpp Require Import gmap strings.

Import ListNotations.
Local Open Scope Z_scope.

(** Python [str] values are modelled as lists of characters, a character
    being its code point, below 256. *)
Abbreviation pystr := (list ascii).

Definition str (s : string) : pystr := list_ascii_of_string s.

(* ===================================================================== *)
(** * The Python runtime *)
(* ===================================================================== *)

Module Py.

(** ** Exceptions and results *)

(** [Exception msg] is the plain [Exception(msg)] the module raises itself;
    the other constructors are the built-in exceptions its operations can
    raise. *)
Inductive exn : Type :=
| Exception (msg : pystr)
| IndexError
| KeyError (key : pystr)
| ZeroDivisionError
| ValueError
| OverflowError
| TypeError
| AttributeError.

Inductive result (A : Type) : Type :=
| Ok (a : A)
| Raise (e : exn).

Arguments Ok {A} a.
Arguments Raise {A} e.

Definition bind {A B : Type} (r : result A) (k : A -> result B) : result B :=
  match r with
  | Ok a => k a
  | Raise e => Raise e
  end.


(** ** Strings *)

(** [s.startswith(p)] *)
Fixpoint startswith (s p : pystr) {struct p} : bool :=
  match p with
  | [] => true
  | c :: p' =>
      match s with
      | d :: s' => if Ascii.eqb c d then startswith s' p' else false
      | [] => false
      end
  end.

(** [s.endswith(p)] *)
Definition endswith (s p : pystr) : bool := startswith (rev s) (rev p).

(** [s.replace(c, "")] for a one-character [c] *)
Definition remove_char (c : ascii) (s : pystr) : pystr :=
  List.filter (fun d => negb (Ascii.eqb d c)) s.

(** [s[a:-1]] for [0 <= a] *)
Definition slice_to_last (a : nat) (s : pystr) : pystr :=
  skipn a (removelast s).

(** [s[i]], with Python's negative indices *)
Definition getitem (s : pystr) (i : Z) : result ascii :=
  let n := Z.of_nat (length s) in
  let j := if i <? 0 then i + n else i in
  if (j <? 0) || (n <=? j) then Raise IndexError
  else match nth_error s (Z.to_nat j) with
       | Some c => Ok c
       | None => Raise IndexError
       end.

(** ** Floats: IEEE 754 binary64 *)

Definition prec : Z := 53.
Definition emax : Z := 1024.

Abbreviation float := spec_float.

Definition fadd : float -> float -> float := SFadd prec emax.
Definition fsub : float -> float -> float := SFsub prec emax.
Definition fmul : float -> float -> float := SFmul prec emax.
Definition fdiv : float -> float -> float := SFdiv prec emax.
Definition fabs : float -> float := SFabs.
Definition feqb : float -> float -> bool := SFeqb.
Definition fltb : float -> float -> bool := SFltb.

(** The float nearest to an integer (ties to even), infinite when the
    integer is out of range. *)
Definition Z2float (z : Z) : float := binary_normalize prec emax z 0 false.

Definition is_nan (f : float) : bool :=
  match f with S754_nan => true | _ => false end.

Definition is_inf (f : float) : bool :=
  match f with S754_infinity _ => true | _ => false end.

Definition is_zero (f : float) : bool :=
  match f with S754_zero _ => true | _ => false end.

Definition sign_bit (f : float) : bool :=
  match f with
  | S754_zero s | S754_infinity s | S754_finite s _ _ => s
  | S754_nan => false
  end.

(** C's [copysign(0.0, y)] *)
Definition zero_with_sign_of (y : float) : float := S754_zero (sign_bit y).

(** C's [fmod]: the remainder of the truncated division, computed exactly. *)
Definition c_fmod (x y : float) : float :=
  match x, y with
  | S754_nan, _ | _, S754_nan => S754_nan
  | S754_infinity _, _ => S754_nan
  | _, S754_zero _ => S754_nan
  | _, S754_infinity _ => x
  | S754_zero _, _ => x
  | S754_finite sx mx ex, S754_finite _ my ey =>
      let e0 := Z.min ex ey in
      let ax := Zpos mx * 2 ^ (ex - e0) in
      let ay := Zpos my * 2 ^ (ey - e0) in
      binary_normalize prec emax (cond_Zopp sx (ax mod ay)) e0 sx
  end.

(** The value of a finite float when it is an integer. *)
Definition float_integer (f : float) : option Z :=
  match f with
  | S754_zero _ => Some 0
  | S754_finite s m e =>
      if 0 <=? e then Some (cond_Zopp s (Zpos m * 2 ^ e))
      else if Zpos m mod 2 ^ (- e) =? 0 then Some (cond_Zopp s (Zpos m / 2 ^ (- e)))
      else None
  | _ => None
  end.

(** The integer part of a finite float (truncation towards zero). *)
Definition float_trunc (f : float) : option Z :=
  match f with
  | S754_zero _ => Some 0
  | S754_finite s m e =>
      if 0 <=? e then Some (cond_Zopp s (Zpos m * 2 ^ e))
      else Some (cond_Zopp s (Zpos m / 2 ^ (- e)))
  | _ => None
  end.

(** ** Numbers: [int] and [float] *)

Inductive pynum : Type :=
| PyInt (z : Z)
| PyFloat (f : float).

(** [float(n)] for an [int]: [OverflowError] when too large. *)
Definition int_to_float (z : Z) : result float :=
  match Z2float z with
  | S754_infinity _ => Raise OverflowError
  | f => Ok f
  end.

(** [float(v)] for a number *)
Definition float_of_num (v : pynum) : result float :=
  match v with
  | PyInt z => int_to_float z
  | PyFloat f => Ok f
  end.

(** [int / int]: the correctly rounded quotient. *)
Definition int_true_divide (a b : Z) : result float :=
  if b =? 0 then Raise ZeroDivisionError
  else match a with
       | Z0 => Ok (S754_zero (b <? 0))
       | _ =>
           match fdiv (S754_finite (a <? 0) (Z.to_pos (Z.abs a)) 0)
                      (S754_finite (b <? 0) (Z.to_pos (Z.abs b)) 0) with
           | S754_infinity _ => Raise OverflowError
           | f => Ok f
           end
       end.

(** [float / float] raises on a zero divisor. *)
Definition float_div (a b : float) : result float :=
  if feqb b (S754_zero false) then Raise ZeroDivisionError
  else Ok (fdiv a b).

(** A binary operator on numbers: exact on two ints, on floats otherwise
    (an int operand is converted first). *)
Definition arith (fi : Z -> Z -> result pynum) (ff : float -> float -> result pynum)
    (a b : pynum) : result pynum :=
  match a, b with
  | PyInt x, PyInt y => fi x y
  | _, _ =>
      bind (float_of_num a) (fun x =>
      bind (float_of_num b) (fun y => ff x y))
  end.

Definition py_add : pynum -> pynum -> result pynum :=
  arith (fun x y => Ok (PyInt (x + y))) (fun x y => Ok (PyFloat (fadd x y))).

Definition py_sub : pynum -> pynum -> result pynum :=
  arith (fun x y => Ok (PyInt (x - y))) (fun x y => Ok (PyFloat (fsub x y))).

Definition py_mul : pynum -> pynum -> result pynum :=
  arith (fun x y => Ok (PyInt (x * y))) (fun x y => Ok (PyFloat (fmul x y))).

Definition py_truediv : pynum -> pynum -> result pynum :=
  arith (fun x y => bind (int_true_divide x y) (fun f => Ok (PyFloat f)))
        (fun x y => bind (float_div x y) (fun f => Ok (PyFloat f))).

(** [float % float] *)
Definition float_rem (vx wx : float) : result float :=
  if feqb wx (S754_zero false) then Raise ZeroDivisionError
  else
    let md := c_fmod vx wx in
    if negb (feqb md (S754_zero false)) then
      if negb (Bool.eqb (fltb wx (S754_zero false)) (fltb md (S754_zero false)))
      then Ok (fadd md wx)
      else Ok md
    else Ok (zero_with_sign_of wx).

(** [a % b] *)
Definition py_mod : pynum -> pynum -> result pynum :=
  arith (fun x y => if y =? 0 then Raise ZeroDivisionError else Ok (PyInt (x mod y)))
        (fun x y => bind (float_rem x y) (fun f => Ok (PyFloat f))).

(** Exact comparison of two numbers; [None] when one is NaN. *)
Definition float_int_compare (f : float) (z : Z) : option comparison :=
  match f with
  | S754_nan => None
  | S754_infinity s => Some (if s then Lt else Gt)
  | S754_zero _ => Some (0 ?= z)
  | S754_finite s m e =>
      if 0 <=? e then Some (cond_Zopp s (Zpos m * 2 ^ e) ?= z)
      else Some (cond_Zopp s (Zpos m) ?= z * 2 ^ (- e))
  end.

Definition py_compare (a b : pynum) : option comparison :=
  match a, b with
  | PyInt x, PyInt y => Some (x ?= y)
  | PyFloat x, PyFloat y => SFcompare x y
  | PyFloat x, PyInt y => float_int_compare x y
  | PyInt x, PyFloat y => option_map CompOpp (float_int_compare y x)
  end.

(** [a == b], [a != b], [a < b] *)
Definition py_eq (a b : pynum) : bool :=
  match py_compare a b with Some Eq => true | _ => false end.

Definition py_ne (a b : pynum) : bool := negb (py_eq a b).

Definition py_lt (a b : pynum) : bool :=
  match py_compare a b with Some Lt => true | _ => false end.

(** [int(v)] *)
Definition py_int (v : pynum) : result Z :=
  match v with
  | PyInt z => Ok z
  | PyFloat S754_nan => Raise ValueError
  | PyFloat (S754_infinity _) => Raise OverflowError
  | PyFloat f => match float_trunc f with Some z => Ok z | None => Raise ValueError end
  end.

(** [abs(v)] *)
Definition py_abs (v : pynum) : pynum :=
  match v with
  | PyInt z => PyInt (Z.abs z)
  | PyFloat f => PyFloat (fabs f)
  end.

(** [range(a, b)] *)
Definition py_range (a b : Z) : list Z :=
  List.map (fun k => a + Z.of_nat k) (seq 0 (Z.to_nat (b - a))).

(** ** The [float] constructor on strings

    [float(s)] strips white space, accepts an optional sign followed by
    [inf], [infinity] or [nan] in any case, or by a decimal number
    [digits [. digits] [e [sign] digits]] with at least one digit in the
    mantissa, where single underscores may separate digits.  The value is the
    nearest binary64 number.  [None] stands for [ValueError]. *)

Definition is_digit (c : ascii) : bool :=
  let n := nat_of_ascii c in ((48 <=? n) && (n <=? 57))%nat.

Definition digit_value (c : ascii) : Z := Z.of_nat (nat_of_ascii c) - 48.

(** The characters [float] strips: the ASCII white space and, of the code
    points from 128 to 255, the next-line and no-break space characters. *)
Definition is_space (c : ascii) : bool :=
  let n := nat_of_ascii c in
  (((9 <=? n) && (n <=? 13)) || (n =? 32) || (n =? 133) || (n =? 160))%nat.

Definition lower (c : ascii) : ascii :=
  let n := nat_of_ascii c in
  if ((65 <=? n) && (n <=? 90))%nat then ascii_of_nat (n + 32) else c.

Definition underscore : ascii := "_"%char.

Fixpoint underscores_ok (prev : option ascii) (s : pystr) : bool :=
  match s with
  | [] => match prev with
          | Some p => negb (Ascii.eqb p underscore)
          | None => true
          end
  | c :: s' =>
      (if Ascii.eqb c underscore
       then match prev with Some p => is_digit p | None => false end
       else match prev with
            | Some p => if Ascii.eqb p underscore then is_digit c else true
            | None => true
            end)
      && underscores_ok (Some c) s'
  end.

Fixpoint lstrip (s : pystr) : pystr :=
  match s with
  | c :: s' => if is_space c then lstrip s' else s
  | [] => []
  end.

Definition strip (s : pystr) : pystr := rev (lstrip (rev (lstrip s))).

Fixpoint take_digits (s : pystr) : pystr * pystr :=
  match s with
  | c :: s' =>
      if is_digit c then let (d, r) := take_digits s' in (c :: d, r) else ([], s)
  | [] => ([], [])
  end.

Definition digits_value (d : pystr) : Z :=
  fold_left (fun acc c => 10 * acc + digit_value c) d 0.

Definition take_sign (s : pystr) : bool * pystr :=
  match s with
  | c :: r =>
      if Ascii.eqb c "-" then (true, r)
      else if Ascii.eqb c "+" then (false, r)
      else (false, s)
  | [] => (false, [])
  end.

(** The exponent part, which must reach the end of the string. *)
Definition parse_exponent (s : pystr) : option Z :=
  match s with
  | [] => Some 0
  | c :: r =>
      if Ascii.eqb (lower c) "e" then
        let (neg, r1) := take_sign r in
        let (d, r2) := take_digits r1 in
        match d, r2 with
        | _ :: _, [] => Some (cond_Zopp neg (digits_value d))
        | _, _ => None
        end
      else None
  end.

(** The binary64 number nearest to [(-1)^neg * m * 10^e]. *)
Definition decimal_to_float (neg : bool) (m e : Z) : float :=
  if m =? 0 then S754_zero neg
  else if 0 <=? e then binary_normalize prec emax (cond_Zopp neg (m * 10 ^ e)) 0 false
  else fdiv (S754_finite neg (Z.to_pos m) 0) (S754_finite false (Z.to_pos (10 ^ (- e))) 0).

Definition parse_float_body (neg : bool) (s : pystr) : option float :=
  let ls := List.map lower s in
  if bool_decide (ls = str "inf") || bool_decide (ls = str "infinity")
  then Some (S754_infinity neg)
  else if bool_decide (ls = str "nan") then Some S754_nan
  else
    let (d1, r1) := take_digits s in
    let (d2, r2) := match r1 with
                    | c :: r => if Ascii.eqb c "." then take_digits r else ([], r1)
                    | [] => ([], r1)
                    end in
    match d1 ++ d2 with
    | [] => None
    | ds =>
        match parse_exponent r2 with
        | Some e => Some (decimal_to_float neg (digits_value ds) (e - Z.of_nat (length d2)))
        | None => None
        end
    end.

Definition float_of_str (s : pystr) : option float :=
  let parse t := let (neg, r) := take_sign (strip t) in parse_float_body neg r in
  if existsb (Ascii.eqb underscore) s then
    if underscores_ok None s then parse (remove_char underscore s) else None
  else parse s.

(** ** Powers

    [float ** float] decides the cases with a zero, NaN or infinite operand
    itself; the remaining case (finite non-zero base, finite non-zero
    exponent) is the platform's, see [MathModule] below.  There Python can
    also return a complex number (negative base, fractional exponent),
    which [pynum] does not hold; no property below reaches that case. *)

Definition fone : float := Z2float 1.
Definition fzero : float := S754_zero false.

Definition is_odd_integer (x : float) : bool :=
  feqb (c_fmod (fabs x) (Z2float 2)) fone.

Definition float_pow (platform_pow : float -> float -> result pynum)
    (iv iw : float) : result pynum :=
  if feqb iw fzero then Ok (PyFloat fone)
  else if is_nan iv then Ok (PyFloat iv)
  else if is_nan iw then Ok (PyFloat (if feqb iv fone then fone else iw))
  else if is_inf iw then
    let av := fabs iv in
    if feqb av fone then Ok (PyFloat fone)
    else if Bool.eqb (fltb fzero iw) (fltb fone av) then Ok (PyFloat (fabs iw))
    else Ok (PyFloat fzero)
  else if is_inf iv then
    let odd := is_odd_integer iw in
    if fltb fzero iw then Ok (PyFloat (if odd then iv else fabs iv))
    else Ok (PyFloat (if odd then zero_with_sign_of iv else fzero))
  else if feqb iv fzero then
    let odd := is_odd_integer iw in
    if fltb iw fzero then Raise ZeroDivisionError
    else Ok (PyFloat (if odd then iv else fzero))
  else platform_pow iv iw.

(** [a ** b]: exact on ints with a non-negative exponent. *)
Definition py_pow (platform_pow : float -> float -> result pynum) : pynum -> pynum -> result pynum :=
  arith (fun x y => if 0 <=? y then Ok (PyInt (x ^ y))
                    else bind (int_to_float x) (fun fx =>
                         bind (int_to_float y) (fun fy => float_pow platform_pow fx fy)))
        (float_pow platform_pow).

End Py.

Import Py.

Notation "'let*' x ':=' r 'in' k" := (bind r (fun x => k))
  (at level 10, x name, r at level 100, k at level 200).

(** ** Dictionaries

    A [dict] whose iteration order matters is a list of items in insertion
    order; the variable table, only ever looked up, updated and popped by
    key, is a finite map. *)

Fixpoint dict_get {V : Type} (d : list (pystr * V)) (key : pystr) : result V :=
  match d with
  | [] => Raise (KeyError key)
  | (k, v) :: d' => if bool_decide (k = key) then Ok v else dict_get d' key
  end.

Definition dict_keys {V : Type} (d : list (pystr * V)) : list pystr := List.map fst d.

(** [d.pop(key)]: the value and the dictionary without the key, or
    [KeyError] and the dictionary as it was. *)
Definition dict_pop (d : gmap pystr pynum) (key : pystr)
  : result pynum * gmap pystr pynum :=
  match d !! key with
  | Some v => (Ok v, delete key d)
  | None => (Raise (KeyError key), d)
  end.

(** ** The platform's mathematics

    The values of [math.sin] and the other functions of Python's [math]
    module, and of [float ** float] on finite non-zero operands, come from
    the C library.  The development is parametric in them. *)

Record MathModule : Type := {
  math_sin : pynum -> result pynum;
  math_cos : pynum -> result pynum;
  math_tan : pynum -> result pynum;
  math_asin : pynum -> result pynum;
  math_acos : pynum -> result pynum;
  math_atan : pynum -> result pynum;
  math_log : pynum -> result pynum;
  math_log10 : pynum -> result pynum;
  platform_pow : float -> float -> result pynum
}.

(* ===================================================================== *)
(** * mathexp.py *)
(* ===================================================================== *)

Definition MALFORMED_EXPRESSION_ERROR : pystr := str "Malformed expression".
Definition EXPRESSION_PARSING_ERROR : pystr := str "Expression parser error".
Definition SYMBOL_NOT_FOUND_ERROR : pystr := str "Symbol not found".

Definition MATHEXP_LITERAL : Z := 0.
Definition MATHEXP_FUNCTION : Z := 1.
Definition MATHEXP_OPERATOR : Z := 2.

Definition FACTORIAL_ERROR : pystr :=
  str "Factorial: Number must be a positive integer".

(** [def fact(num)] *)
Definition fact (num : pynum) : result pynum :=
  let* r := py_mod num (PyInt 1) in
  if py_ne r (PyInt 0) || py_lt num (PyInt 0) then Raise (Exception FACTORIAL_ERROR)
  else
    let* num := py_int num in
    if (num =? 0) || (num =? 1) then Ok (PyInt 1)
    else Ok (PyInt (fold_left (fun res i => res * i) (py_range 1 (num + 1)) 1)).

(** The function objects [FUNCTION_LIST] holds. *)
Inductive pyfunc : Type :=
| f_sin | f_cos | f_tan | f_asin | f_acos | f_atan | f_log | f_log10
| f_abs | f_fact.

Definition FUNCTION_LIST : list (pystr * pyfunc) :=
  [ (str "sin", f_sin);
    (str "cos", f_cos);
    (str "tan", f_tan);
    (str "asin", f_asin);
    (str "acos", f_acos);
    (str "atan", f_atan);
    (str "ln", f_log);
    (str "log", f_log10);
    (str "abs", f_abs);
    (str "fact", f_fact) ].

(** Calling a function object. *)
Definition call (M : MathModule) (f : pyfunc) (arg : pynum) : result pynum :=
  match f with
  | f_sin => math_sin M arg
  | f_cos => math_cos M arg
  | f_tan => math_tan M arg
  | f_asin => math_asin M arg
  | f_acos => math_acos M arg
  | f_atan => math_atan M arg
  | f_log => math_log M arg
  | f_log10 => math_log10 M arg
  | f_abs => Ok (py_abs arg)
  | f_fact => fact arg
  end.

(** [def parens_are_balanced(exp)]: the loop, from counter [i] on. *)
Fixpoint parens_are_balanced_from (i : Z) (exp : pystr) : bool :=
  match exp with
  | [] => i =? 0
  | char :: rest =>
      let i := if Ascii.eqb char "(" then i + 1 else i in
      let i := if Ascii.eqb char ")" then i - 1 else i in
      if i <? 0 then false else parens_are_balanced_from i rest
  end.

Definition parens_are_balanced (exp : pystr) : bool :=
  parens_are_balanced_from 0 exp.

(** [def get_function(exp)]: the loop over the keys; [exp] is reassigned
    inside the loop, so later keys are tested against the shortened
    string. *)
Fixpoint get_function_loop (keys : list pystr) (exp : pystr) : option pystr :=
  match keys with
  | [] => None
  | function :: keys' =>
      if startswith exp (function ++ str "(") && endswith exp (str ")") then
        let exp := slice_to_last (length function + 1) exp in
        if parens_are_balanced exp then Some function
        else get_function_loop keys' exp
      else get_function_loop keys' exp
  end.

Definition get_function (exp : pystr) : option pystr :=
  get_function_loop (dict_keys FUNCTION_LIST) exp.

Definition OPERATOR_PRIORITY : list (pystr * Z) :=
  [ (str "^", -1);
    (str "*", -2);
    (str "/", -2);
    (str "+", -3);
    (str "-", -3) ].

(** [def remove_extra_parens(exp)]: each turn of the [while] loop removes
    two characters, so [length exp] turns are enough. *)
Definition extra_parens (exp : pystr) : bool :=
  startswith exp (str "(") && endswith exp (str ")")
  && parens_are_balanced (slice_to_last 1 exp).

Fixpoint remove_extra_parens_loop (fuel : nat) (exp : pystr) : pystr :=
  match fuel with
  | O => exp
  | S fuel' =>
      if extra_parens exp
      then remove_extra_parens_loop fuel' (slice_to_last 1 exp)
      else exp
  end.

Definition remove_extra_parens (exp : pystr) : pystr :=
  remove_extra_parens_loop (length exp) exp.

(** [def evaluate_operator(token, arg1, arg2)] *)
Definition evaluate_operator (M : MathModule) (token : pystr) (arg1 arg2 : pynum)
  : result pynum :=
  if bool_decide (token = str "^") then py_pow (platform_pow M) arg1 arg2
  else if bool_decide (token = str "*") then py_mul arg1 arg2
  else if bool_decide (token = str "/") then py_truediv arg1 arg2
  else if bool_decide (token = str "+") then py_add arg1 arg2
  else if bool_decide (token = str "-") then py_sub arg1 arg2
  else Raise (Exception EXPRESSION_PARSING_ERROR).

(** [def is_operator(token)] *)
Definition is_operator (token : pystr) : bool :=
  bool_decide (token ∈ [str "^"; str "*"; str "/"; str "+"; str "-"]).

(** [def exp_check(exp)] *)
Definition exp_check (exp : pystr) : result pystr :=
  if negb (parens_are_balanced exp) then Raise (Exception MALFORMED_EXPRESSION_ERROR)
  else
    let exp := remove_char " " exp in
    let exp := remove_extra_parens exp in
    let* first := getitem exp 0 in
    let* last := getitem exp (-1) in
    if is_operator [first] && negb (bool_decide ([first] = str "+"))
       && negb (bool_decide ([first] = str "-"))
    then Raise (Exception MALFORMED_EXPRESSION_ERROR)
    else if is_operator [last] then Raise (Exception MALFORMED_EXPRESSION_ERROR)
    else
      let* c := getitem exp 0 in
      let exp := if bool_decide ([c] = str "-") then str "0" ++ exp else exp in
      let* c := getitem exp 0 in
      let exp := if bool_decide ([c] = str "+") then skipn 1 exp else exp in
      Ok exp.

(** [def is_number(num)] *)
Definition is_number (num : pystr) : bool :=
  match float_of_str num with
  | Some _ => true
  | None => false
  end.

(** [def lookup_top_operator(exp)]: the local variables of the loop, and one
    turn of it. *)
Record scan : Type := Scan { pos : Z; level : Z; i : Z }.

Definition lookup_top_operator_step (exp : pystr) (st : scan) (token : ascii)
  : result scan :=
  let i := i st + 1 in
  if bool_decide ([token] = str "(") then Ok (Scan (pos st) (level st + 1) i)
  else if bool_decide ([token] = str ")") then Ok (Scan (pos st) (level st - 1) i)
  else if negb (is_operator [token]) then Ok (Scan (pos st) (level st) i)
  else if negb (level st =? 0) then Ok (Scan (pos st) (level st) i)
  else if (i =? 0) || (i =? Z.of_nat (length exp) - 1) then Ok (Scan (pos st) (level st) i)
  else
    let* sign :=
      if bool_decide ([token] = str "+") || bool_decide ([token] = str "-")
      then let* prev := getitem exp (i - 1) in Ok (is_operator [prev])
      else Ok false in
    if sign then Ok (Scan (pos st) (level st) i)
    else if pos st =? -1 then Ok (Scan i (level st) i)
    else
      let* p := dict_get OPERATOR_PRIORITY [token] in
      let* best := getitem exp (pos st) in
      let* q := dict_get OPERATOR_PRIORITY [best] in
      if p <=? q then Ok (Scan i (level st) i) else Ok (Scan (pos st) (level st) i).

Fixpoint lookup_top_operator_loop (exp rest : pystr) (st : scan) : result scan :=
  match rest with
  | [] => Ok st
  | token :: rest' =>
      let* st' := lookup_top_operator_step exp st token in
      lookup_top_operator_loop exp rest' st'
  end.

Definition lookup_top_operator (exp : pystr) : result Z :=
  let* st := lookup_top_operator_loop exp exp (Scan (-1) 0 (-1)) in
  Ok (pos st).

(** ** [class MathExp]

    An object has the five attributes the constructor assigns. *)
#[local] Set Warnings "-register-all".
Inductive MathExp : Type :=
| Build_MathExp (variables_table : gmap pystr pynum) (token : pystr)
    (left right : option MathExp) (typ : Z).

Definition variables_table (self : MathExp) : gmap pystr pynum :=
  match self with Build_MathExp vt _ _ _ _ => vt end.

Definition token (self : MathExp) : pystr :=
  match self with Build_MathExp _ t _ _ _ => t end.

Definition left (self : MathExp) : option MathExp :=
  match self with Build_MathExp _ _ l _ _ => l end.

Definition right (self : MathExp) : option MathExp :=
  match self with Build_MathExp _ _ _ r _ => r end.

Definition typ (self : MathExp) : Z :=
  match self with Build_MathExp _ _ _ _ ty => ty end.

(** The constructor calls itself on substrings.  [None] means the given
    number of nested calls was not enough; [MathExp_init_total] below shows
    that [S (length exp)] always is. *)
Definition fueled (A : Type) : Type := option (result A).

Definition bind_fueled {A B : Type} (r : fueled A) (k : A -> fueled B) : fueled B :=
  match r with
  | None => None
  | Some (Raise e) => Some (Raise e)
  | Some (Ok a) => k a
  end.

Notation "'let+' x ':=' r 'in' k" := (bind_fueled r (fun x => k))
  (at level 10, x name, r at level 100, k at level 200).

(** [def __init__(self, exp)] *)
Fixpoint MathExp_init (fuel : nat) (exp : pystr) : fueled MathExp :=
  match fuel with
  | O => None
  | S fuel' =>
      let+ exp := Some (exp_check exp) in
      match get_function exp with
      | Some function =>
          let arg := slice_to_last (length function + 1) exp in
          let+ right := MathExp_init fuel' arg in
          Some (Ok (Build_MathExp ∅ function None (Some right) MATHEXP_FUNCTION))
      | None =>
          let+ top_operator_pos := Some (lookup_top_operator exp) in
          if 0 <=? top_operator_pos then
            let+ c := Some (getitem exp top_operator_pos) in
            let exp_izq := firstn (Z.to_nat top_operator_pos) exp in
            let exp_der := skipn (Z.to_nat (top_operator_pos + 1)) exp in
            let+ left := MathExp_init fuel' exp_izq in
            let+ right := MathExp_init fuel' exp_der in
            Some (Ok (Build_MathExp ∅ [c] (Some left) (Some right) MATHEXP_OPERATOR))
          else
            Some (Ok (Build_MathExp ∅ exp None None MATHEXP_LITERAL))
      end
  end.

(** [MathExp(exp)] *)
Definition MathExp_new (exp : pystr) : fueled MathExp :=
  MathExp_init (S (length exp)) exp.

(** [def evaluate(self, tmp_variables_table=None)] *)
Fixpoint evaluate (M : MathModule) (self : MathExp)
    (tmp_variables_table : option (gmap pystr pynum)) : result pynum :=
  match self with
  | Build_MathExp variables_table token left right typ =>
      let tmp_variables_table :=
        match tmp_variables_table with
        | None => variables_table
        | Some t => t
        end in
      if typ =? MATHEXP_LITERAL then
        match float_of_str token with
        | Some res => Ok (PyFloat res)
        | None =>
            match tmp_variables_table !! token with
            | None => Raise (Exception (SYMBOL_NOT_FOUND_ERROR ++ str ": " ++ token))
            | Some v => let* res := float_of_num v in Ok (PyFloat res)
            end
        end
      else if typ =? MATHEXP_FUNCTION then
        match right with
        | None => Raise AttributeError
        | Some right =>
            let* arg := evaluate M right (Some tmp_variables_table) in
            let* f := dict_get FUNCTION_LIST token in
            call M f arg
        end
      else if typ =? MATHEXP_OPERATOR then
        match left with
        | None => Raise AttributeError
        | Some left =>
            let* left_value := evaluate M left (Some tmp_variables_table) in
            match right with
            | None => Raise AttributeError
            | Some right =>
                let* right_value := evaluate M right (Some tmp_variables_table) in
                evaluate_operator M token left_value right_value
            end
        end
      else Raise (Exception EXPRESSION_PARSING_ERROR)
  end.

(** The methods that read or write the variable table take the object and
    return the outcome of the call together with the object after it. *)
Definition method (A : Type) : Type := MathExp -> result A * MathExp.

Definition with_variables_table (self : MathExp) (vt : gmap pystr pynum) : MathExp :=
  match self with
  | Build_MathExp _ token left right typ => Build_MathExp vt token left right typ
  end.

(** [def add_variable(self, key, value)] *)
Definition add_variable (key : pystr) (value : pynum) : method unit :=
  fun self => (Ok tt, with_variables_table self (<[key := value]> (variables_table self))).

(** [def remove_variable(self, key)] *)
Definition remove_variable (key : pystr) : method unit :=
  fun self =>
    let (r, vt) := dict_pop (variables_table self) key in
    (let* _ := r in Ok tt, with_variables_table self vt).

(** [def get_variable(self, key)] *)
Definition get_variable (key : pystr) : method pynum :=
  fun self =>
    (match variables_table self !! key with
     | Some v => Ok v
     | None => Raise (KeyError key)
     end, self).

(** [def get_variables_table(self)] *)
Definition get_variables_table : method (gmap pystr pynum) :=
  fun self => (Ok (variables_table self), self).

(** [def set_variables_table(self, tmp_variables_table)] *)
Definition set_variables_table (tmp_variables_table : gmap pystr pynum) : method unit :=
  fun self => (Ok tt, with_variables_table self tmp_variables_table).

(** [evaluate] as a method call: it assigns no attribute. *)
Definition evaluate_call (M : MathModule)
    (tmp_variables_table : option (gmap pystr pynum)) : method pynum :=
  fun self => (evaluate M self tmp_variables_table, self).

(** Constructing from a string and evaluating at once. *)
Definition run (M : MathModule) (exp : pystr)
    (tmp_variables_table : option (gmap pystr pynum)) : fueled pynum :=
  let+ t := MathExp_new exp in
  Some (evaluate M t tmp_variables_table).

(** ** Objects in a heap

    What a call does to the objects it is given shows only where objects
    are held by reference.  Here an instance of [MathExp] lives in a heap
    with its five attributes; [variables_table] refers to a dict of the
    heap, [left] and [right] are [None] or refer to an instance.  A method
    reads the attributes of [self] from the heap as it is when the attribute
    is read, and returns the heap as it leaves it.  [None] means that the
    calls nested deeper than [fuel], or that a reference led nowhere. *)

Definition loc : Type := nat.

Record object : Type := Object {
  attr_variables_table : loc;
  attr_token : pystr;
  attr_left : option loc;
  attr_right : option loc;
  attr_typ : Z }.

Record heap : Type := Heap {
  dicts : gmap loc (gmap pystr pynum);
  objects : gmap loc object }.

Definition heaped (A : Type) : Type := heap -> option (result A * heap).

Definition ret_heaped {A : Type} (a : A) : heaped A := fun h => Some (Ok a, h).

Definition lift_result {A : Type} (r : result A) : heaped A := fun h => Some (r, h).

Definition bind_heaped {A B : Type} (c : heaped A) (k : A -> heaped B) : heaped B :=
  fun h =>
    match c h with
    | None => None
    | Some (Raise e, h') => Some (Raise e, h')
    | Some (Ok a, h') => k a h'
    end.

Notation "'let^' x ':=' c 'in' k" := (bind_heaped c (fun x => k))
  (at level 10, x name, c at level 100, k at level 200).

(** [self.name] *)
Definition attribute {A : Type} (name : object -> A) (self : loc) : heaped A :=
  fun h =>
    match objects h !! self with
    | Some o => Some (Ok (name o), h)
    | None => None
    end.

(** The contents of a dict, for [in] and [[]]. *)
Definition contents (d : loc) : heaped (gmap pystr pynum) :=
  fun h =>
    match dicts h !! d with
    | Some m => Some (Ok m, h)
    | None => None
    end.

(** [def evaluate(self, tmp_variables_table=None)], on the heap. *)
Fixpoint evaluate_in (M : MathModule) (fuel : nat) (self : loc)
    (tmp_variables_table : option loc) : heaped pynum :=
  match fuel with
  | O => fun _ => None
  | S fuel' =>
      let^ tmp_variables_table :=
        match tmp_variables_table with
        | None => attribute attr_variables_table self
        | Some d => ret_heaped d
        end in
      let^ typ := attribute attr_typ self in
      if typ =? MATHEXP_LITERAL then
        let^ token := attribute attr_token self in
        match float_of_str token with
        | Some res => ret_heaped (PyFloat res)
        | None =>
            let^ table := contents tmp_variables_table in
            match table !! token with
            | None =>
                lift_result (Raise (Exception (SYMBOL_NOT_FOUND_ERROR ++ str ": " ++ token)))
            | Some v => lift_result (let* res := float_of_num v in Ok (PyFloat res))
            end
        end
      else if typ =? MATHEXP_FUNCTION then
        let^ right := attribute attr_right self in
        match right with
        | None => lift_result (Raise AttributeError)
        | Some right =>
            let^ arg := evaluate_in M fuel' right (Some tmp_variables_table) in
            let^ token := attribute attr_token self in
            lift_result (let* f := dict_get FUNCTION_LIST token in call M f arg)
        end
      else if typ =? MATHEXP_OPERATOR then
        let^ left := attribute attr_left self in
        match left with
        | None => lift_result (Raise AttributeError)
        | Some left =>
            let^ left_value := evaluate_in M fuel' left (Some tmp_variables_table) in
            let^ right := attribute attr_right self in
            match right with
            | None => lift_result (Raise AttributeError)
            | Some right =>
                let^ right_value := evaluate_in M fuel' right (Some tmp_variables_table) in
                let^ token := attribute attr_token self in
                lift_result (evaluate_operator M token left_value right_value)
            end
        end
      else lift_result (Raise (Exception EXPRESSION_PARSING_ERROR))
  end.

(* ===================================================================== *)
(** * What the specification speaks of *)
(* ===================================================================== *)

(** ** Parenthesis balance *)

(** What a character adds to the running count of open parentheses. *)
Definition delta (c : ascii) : Z :=
  if Ascii.eqb c "(" then 1 else if Ascii.eqb c ")" then -1 else 0.

(** The count of [(] minus the count of [)] in a string. *)
Fixpoint depth (s : pystr) : Z :=
  match s with
  | [] => 0
  | c :: s' => delta c + depth s'
  end.

(** The running count after the first [n] characters. *)
Definition running_count (s : pystr) (n : nat) : Z := depth (firstn n s).

(** Balanced as the specification words it: the running count never goes
    negative and is zero at the end. *)
Definition balanced (s : pystr) : Prop :=
  (forall n, 0 <= running_count s n) /\ depth s = 0.

Definition unbalanced (s : pystr) : Prop :=
  (exists n, running_count s n < 0) \/ depth s <> 0.

(** A string without parentheses. *)
Definition paren_free (s : pystr) : Prop := Forall (fun c => delta c = 0) s.

(** ** The split position *)

Definition is_op (c : ascii) : bool := is_operator [c].

(** The priority of an operator character, from [OPERATOR_PRIORITY]. *)
Definition priority (c : ascii) : Z :=
  match dict_get OPERATOR_PRIORITY [c] with
  | Ok p => p
  | Raise _ => 0
  end.

Definition plus_or_minus (c : ascii) : bool :=
  bool_decide ([c] = str "+") || bool_decide ([c] = str "-").

Definition char_at (exp : pystr) (k : nat) : ascii := nth k exp "000"%char.

(** The positions the loop of [lookup_top_operator] does not skip: an
    operator character at depth 0, neither first nor last, and not a [+] or
    [-] that follows an operator character. *)
Definition candidateb (exp : pystr) (k : nat) : bool :=
  match nth_error exp k with
  | None => false
  | Some c =>
      is_op c
      && (depth (firstn k exp) =? 0)
      && negb ((k =? 0)%nat || (k =? length exp - 1)%nat)
      && negb (plus_or_minus c && is_op (char_at exp (k - 1)))
  end.

(** The value of [pos] after the turn for index [k]. *)
Definition new_pos (exp : pystr) (pos : Z) (k : nat) : Z :=
  if candidateb exp k then
    if pos =? -1 then Z.of_nat k
    else if priority (char_at exp k) <=? priority (char_at exp (Z.to_nat pos))
         then Z.of_nat k else pos
  else pos.

(** [best exp n r]: [r] is what the specification asks of the split position
    among the first [n] characters: [-1] when they hold no candidate, else a
    candidate of least priority, the last one of that priority. *)
Definition best (exp : pystr) (n : nat) (r : Z) : Prop :=
  (r = -1 /\ forall j, (j < n)%nat -> candidateb exp j = false) \/
  (exists k, r = Z.of_nat k /\ (k < n)%nat /\ candidateb exp k = true /\
     (forall j, (j < n)%nat -> candidateb exp j = true ->
                priority (char_at exp k) <= priority (char_at exp j)) /\
     (forall j, (j < n)%nat -> candidateb exp j = true -> (k < j)%nat ->
                priority (char_at exp k) < priority (char_at exp j))).

Definition top_operator (exp : pystr) (r : Z) : Prop := best exp (length exp) r.

(** ** Normalisation and construction *)

(** The string [exp_check] works on after the balance test. *)
Definition stripped (exp : pystr) : pystr :=
  remove_extra_parens (remove_char " " exp).

(** What a construction can end in. *)
Definition init_outcome (r : result MathExp) : Prop :=
  match r with
  | Ok _ => True
  | Raise e => e = Exception MALFORMED_EXPRESSION_ERROR \/ e = IndexError
  end.

(** ** Expressions as operator-precedence arithmetic reads them *)

(** The reference side of the comparison: an expression is a token, a
    parenthesised expression, a function applied to an expression, or two
    expressions joined by a binary operator.  [render] writes it down with
    exactly the parentheses it carries; [well_formed] says that the written
    form, read with the usual precedence of the operators and the given
    associativity, is this expression and no other. *)

Inductive binop : Type := Pow | Mul | Div | Add | Sub.

Definition op_char (o : binop) : ascii :=
  match o with
  | Pow => "^"
  | Mul => "*"
  | Div => "/"
  | Add => "+"
  | Sub => "-"
  end.

Inductive expr : Type :=
| Tok (t : pystr)
| Par (e : expr)
| Fn (name : pystr) (arg : expr)
| Bin (o : binop) (l r : expr).

Fixpoint render (e : expr) : pystr :=
  match e with
  | Tok t => t
  | Par e => "("%char :: render e ++ [")"%char]
  | Fn name arg => name ++ "("%char :: render arg ++ [")"%char]
  | Bin o l r => render l ++ op_char o :: render r
  end.

Inductive assoc : Type := LeftAssoc | RightAssoc.

(** In arithmetic as usually written, [^] groups to the right and the other
    operators to the left. *)
Definition standard_assoc (o : binop) : assoc :=
  match o with
  | Pow => RightAssoc
  | _ => LeftAssoc
  end.

Definition all_left (o : binop) : assoc := LeftAssoc.

(** How tightly the outermost construct binds: an operator by its priority,
    anything else tighter than every operator. *)
Definition binding (e : expr) : Z :=
  match e with
  | Bin o _ _ => priority (op_char o)
  | _ => 0
  end.

(** A character a token may contain: no operator, parenthesis or blank. *)
Definition token_char (c : ascii) : Prop :=
  is_op c = false /\ delta c = 0 /\ c <> " "%char.

Definition token_ok (t : pystr) : Prop := t <> [] /\ Forall token_char t.

Fixpoint well_formed (a : binop -> assoc) (e : expr) : Prop :=
  match e with
  | Tok t => token_ok t
  | Par e => well_formed a e
  | Fn name arg => In name (dict_keys FUNCTION_LIST) /\ well_formed a arg
  | Bin o l r =>
      well_formed a l /\ well_formed a r /\
      match a o with
      | LeftAssoc =>
          priority (op_char o) <= binding l /\ priority (op_char o) < binding r
      | RightAssoc =>
          priority (op_char o) < binding l /\ priority (op_char o) <= binding r
      end
  end.

(** The tree operator-precedence reading gives. *)
Fixpoint tree (e : expr) : MathExp :=
  match e with
  | Tok t => Build_MathExp ∅ t None None MATHEXP_LITERAL
  | Par e => tree e
  | Fn name arg => Build_MathExp ∅ name None (Some (tree arg)) MATHEXP_FUNCTION
  | Bin o l r =>
      Build_MathExp ∅ [op_char o] (Some (tree l)) (Some (tree r)) MATHEXP_OPERATOR
  end.

Definition apply_binop (M : MathModule) (o : binop) (x y : pynum) : result pynum :=
  match o with
  | Pow => py_pow (platform_pow M) x y
  | Mul => py_mul x y
  | Div => py_truediv x y
  | Add => py_add x y
  | Sub => py_sub x y
  end.

(** The value of a token: the number it spells, or else the variable it
    names. *)
Definition token_value (tbl : gmap pystr pynum) (t : pystr) : result pynum :=
  match float_of_str t with
  | Some x => Ok (PyFloat x)
  | None =>
      match tbl !! t with
      | Some v => let* x := float_of_num v in Ok (PyFloat x)
      | None => Raise (Exception (SYMBOL_NOT_FOUND_ERROR ++ str ": " ++ t))
      end
  end.

(** The value of an expression, operands first, left before right. *)
Fixpoint value (M : MathModule) (tbl : gmap pystr pynum) (e : expr) : result pynum :=
  match e with
  | Tok t => token_value tbl t
  | Par e => value M tbl e
  | Fn name arg =>
      let* x := value M tbl arg in
      let* f := dict_get FUNCTION_LIST name in
      call M f x
  | Bin o l r =>
      let* x := value M tbl l in
      let* y := value M tbl r in
      apply_binop M o x y
  end.

(** Outer parentheses removed. *)
Fixpoint core (e : expr) : expr :=
  match e with
  | Par e => core e
  | _ => e
  end.

(** Every operator character of [s] at depth 0 has priority at least [p]. *)
Definition top_operators_from (p : Z) (s : pystr) : Prop :=
  forall k c, nth_error s k = Some c -> is_op c = true ->
              depth (firstn k s) = 0 -> p <= priority c.

(** ** Trees and their evaluation *)

Definition option_Forall {A : Type} (P : A -> Prop) (o : option A) : Prop :=
  match o with
  | Some a => P a
  | None => True
  end.

(** Induction on trees, through the optional children. *)
Fixpoint MathExp_induction (P : MathExp -> Prop)
    (step : forall vt tok l r ty,
        option_Forall P l -> option_Forall P r -> P (Build_MathExp vt tok l r ty))
    (t : MathExp) : P t :=
  match t with
  | Build_MathExp vt tok l r ty =>
      step vt tok l r ty
        (match l as o return option_Forall P o with
         | Some a => MathExp_induction P step a
         | None => I
         end)
        (match r as o return option_Forall P o with
         | Some a => MathExp_induction P step a
         | None => I
         end)
  end.

(** The table a call of [evaluate] reads. *)
Definition table_in_use (self : MathExp) (tmp : option (gmap pystr pynum))
  : gmap pystr pynum :=
  match tmp with
  | None => variables_table self
  | Some t => t
  end.

(** All stored tables emptied, in the node and below. *)
Fixpoint forget_tables (t : MathExp) : MathExp :=
  match t with
  | Build_MathExp _ tok l r ty =>
      Build_MathExp ∅ tok (option_map forget_tables l) (option_map forget_tables r) ty
  end.



(** [holds h self t]: the instance at [self] and the instances below it are
    the tree [t], each with its stored table. *)
Fixpoint holds (h : heap) (self : loc) (t : MathExp) : Prop :=
  match t with
  | Build_MathExp vt tok l r ty =>
      exists o, objects h !! self = Some o /\
        dicts h !! attr_variables_table o = Some vt /\
        attr_token o = tok /\ attr_typ o = ty /\
        match l, attr_left o with
        | Some l', Some ll => holds h ll l'
        | None, None => True
        | _, _ => False
        end /\
        match r, attr_right o with
        | Some r', Some rr => holds h rr r'
        | None, None => True
        | _, _ => False
        end
  end.

(** The number of nested calls an evaluation of the tree makes. *)
Fixpoint height (t : MathExp) : nat :=
  match t with
  | Build_MathExp _ _ l r _ =>
      S (Nat.max (match l with Some l' => height l' | None => O end)
                 (match r with Some r' => height r' | None => O end))
  end.

(** ** The factorial *)

Fixpoint factorial (n : nat) : Z :=
  match n with
  | O => 1
  | S k => Z.of_nat (S k) * factorial k
  end.

(** The non-negative integer a number is, if it is one. *)
Definition nonneg_integer (v : pynum) : option Z :=
  match v with
  | PyInt z => if 0 <=? z then Some z else None
  | PyFloat f =>
      match float_integer f with
      | Some z => if 0 <=? z then Some z else None
      | None => None
      end
  end.

(** A number Python can hold: any [int], and the [float]s of binary64. *)
Definition representable (v : pynum) : Prop :=
  match v with
  | PyInt _ => True
  | PyFloat f => valid_binary prec emax f = true
  end.

(** The remainder of [m * 2^e] by 1, in units of [2 ^ Z.min e (-52)]. *)
Definition rem_one (m : positive) (e : Z) : Z :=
  (Z.pos m * 2 ^ (e - Z.min e (-52)))
  mod (4503599627370496 * 2 ^ (-52 - Z.min e (-52))).

(** ** Three claims as the specification states them *)

(** C1 as stated, with [^] grouping to the right as in arithmetic as
    usually written. *)
Definition agrees_with_standard_arithmetic (M : MathModule) : Prop :=
  forall s e tmp,
    remove_char " " s = render e -> well_formed standard_assoc e ->
    run M s tmp = Some (value M (default ∅ tmp) e).


(** C8 as stated, in its example: [fact(3)] evaluates to the [float]
    6.0. *)
Definition fact_of_three_is_a_float (M : MathModule) : Prop :=
  run M (str "fact(3)") None = Some (Ok (PyFloat (Z2float 6))).

(** ** A sample platform and sample expressions *)

(** A sample platform, to instantiate statements that are parametric in the
    mathematics library: it knows the values the C standard fixes exactly
    ([sin], [tan], [asin] and [atan] of a zero are that zero, [cos] of a
    zero and any power with exponent one are exact) and raises elsewhere. *)
Definition at_zero (v : float -> float) (x : pynum) : result pynum :=
  let* f := float_of_num x in
  if is_zero f then Ok (PyFloat (v f)) else Raise ValueError.

Definition sample_math : MathModule :=
  {| math_sin := at_zero (fun f => f);
     math_cos := at_zero (fun _ => fone);
     math_tan := at_zero (fun f => f);
     math_asin := at_zero (fun f => f);
     math_acos := fun _ => Raise ValueError;
     math_atan := at_zero (fun f => f);
     math_log := fun _ => Raise ValueError;
     math_log10 := fun _ => Raise ValueError;
     platform_pow := fun x y => if feqb y fone then Ok (PyFloat x) else Raise ValueError |}.

Definition two_plus_three_times_four : expr :=
  Bin Add (Tok (str "2")) (Bin Mul (Tok (str "3")) (Tok (str "4"))).

Definition zero_to_zero_to_zero : expr :=
  Bin Pow (Tok (str "0")) (Bin Pow (Tok (str "0")) (Tok (str "0"))).

(** The objects of [x+1] in a heap, with [{x: 1}] stored in the root, and a
    dict [{x: 4}] of the caller's. *)
Definition x_plus_one : expr := Bin Add (Tok (str "x")) (Tok (str "1")).

Definition sample_heap : heap :=
  {| dicts := {[ 10%nat := {[ str "x" := PyInt 1 ]}; 11%nat := ∅; 12%nat := ∅;
                 20%nat := {[ str "x" := PyInt 4 ]} ]};
     objects := {[ 0%nat := Object 10%nat (str "+") (Some 1%nat) (Some 2%nat) MATHEXP_OPERATOR;
                   1%nat := Object 11%nat (str "x") None None MATHEXP_LITERAL;
                   2%nat := Object 12%nat (str "1") None None MATHEXP_LITERAL ]} |}.

(* ===================================================================== *)
(** * Notions for the further properties of the code *)
(* ===================================================================== *)

(** A parenthesis character. *)
Definition is_paren (c : ascii) : bool := Ascii.eqb c "(" || Ascii.eqb c ")".

(** [k] opening parentheses, a string, [k] closing parentheses. *)
Definition wrapped (k : nat) (s : pystr) : pystr :=
  repeat "("%char k ++ s ++ repeat ")"%char k.

Definition blank_free (s : pystr) : Prop := Forall (fun c => c <> " "%char) s.

(** A non-empty string whose last character is no operator. *)
Definition ends_in_operand (s : pystr) : Prop :=
  exists r c, s = r ++ [c] /\ is_op c = false.

(** A string of decimal digits. *)
Definition digits (s : pystr) : Prop := s <> [] /\ forallb is_digit s = true.

(** The shape the constructor gives a tree: an empty table in every node; a
    literal has a non-empty token and no child, a function node a
    registered name and an argument, an operator node an operator and two
    operands. *)
Fixpoint well_shaped (t : MathExp) : Prop :=
  match t with
  | Build_MathExp vt tok l r ty =>
      vt = ∅ /\
      ((ty = MATHEXP_LITERAL /\ tok <> [] /\ l = None /\ r = None) \/
       (ty = MATHEXP_FUNCTION /\ In tok (dict_keys FUNCTION_LIST) /\ l = None /\
        match r with Some r' => well_shaped r' | None => False end) \/
       (ty = MATHEXP_OPERATOR /\ is_operator tok = true /\
        match l with Some l' => well_shaped l' | None => False end /\
        match r with Some r' => well_shaped r' | None => False end))
  end.

(** The tokens an evaluation looks up in the table: those of the literal
    leaves it reaches that are not numbers. *)
Fixpoint tokens_read (t : MathExp) : list pystr :=
  match t with
  | Build_MathExp _ tok l r ty =>
      if ty =? MATHEXP_LITERAL then (if is_number tok then [] else [tok])
      else if ty =? MATHEXP_FUNCTION then
        match r with Some r' => tokens_read r' | None => [] end
      else if ty =? MATHEXP_OPERATOR then
        match l with
        | Some l' => tokens_read l' ++ match r with Some r' => tokens_read r' | None => [] end
        | None => []
        end
      else []
  end.

(** The functions of Python's [math] module the table holds. *)
Definition library_functions (M : MathModule) : list (pynum -> result pynum) :=
  [math_sin M; math_cos M; math_tan M; math_asin M; math_acos M; math_atan M;
   math_log M; math_log10 M].

(** On numbers, the functions of [math] raise nothing but [ValueError]
    (domain) and [OverflowError] (range). *)
Definition math_errors (M : MathModule) : Prop :=
  forall f x e, In f (library_functions M) -> f x = Raise e ->
                e = ValueError \/ e = OverflowError.

(** They return floats. *)
Definition returns_floats (M : MathModule) : Prop :=
  forall f x v, In f (library_functions M) -> f x = Ok v -> exists z, v = PyFloat z.

Definition arithmetic_error (e : exn) : Prop :=
  e = ZeroDivisionError \/ e = OverflowError \/ e = ValueError.

(** What an evaluation with table [tbl] can raise: [Symbol not found] for a
    token it reads and the table does not hold, the factorial's error, or an
    arithmetic error. *)
Definition evaluation_error (t : MathExp) (tbl : gmap pystr pynum) (e : exn) : Prop :=
  (exists tok, e = Exception (SYMBOL_NOT_FOUND_ERROR ++ str ": " ++ tok) /\
               In tok (tokens_read t) /\ tbl !! tok = None) \/
  e = Exception FACTORIAL_ERROR \/ arithmetic_error e.

(** The tree holds a power.  A power of a negative number can be a complex
    number, which the functions of [math], [%] and [<] refuse. *)
Fixpoint uses_power (t : MathExp) : bool :=
  match t with
  | Build_MathExp _ tok l r ty =>
      ((ty =? MATHEXP_OPERATOR) && bool_decide (tok = str "^"))
      || match l with Some l' => uses_power l' | None => false end
      || match r with Some r' => uses_power r' | None => false end
  end.

(** The tree holds a call of [fact]. *)
Fixpoint calls_fact (t : MathExp) : bool :=
  match t with
  | Build_MathExp _ tok l r ty =>
      ((ty =? MATHEXP_FUNCTION) && bool_decide (tok = str "fact"))
      || match l with Some l' => calls_fact l' | None => false end
      || match r with Some r' => calls_fact r' | None => false end
  end.

(** The tokens of the literal leaves of a tree. *)
Fixpoint leaf_tokens (t : MathExp) : list pystr :=
  match t with
  | Build_MathExp _ tok l r ty =>
      (if ty =? MATHEXP_LITERAL then [tok] else [])
      ++ match l with Some l' => leaf_tokens l' | None => [] end
      ++ match r with Some r' => leaf_tokens r' | None => [] end
  end.

(** A string the constructor takes no further apart: normalised, no call,
    and no split position. *)
Definition fully_split (tok : pystr) : Prop :=
  parens_are_balanced tok = true /\ blank_free tok /\ ends_in_operand tok /\
  get_function tok = None /\ lookup_top_operator tok = Ok (-1).

(** The expression [l o (0 - r)], which [l o -r] is read as. *)
Definition negated_right (o : binop) (l r : expr) : expr :=
  Bin o l (Bin Sub (Tok (str "0")) r).

(** No power stands directly to the right of a power: [a^b^c] is not
    written, [a^(b^c)] and [(a^b)^c] are. *)
Fixpoint power_chain_free (e : expr) : Prop :=
  match e with
  | Tok _ => True
  | Par e => power_chain_free e
  | Fn _ arg => power_chain_free arg
  | Bin o l r =>
      power_chain_free l /\ power_chain_free r /\
      match o, r with
      | Pow, Bin Pow _ _ => False
      | _, _ => True
      end
  end.

(* ===================================================================== *)
(** * The float model at a few values *)
(* ===================================================================== *)

(** A few values, to fix the reading of the float model. *)
Example float_of_str_14 : float_of_str (str "14") = Some (Z2float 14).
Proof. vm_compute. reflexivity. Qed.

Example float_of_str_tenth :
  float_of_str (str "0.1") = Some (S754_finite false 7205759403792794 (-56)).
Proof. vm_compute. reflexivity. Qed.

Example float_of_str_literals :
  float_of_str (str "14.0") = Some (Z2float 14) /\
  float_of_str (str "20.0") = Some (Z2float 20) /\
  float_of_str (str "3.0") = Some (Z2float 3) /\
  float_of_str (str "5.0") = Some (Z2float 5) /\
  float_of_str (str "6.0") = Some (Z2float 6) /\
  float_of_str (str "1.0") = Some fone /\
  float_of_str (str "0.0") = Some fzero.
Proof. vm_compute. repeat split; reflexivity. Qed.

Example float_of_str_forms :
  float_of_str (str " 1_000.5e-1 ") = float_of_str (str "100.05") /\
  float_of_str (str "-INF") = Some (S754_infinity true) /\
  float_of_str (str "1e400") = Some (S754_infinity false) /\
  float_of_str (str ".5") = Some (S754_finite false 4503599627370496 (-53)) /\
  float_of_str (str "1e") = None /\
  float_of_str (str "x") = None /\
  float_of_str (str "1__0") = None /\
  float_of_str [] = None.
Proof. vm_compute. repeat split; reflexivity. Qed.

(** Rounding at the ends of the range, underscores in the exponent, and the
    white space stripped. *)
Example float_of_str_edges :
  float_of_str (str "1.7976931348623157e308")
    = Some (S754_finite false 9007199254740991 971) /\
  float_of_str (str "1.7976931348623159e308") = Some (S754_infinity false) /\
  float_of_str (str "4.9e-324") = Some (S754_finite false 1 (-1074)) /\
  float_of_str (str "1e-400") = Some fzero /\
  float_of_str (str "9007199254740993")
    = Some (S754_finite false 4503599627370496 1) /\
  float_of_str (str "1e5_0") = float_of_str (str "1e50") /\
  float_of_str (str "1_e5") = None /\
  float_of_str (str "-0") = Some (S754_zero true) /\
  float_of_str (ascii_of_nat 9 :: str "5" ++ [ascii_of_nat 10]) = Some (Z2float 5) /\
  float_of_str (ascii_of_nat 160 :: str "1") = Some fone /\
  float_of_str (ascii_of_nat 28 :: str "1") = None.
Proof. vm_compute. repeat split; reflexivity. Qed.

(* ===================================================================== *)
(** * Proof steps *)
(* ===================================================================== *)

(** [settle b] replaces the comparison [b] of the goal by the truth value
    that [lia] finds for it. *)
Ltac settle b :=
  lazymatch b with
  | Z.leb _ _ =>
      first [ replace b with true by (symmetry; apply Z.leb_le; lia)
            | replace b with false by (symmetry; apply Z.leb_gt; lia) ]
  | Z.ltb _ _ =>
      first [ replace b with true by (symmetry; apply Z.ltb_lt; lia)
            | replace b with false by (symmetry; apply Z.ltb_ge; lia) ]
  | Z.eqb _ _ =>
      first [ replace b with true by (symmetry; apply Z.eqb_eq; lia)
            | replace b with false by (symmetry; apply Z.eqb_neq; lia) ]
  | Nat.eqb _ _ =>
      first [ replace b with true by (symmetry; apply Nat.eqb_eq; lia)
            | replace b with false by (symmetry; apply Nat.eqb_neq; lia) ]
  end.

(* ===================================================================== *)
(** * Strings: prefixes, suffixes and slices *)
(* ===================================================================== *)

Lemma startswith_app (p r : pystr) : startswith (p ++ r) p = true.
Proof.
  induction p as [|c p IH]; simpl; [reflexivity|].
  rewrite Ascii.eqb_refl. exact IH.
Qed.

Lemma startswith_inv (s p : pystr) :
  startswith s p = true -> exists r, s = p ++ r.
Proof.
  revert s. induction p as [|c p IH]; intros s H.
  - exists s. reflexivity.
  - destruct s as [|d s]; simpl in H; [discriminate|].
    destruct (Ascii.eqb c d) eqn:E; [|discriminate].
    apply Ascii.eqb_eq in E. subst d.
    destruct (IH s H) as [r ->]. exists r. reflexivity.
Qed.

Lemma endswith_app (r p : pystr) : endswith (r ++ p) p = true.
Proof. unfold endswith. rewrite rev_app_distr. apply startswith_app. Qed.

Lemma endswith_inv (s p : pystr) :
  endswith s p = true -> exists r, s = r ++ p.
Proof.
  unfold endswith. intros H. apply startswith_inv in H as [r Hr].
  exists (rev r). rewrite <- (rev_involutive s), Hr, rev_app_distr.
  rewrite rev_involutive. reflexivity.
Qed.

Lemma removelast_snoc (s : pystr) (c : ascii) : removelast (s ++ [c]) = s.
Proof. apply removelast_last. Qed.

Lemma slice_to_last_wrap (p a : pystr) (c : ascii) :
  slice_to_last (length p) (p ++ a ++ [c]) = a.
Proof.
  unfold slice_to_last. rewrite app_assoc, removelast_last.
  rewrite skipn_app, skipn_all, Nat.sub_diag. reflexivity.
Qed.

(** A string that starts with [p] and ends with the character [c], where
    the two do not overlap, wraps its slice. *)
Lemma wrap_inv (s p : pystr) (c : ascii) :
  startswith s p = true -> endswith s [c] = true -> (length p < length s)%nat ->
  s = p ++ slice_to_last (length p) s ++ [c].
Proof.
  intros Hp Hc Hlen.
  apply startswith_inv in Hp as [r ->].
  apply endswith_inv in Hc as [q Hq].
  destruct (exists_last (l := r)) as (a & d & ->).
  { intros ->. rewrite app_nil_r in Hlen. lia. }
  rewrite app_assoc in Hq. apply app_inj_tail in Hq as [_ ->].
  rewrite slice_to_last_wrap. reflexivity.
Qed.

(* ===================================================================== *)
(** * Parenthesis balance *)
(* ===================================================================== *)

Lemma depth_app (a b : pystr) : depth (a ++ b) = depth a + depth b.
Proof. induction a as [|c a IH]; simpl; lia. Qed.

Lemma depth_paren_free (s : pystr) : paren_free s -> depth s = 0.
Proof. induction 1 as [|c s Hc _ IH]; simpl; lia. Qed.

Lemma paren_free_firstn (s : pystr) (n : nat) : paren_free s -> paren_free (firstn n s).
Proof. apply Forall_take. Qed.

Lemma counter_step (i : Z) (c : ascii) :
  (let i := if Ascii.eqb c "(" then i + 1 else i in
   if Ascii.eqb c ")" then i - 1 else i) = i + delta c.
Proof.
  unfold delta. destruct (Ascii.eqb c "(") eqn:E1; cbn zeta.
  - apply Ascii.eqb_eq in E1. subst c. simpl. lia.
  - destruct (Ascii.eqb c ")"); lia.
Qed.

Lemma parens_are_balanced_from_cons (i : Z) (c : ascii) (s : pystr) :
  parens_are_balanced_from i (c :: s) =
  if i + delta c <? 0 then false else parens_are_balanced_from (i + delta c) s.
Proof. cbn [parens_are_balanced_from]. rewrite counter_step. reflexivity. Qed.

(** The loop agrees with the running-count reading. *)
Lemma parens_are_balanced_from_spec (s : pystr) (i : Z) :
  0 <= i ->
  parens_are_balanced_from i s = true <->
  (forall n, 0 <= i + running_count s n) /\ i + depth s = 0.
Proof.
  revert i. induction s as [|c s IH]; intros i Hi.
  - cbn [parens_are_balanced_from depth]. rewrite Z.eqb_eq. split.
    + intros ->. split; [|reflexivity]. intros n. unfold running_count.
      rewrite firstn_nil. simpl. lia.
    + intros [_ H]. lia.
  - rewrite parens_are_balanced_from_cons. cbn [depth].
    destruct (i + delta c <? 0) eqn:E.
    + apply Z.ltb_lt in E. split; [discriminate|].
      intros [H _]. specialize (H 1%nat). unfold running_count in H.
      simpl in H. lia.
    + apply Z.ltb_ge in E. rewrite (IH _ E). split.
      * intros [H1 H2]. split; [|lia]. intros [|n]; unfold running_count; simpl.
        -- lia.
        -- specialize (H1 n). unfold running_count in H1. lia.
      * intros [H1 H2]. split; [|lia]. intros n. specialize (H1 (S n)).
        unfold running_count in *. simpl in H1. lia.
Qed.

Lemma parens_are_balanced_spec (s : pystr) :
  parens_are_balanced s = true <-> balanced s.
Proof.
  unfold parens_are_balanced, balanced.
  rewrite parens_are_balanced_from_spec by lia. simpl. reflexivity.
Qed.

Lemma unbalanced_not_balanced (s : pystr) : unbalanced s -> ~ balanced s.
Proof.
  intros [[n Hn]|Hd] [H1 H2]; [specialize (H1 n)|]; lia.
Qed.

Lemma parens_are_balanced_unbalanced (s : pystr) :
  unbalanced s -> parens_are_balanced s = false.
Proof.
  intros H. apply not_true_is_false. rewrite parens_are_balanced_spec.
  apply unbalanced_not_balanced, H.
Qed.

(** The loop is complete for the running-count reading too: a string it
    rejects is unbalanced. *)
Lemma parens_are_balanced_from_false (s : pystr) (i : Z) :
  parens_are_balanced_from i s = false ->
  (exists n, i + running_count s n < 0) \/ i + depth s <> 0.
Proof.
  revert i. induction s as [|c s IH]; intros i.
  - cbn [parens_are_balanced_from depth]. rewrite Z.eqb_neq. intros H. right. lia.
  - rewrite parens_are_balanced_from_cons. cbn [depth].
    destruct (i + delta c <? 0) eqn:E.
    + apply Z.ltb_lt in E. intros _. left. exists 1%nat.
      unfold running_count. simpl. lia.
    + intros H. apply IH in H as [[n Hn]|Hd].
      * left. exists (S n). unfold running_count in *. simpl. lia.
      * right. lia.
Qed.

Lemma parens_are_balanced_false_iff (s : pystr) :
  parens_are_balanced s = false <-> unbalanced s.
Proof.
  split; [|apply parens_are_balanced_unbalanced].
  intros H. apply parens_are_balanced_from_false in H. exact H.
Qed.

(** Wrapping a balanced string in [name(...)] keeps it balanced. *)
Lemma balanced_wrap (p a : pystr) :
  paren_free p -> balanced a -> balanced (p ++ "("%char :: a ++ [")"%char]).
Proof.
  intros Hp [Ha1 Ha2]. split.
  - intros n. unfold running_count.
    destruct (Nat.le_gt_cases n (length p)) as [Hn|Hn].
    + rewrite firstn_app. replace (n - length p)%nat with 0%nat by lia.
      rewrite firstn_0, app_nil_r.
      rewrite depth_paren_free; [lia|]. apply paren_free_firstn, Hp.
    + rewrite firstn_app, firstn_all2 by lia. rewrite depth_app.
      rewrite depth_paren_free by exact Hp.
      destruct (n - length p)%nat as [|k] eqn:Hk; [lia|].
      rewrite firstn_cons. cbn [depth].
      rewrite firstn_app, depth_app.
      specialize (Ha1 k). unfold running_count in Ha1.
      assert (Hd : delta "(" = 1) by reflexivity. rewrite Hd.
      destruct (k - length a)%nat as [|j] eqn:Hj.
      * rewrite firstn_0. simpl. lia.
      * assert (Hk' : firstn k a = a) by (apply firstn_all2; lia).
        rewrite Hk' in *. rewrite Ha2.
        cbn [firstn depth]. rewrite firstn_nil. cbn [depth].
        change (delta ")") with (-1). lia.
  - rewrite depth_app, depth_paren_free by exact Hp.
    cbn [depth]. rewrite depth_app, Ha2. reflexivity.
Qed.

(* ===================================================================== *)
(** * Function detection *)
(* ===================================================================== *)

Lemma FUNCTION_LIST_paren_free : Forall paren_free (dict_keys FUNCTION_LIST).
Proof. repeat constructor. Qed.

(** The shape of a string that passes the two textual tests of
    [get_function]. *)
Lemma call_shape (exp name : pystr) :
  startswith exp (name ++ str "(") = true -> endswith exp (str ")") = true ->
  exp = name ++ "("%char :: slice_to_last (length name + 1) exp ++ [")"%char].
Proof.
  intros Hp Hc.
  assert (Hlen : (length (name ++ str "(") < length exp)%nat).
  { apply startswith_inv in Hp as [r ->]. apply endswith_inv in Hc as [q Hq].
    destruct r as [|d r]; [|rewrite !length_app; simpl; lia].
    rewrite app_nil_r in Hq. apply app_inj_tail in Hq as [_ Hq]. discriminate. }
  pose proof (wrap_inv _ _ _ Hp Hc Hlen) as H.
  rewrite length_app in H. cbn [str list_ascii_of_string length] in H.
  rewrite <- app_assoc in H. exact H.
Qed.

(** Once the string has been shortened to an unbalanced interior, no later
    key can be returned: a match would make the interior balanced. *)
Lemma get_function_loop_sound (keys : list pystr) :
  Forall paren_free keys ->
  forall exp F, get_function_loop keys exp = Some F ->
    In F keys /\
    exp = F ++ "("%char :: slice_to_last (length F + 1) exp ++ [")"%char] /\
    parens_are_balanced (slice_to_last (length F + 1) exp) = true.
Proof.
  induction 1 as [|k keys Hk Hkeys IH]; intros exp F H; [discriminate|].
  cbn [get_function_loop] in H.
  destruct (startswith exp (k ++ str "(") && endswith exp (str ")")) eqn:E.
  - apply andb_true_iff in E as [E1 E2].
    destruct (parens_are_balanced (slice_to_last (length k + 1) exp)) eqn:B.
    + injection H as <-. split; [left; reflexivity|].
      split; [apply call_shape; assumption | exact B].
    + exfalso. apply IH in H as (HF & Hshape & HB).
      assert (HFp : paren_free F).
      { rewrite Forall_forall in Hkeys. apply Hkeys, list_elem_of_In, HF. }
      apply parens_are_balanced_spec in HB.
      pose proof (balanced_wrap _ _ HFp HB) as Hw. rewrite <- Hshape in Hw.
      apply parens_are_balanced_spec in Hw. congruence.
  - apply IH in H as (HF & Hrest). split; [right; exact HF | exact Hrest].
Qed.

Lemma get_function_sound (exp F : pystr) :
  get_function exp = Some F ->
  In F (dict_keys FUNCTION_LIST) /\
  exp = F ++ "("%char :: slice_to_last (length F + 1) exp ++ [")"%char] /\
  parens_are_balanced (slice_to_last (length F + 1) exp) = true.
Proof. apply get_function_loop_sound, FUNCTION_LIST_paren_free. Qed.

(* ===================================================================== *)
(** * The top-level operator locator *)
(* ===================================================================== *)

Lemma is_op_cases (c : ascii) :
  is_op c = true ->
  c = "^"%char \/ c = "*"%char \/ c = "/"%char \/ c = "+"%char \/ c = "-"%char.
Proof.
  unfold is_op, is_operator. intros H. apply bool_decide_eq_true in H.
  cbn [str list_ascii_of_string] in H.
  repeat (apply elem_of_cons in H as [H|H]; [injection H as ->; tauto|]).
  inversion H.
Qed.

Lemma is_op_paren_free (c : ascii) : is_op c = true -> delta c = 0.
Proof. intros H. destruct (is_op_cases c H) as [->|[->|[->|[->| ->]]]]; reflexivity. Qed.

Lemma dict_get_priority (c : ascii) :
  is_op c = true -> dict_get OPERATOR_PRIORITY [c] = Ok (priority c).
Proof. intros H. destruct (is_op_cases c H) as [->|[->|[->|[->| ->]]]]; reflexivity. Qed.

Lemma bool_decide_char (c d : ascii) : bool_decide ([c] = [d]) = Ascii.eqb c d.
Proof.
  destruct (Ascii.eqb c d) eqn:E.
  - apply Ascii.eqb_eq in E. subst. apply bool_decide_eq_true. reflexivity.
  - apply Ascii.eqb_neq in E. apply bool_decide_eq_false. congruence.
Qed.

Lemma getitem_nth (s : pystr) (k : nat) (c : ascii) :
  nth_error s k = Some c -> getitem s (Z.of_nat k) = Ok c.
Proof.
  intros H. unfold getitem.
  assert (Hk : (k < length s)%nat) by (apply nth_error_Some; congruence).
  settle (Z.of_nat k <? 0). cbn iota. settle (Z.of_nat k <? 0).
  settle (Z.of_nat (length s) <=? Z.of_nat k).
  cbn [orb]. rewrite Nat2Z.id, H. reflexivity.
Qed.

Lemma char_at_nth_error (s : pystr) (k : nat) (c : ascii) :
  nth_error s k = Some c -> char_at s k = c.
Proof. intros H. unfold char_at. apply nth_error_nth, H. Qed.

Lemma nth_error_char_at (s : pystr) (k : nat) :
  (k < length s)%nat -> nth_error s k = Some (char_at s k).
Proof. intros H. unfold char_at. apply nth_error_nth'. exact H. Qed.

Lemma depth_firstn_S (s : pystr) (k : nat) (c : ascii) :
  nth_error s k = Some c -> depth (firstn (S k) s) = depth (firstn k s) + delta c.
Proof.
  revert k. induction s as [|d s IH]; intros [|k] H; try discriminate.
  - injection H as ->. simpl. lia.
  - simpl in H. rewrite firstn_cons. cbn [depth].
    rewrite (IH _ H). rewrite firstn_cons. cbn [depth]. lia.
Qed.

(** One turn of the loop, at index [k] holding [c]. *)
Lemma lookup_top_operator_step_spec (exp : pystr) (st : scan) (k : nat) (c : ascii) :
  nth_error exp k = Some c ->
  i st = Z.of_nat k - 1 ->
  level st = depth (firstn k exp) ->
  (pos st = -1 \/
   exists p, pos st = Z.of_nat p /\ (p < length exp)%nat /\ is_op (char_at exp p) = true) ->
  lookup_top_operator_step exp st c =
  Ok (Scan (new_pos exp (pos st) k) (depth (firstn (S k) exp)) (Z.of_nat k)).
Proof.
  intros Hc Hi Hl Hp.
  assert (Hk : (k < length exp)%nat) by (apply nth_error_Some; congruence).
  unfold lookup_top_operator_step, new_pos, candidateb.
  rewrite Hc, Hi, (depth_firstn_S _ _ _ Hc), <- Hl.
  replace (Z.of_nat k - 1 + 1) with (Z.of_nat k) by lia.
  cbn [str list_ascii_of_string]. rewrite !bool_decide_char.
  destruct (Ascii.eqb c "(") eqn:E1.
  { apply Ascii.eqb_eq in E1. subst c. cbn. repeat f_equal; lia. }
  destruct (Ascii.eqb c ")") eqn:E2.
  { apply Ascii.eqb_eq in E2. subst c. cbn. repeat f_equal; lia. }
  assert (Hd : delta c = 0) by (unfold delta; rewrite E1, E2; reflexivity).
  rewrite Hd, Z.add_0_r. fold (is_op c).
  destruct (is_op c) eqn:Eop; cbn [negb andb]; [|reflexivity].
  destruct (level st =? 0) eqn:El; cbn [negb andb]; [|reflexivity].
  replace (Z.of_nat k =? 0) with (k =? 0)%nat
    by (destruct (Nat.eqb_spec k 0), (Z.eqb_spec (Z.of_nat k) 0); lia || reflexivity).
  replace (Z.of_nat k =? Z.of_nat (length exp) - 1) with (k =? length exp - 1)%nat
    by (destruct (Nat.eqb_spec k (length exp - 1)),
          (Z.eqb_spec (Z.of_nat k) (Z.of_nat (length exp) - 1)); lia || reflexivity).
  destruct ((k =? 0)%nat || (k =? length exp - 1)%nat) eqn:Eends;
    cbn [negb andb]; [reflexivity|].
  apply orb_false_iff in Eends as [Ek0 _]. apply Nat.eqb_neq in Ek0.
  unfold plus_or_minus. cbn [str list_ascii_of_string]. rewrite !bool_decide_char.
  assert (Hprev : getitem exp (Z.of_nat k - 1) = Ok (char_at exp (k - 1))).
  { replace (Z.of_nat k - 1) with (Z.of_nat (k - 1)) by lia.
    apply getitem_nth, nth_error_char_at. lia. }
  assert (Hsign :
    (if Ascii.eqb c "+" || Ascii.eqb c "-"
     then let* prev := getitem exp (Z.of_nat k - 1) in Ok (is_operator [prev])
     else Ok false) =
    Ok ((Ascii.eqb c "+" || Ascii.eqb c "-") && is_op (char_at exp (k - 1)))).
  { rewrite Hprev. destruct (Ascii.eqb c "+" || Ascii.eqb c "-"); reflexivity. }
  rewrite Hsign. cbn [bind].
  destruct ((Ascii.eqb c "+" || Ascii.eqb c "-") && is_op (char_at exp (k - 1)));
    cbn [negb]; [reflexivity|].
  destruct (pos st =? -1) eqn:Epos; [reflexivity|].
  destruct Hp as [Hp|(p & Hp & Hplen & Hpop)]; [rewrite Hp in Epos; discriminate|].
  rewrite (dict_get_priority _ Eop). cbn [bind].
  rewrite Hp, (getitem_nth _ _ _ (nth_error_char_at _ _ Hplen)). cbn [bind].
  rewrite (dict_get_priority _ Hpop). cbn [bind].
  rewrite Nat2Z.id, (char_at_nth_error _ _ _ Hc).
  destruct (priority c <=? priority (char_at exp p)); reflexivity.
Qed.

Lemma candidateb_inv (exp : pystr) (k : nat) :
  candidateb exp k = true ->
  (0 < k)%nat /\ (k < length exp - 1)%nat /\ is_op (char_at exp k) = true /\
  depth (firstn k exp) = 0.
Proof.
  unfold candidateb. destruct (nth_error exp k) as [c|] eqn:Hc; [|discriminate].
  assert (Hk : (k < length exp)%nat) by (apply nth_error_Some; congruence).
  rewrite (char_at_nth_error _ _ _ Hc). intros H.
  apply andb_true_iff in H as [H _]. apply andb_true_iff in H as [H H3].
  apply andb_true_iff in H as [H1 H2].
  apply negb_true_iff, orb_false_iff in H3 as [Ha Hb].
  apply Nat.eqb_neq in Ha, Hb. apply Z.eqb_eq in H2.
  repeat split; try assumption; lia.
Qed.

Lemma best_0 (exp : pystr) : best exp 0 (-1).
Proof. left. split; [reflexivity|]. intros j Hj. lia. Qed.

Lemma best_step (exp : pystr) (n : nat) (r : Z) :
  best exp n r -> best exp (S n) (new_pos exp r n).
Proof.
  unfold new_pos. intros H. destruct (candidateb exp n) eqn:Hn.
  - destruct H as [[-> Hnone]|(k & -> & Hk & Hck & Hmin & Hlast)].
    + cbn. right. exists n. repeat split; [lia|assumption| |].
      * intros j Hj Hcj. assert (j = n) as ->; [|lia].
        destruct (Nat.eq_dec j n); [assumption|].
        rewrite Hnone in Hcj by lia. discriminate.
      * intros j Hj Hcj Hlt. lia.
    + settle (Z.of_nat k =? -1).
      rewrite Nat2Z.id.
      destruct (priority (char_at exp n) <=? priority (char_at exp k)) eqn:E.
      * apply Z.leb_le in E. right. exists n. repeat split; [lia|assumption| |].
        -- intros j Hj Hcj. destruct (Nat.eq_dec j n) as [->|Hne]; [lia|].
           specialize (Hmin j ltac:(lia) Hcj). lia.
        -- intros j Hj Hcj Hlt. lia.
      * apply Z.leb_gt in E. right. exists k. repeat split; [lia|assumption| |].
        -- intros j Hj Hcj. destruct (Nat.eq_dec j n) as [->|Hne]; [lia|].
           apply Hmin; [lia|assumption].
        -- intros j Hj Hcj Hlt. destruct (Nat.eq_dec j n) as [->|Hne]; [lia|].
           apply Hlast; [lia|assumption|assumption].
  - destruct H as [[-> Hnone]|(k & -> & Hk & Hck & Hmin & Hlast)].
    + left. split; [reflexivity|]. intros j Hj.
      destruct (Nat.eq_dec j n) as [->|Hne]; [assumption|]. apply Hnone. lia.
    + right. exists k. repeat split; [lia|assumption| |].
      * intros j Hj Hcj. destruct (Nat.eq_dec j n) as [->|Hne]; [congruence|].
        apply Hmin; [lia|assumption].
      * intros j Hj Hcj Hlt. destruct (Nat.eq_dec j n) as [->|Hne]; [congruence|].
        apply Hlast; [lia|assumption|assumption].
Qed.

Lemma best_pos (exp : pystr) (n : nat) (r : Z) :
  best exp n r ->
  r = -1 \/ exists p, r = Z.of_nat p /\ (p < length exp)%nat /\ is_op (char_at exp p) = true.
Proof.
  intros [[-> _]|(k & -> & _ & Hck & _)]; [left; reflexivity|].
  right. exists k. apply candidateb_inv in Hck. intuition lia.
Qed.

(** The loop never raises, and leaves in [pos] the position [best]
    describes. *)
Lemma lookup_top_operator_loop_spec (exp : pystr) :
  forall rest done st,
    exp = done ++ rest ->
    i st = Z.of_nat (length done) - 1 ->
    level st = depth done ->
    best exp (length done) (pos st) ->
    exists st', lookup_top_operator_loop exp rest st = Ok st' /\
                top_operator exp (pos st').
Proof.
  induction rest as [|c rest IH]; intros done st Hexp Hi Hl Hb.
  - exists st. split; [reflexivity|]. unfold top_operator.
    rewrite app_nil_r in Hexp. subst done. exact Hb.
  - cbn [lookup_top_operator_loop].
    assert (Hc : nth_error exp (length done) = Some c).
    { rewrite Hexp, nth_error_app2, Nat.sub_diag by lia. reflexivity. }
    assert (Hfirst : firstn (length done) exp = done).
    { rewrite Hexp, firstn_app, Nat.sub_diag, firstn_all. simpl. apply app_nil_r. }
    rewrite (lookup_top_operator_step_spec exp st (length done) c Hc Hi);
      [| rewrite Hfirst; exact Hl | exact (best_pos _ _ _ Hb)].
    cbn [bind].
    apply (IH (done ++ [c])).
    + rewrite <- app_assoc. exact Hexp.
    + cbn [i]. rewrite length_app. simpl. lia.
    + cbn [level]. rewrite (depth_firstn_S _ _ _ Hc), Hfirst, depth_app.
      simpl. lia.
    + cbn [pos]. rewrite length_app. cbn [length]. rewrite Nat.add_1_r.
      apply best_step, Hb.
Qed.

Theorem lookup_top_operator_spec (exp : pystr) :
  exists r, lookup_top_operator exp = Ok r /\ top_operator exp r.
Proof.
  destruct (lookup_top_operator_loop_spec exp exp [] (Scan (-1) 0 (-1)))
    as (st' & Hloop & Hbest); try reflexivity.
  - apply best_0.
  - exists (pos st'). unfold lookup_top_operator. rewrite Hloop. split; [reflexivity|].
    exact Hbest.
Qed.

(** A split position is an inner index holding an operator at depth 0. *)
Lemma top_operator_range (exp : pystr) (r : Z) :
  top_operator exp r -> 0 <= r ->
  exists k, r = Z.of_nat k /\ (0 < k)%nat /\ (k < length exp - 1)%nat /\
            is_op (char_at exp k) = true /\ depth (firstn k exp) = 0.
Proof.
  intros [[-> _]|(k & -> & _ & Hck & _)] Hr; [lia|].
  exists k. split; [reflexivity|]. apply candidateb_inv, Hck.
Qed.

(** The specification determines the position. *)
Lemma top_operator_unique (exp : pystr) (r1 r2 : Z) :
  top_operator exp r1 -> top_operator exp r2 -> r1 = r2.
Proof.
  intros [[-> H1]|(k1 & -> & Hk1 & Hc1 & Hmin1 & Hlast1)]
         [[-> H2]|(k2 & -> & Hk2 & Hc2 & Hmin2 & Hlast2)].
  - reflexivity.
  - rewrite H1 in Hc2 by assumption. discriminate.
  - rewrite H2 in Hc1 by assumption. discriminate.
  - pose proof (Hmin1 k2 Hk2 Hc2). pose proof (Hmin2 k1 Hk1 Hc1).
    destruct (Nat.lt_total k1 k2) as [Hlt|[->|Hgt]]; [|reflexivity|].
    + specialize (Hlast1 k2 Hk2 Hc2 Hlt). lia.
    + specialize (Hlast2 k1 Hk1 Hc1 Hgt). lia.
Qed.

(* ===================================================================== *)
(** * Normalisation *)
(* ===================================================================== *)

Lemma getitem_error (s : pystr) (z : Z) (e : exn) :
  getitem s z = Raise e -> e = IndexError.
Proof.
  unfold getitem.
  destruct (_ || _); [intros [= <-]; reflexivity|].
  destruct (nth_error _ _); [discriminate|intros [= <-]; reflexivity].
Qed.

Lemma getitem_nil (z : Z) : getitem [] z = Raise IndexError.
Proof.
  unfold getitem. destruct (_ || _); [reflexivity|].
  destruct (Z.to_nat _); reflexivity.
Qed.

Lemma getitem_cons_0 (c : ascii) (s : pystr) : getitem (c :: s) 0 = Ok c.
Proof. apply (getitem_nth (c :: s) 0). reflexivity. Qed.

Lemma getitem_0_inv (s : pystr) (c : ascii) :
  getitem s 0 = Ok c -> exists s', s = c :: s'.
Proof.
  destruct s as [|d s]; [rewrite getitem_nil; discriminate|].
  rewrite getitem_cons_0. intros [= ->]. exists s. reflexivity.
Qed.

Lemma length_remove_char (c : ascii) (s : pystr) :
  (length (remove_char c s) <= length s)%nat.
Proof. unfold remove_char. apply filter_length_le. Qed.

Lemma length_slice_to_last (a : nat) (s : pystr) :
  length (slice_to_last a s) = (length s - 1 - a)%nat.
Proof.
  unfold slice_to_last. rewrite length_skipn.
  destruct s as [|c s]; [reflexivity|].
  rewrite (removelast_firstn_len (c :: s)), length_firstn. simpl. lia.
Qed.

Lemma length_remove_extra_parens_loop (fuel : nat) (exp : pystr) :
  (length (remove_extra_parens_loop fuel exp) <= length exp)%nat.
Proof.
  revert exp. induction fuel as [|fuel IH]; intros exp; cbn; [lia|].
  destruct (extra_parens exp); [|lia].
  specialize (IH (slice_to_last 1 exp)). rewrite length_slice_to_last in IH. lia.
Qed.

Lemma length_remove_extra_parens (exp : pystr) :
  (length (remove_extra_parens exp) <= length exp)%nat.
Proof. apply length_remove_extra_parens_loop. Qed.

Lemma exp_check_error (exp : pystr) (e : exn) :
  exp_check exp = Raise e ->
  e = Exception MALFORMED_EXPRESSION_ERROR \/ e = IndexError.
Proof.
  unfold exp_check. fold (stripped exp).
  destruct (parens_are_balanced exp); cbn [negb]; [|intros [= <-]; left; reflexivity].
  destruct (getitem (stripped exp) 0) as [first|e1] eqn:E1; cbn [bind];
    [|intros [= <-]; right; eapply getitem_error, E1].
  destruct (getitem (stripped exp) (-1)) as [last|e2] eqn:E2; cbn [bind];
    [|intros [= <-]; right; eapply getitem_error, E2].
  destruct (_ && _); [intros [= <-]; left; reflexivity|].
  destruct (is_operator [last]); [intros [= <-]; left; reflexivity|].
  destruct (bool_decide ([first] = str "-")).
  - cbn [str list_ascii_of_string app]. rewrite getitem_cons_0. discriminate.
  - rewrite E1. cbn [bind]. discriminate.
Qed.

Lemma exp_check_length (exp exp' : pystr) :
  exp_check exp = Ok exp' -> (length exp' <= length exp + 1)%nat.
Proof.
  unfold exp_check. fold (stripped exp).
  assert (Hs : (length (stripped exp) <= length exp)%nat).
  { unfold stripped. etransitivity; [apply length_remove_extra_parens|].
    apply length_remove_char. }
  destruct (parens_are_balanced exp); cbn [negb]; [|discriminate].
  destruct (getitem (stripped exp) 0) as [first|e1] eqn:E1; cbn [bind]; [|discriminate].
  destruct (getitem (stripped exp) (-1)) as [last|e2] eqn:E2; cbn [bind]; [|discriminate].
  destruct (_ && _); [discriminate|].
  destruct (is_operator [last]); [discriminate|].
  destruct (bool_decide ([first] = str "-")).
  - cbn [str list_ascii_of_string app]. rewrite getitem_cons_0. cbn [bind].
    destruct (bool_decide (_ = _)); intros [= <-]; cbn [skipn length];
      rewrite ?skipn_O; lia.
  - rewrite E1. cbn [bind].
    destruct (bool_decide (_ = _)); intros [= <-]; [rewrite length_skipn|]; lia.
Qed.

(* ===================================================================== *)
(** * Construction always returns *)
(* ===================================================================== *)

Lemma MathExp_init_total (fuel : nat) :
  forall exp, (length exp < fuel)%nat ->
    exists r, MathExp_init fuel exp = Some r /\ init_outcome r.
Proof.
  induction fuel as [|fuel IH]; intros exp Hlen; [lia|].
  cbn [MathExp_init].
  destruct (exp_check exp) as [exp'|e] eqn:Hcheck; cbn [bind_fueled].
  2:{ exists (Raise e). split; [reflexivity|]. apply (exp_check_error _ _ Hcheck). }
  pose proof (exp_check_length _ _ Hcheck) as Hlen'.
  destruct (get_function exp') as [F|] eqn:HF.
  - apply get_function_sound in HF as (_ & Hshape & _).
    assert (Harg : (length (slice_to_last (length F + 1) exp') < fuel)%nat).
    { rewrite length_slice_to_last.
      apply (f_equal (@length ascii)) in Hshape.
      rewrite length_app in Hshape. cbn [length] in Hshape.
      rewrite length_app, length_slice_to_last in Hshape. cbn [length] in Hshape.
      lia. }
    destruct (IH _ Harg) as ([t|e] & -> & Ho); cbn [bind_fueled].
    + eexists. split; [reflexivity|exact I].
    + eexists. split; [reflexivity|exact Ho].
  - destruct (lookup_top_operator_spec exp') as (r & -> & Hr). cbn [bind_fueled].
    destruct (0 <=? r) eqn:Hsign.
    + apply Z.leb_le in Hsign.
      destruct (top_operator_range _ _ Hr Hsign) as (k & -> & Hk0 & Hk1 & _).
      rewrite (getitem_nth _ _ _ (nth_error_char_at exp' k ltac:(lia))).
      cbn [bind_fueled].
      assert (Hl : (length (firstn (Z.to_nat (Z.of_nat k)) exp') < fuel)%nat).
      { rewrite length_firstn. lia. }
      assert (Hr' : (length (skipn (Z.to_nat (Z.of_nat k + 1)) exp') < fuel)%nat).
      { rewrite length_skipn. lia. }
      destruct (IH _ Hl) as ([tl|e] & -> & Hol); cbn [bind_fueled];
        [|eexists; split; [reflexivity|exact Hol]].
      destruct (IH _ Hr') as ([tr|e] & -> & Hor); cbn [bind_fueled];
        [|eexists; split; [reflexivity|exact Hor]].
      eexists. split; [reflexivity|exact I].
    + eexists. split; [reflexivity|exact I].
Qed.

(** [MathExp(exp)] always returns a tree or raises; the only exceptions are
    the module's own [Malformed expression] and [IndexError]. *)
Theorem MathExp_new_total (exp : pystr) :
  exists r, MathExp_new exp = Some r /\ init_outcome r.
Proof. apply MathExp_init_total. lia. Qed.

(* ===================================================================== *)
(** * Expressions as operator-precedence arithmetic reads them *)
(* ===================================================================== *)

(** ** What is written *)

Lemma is_op_op_char (o : binop) : is_op (op_char o) = true.
Proof. destruct o; reflexivity. Qed.

Lemma delta_op_char (o : binop) : delta (op_char o) = 0.
Proof. destruct o; reflexivity. Qed.

Lemma FUNCTION_LIST_token_ok : Forall token_ok (dict_keys FUNCTION_LIST).
Proof.
  repeat constructor; try discriminate.
Qed.

Lemma function_name_ok (name : pystr) :
  In name (dict_keys FUNCTION_LIST) -> token_ok name.
Proof.
  intros H. pose proof FUNCTION_LIST_token_ok as HF.
  rewrite Forall_forall in HF. apply HF, list_elem_of_In, H.
Qed.

Lemma token_ok_paren_free (t : pystr) : token_ok t -> paren_free t.
Proof. intros [_ H]. eapply Forall_impl; [exact H|]. intros c (_ & Hc & _). exact Hc. Qed.

Section Written.

(** The lemmas of this section hold whichever way the operators group. *)
Variable grouping : binop -> assoc.

Lemma render_nonempty (e : expr) :
  well_formed grouping e -> render e <> [].
Proof.
  induction e as [t|e IH|name arg IH|o l IHl r IHr]; cbn [render well_formed].
  - intros [H _]. exact H.
  - discriminate.
  - intros _. destruct name; discriminate.
  - intros (Hl & _). specialize (IHl Hl). destruct (render l); [congruence|discriminate].
Qed.

Lemma render_depth (e : expr) :
  well_formed grouping e -> balanced (render e).
Proof.
  induction e as [t|e IH|name arg IH|o l IHl r IHr]; cbn [render well_formed].
  - intros Ht. apply token_ok_paren_free in Ht. split.
    + intros n. unfold running_count.
      rewrite depth_paren_free; [lia|]. apply paren_free_firstn, Ht.
    + apply depth_paren_free, Ht.
  - intros H. apply (balanced_wrap []); [constructor|]. apply IH, H.
  - intros [Hn H]. apply balanced_wrap; [|apply IH, H].
    apply token_ok_paren_free, function_name_ok, Hn.
  - intros (Hl & Hr & _). destruct (IHl Hl) as [Hl1 Hl2].
    destruct (IHr Hr) as [Hr1 Hr2]. split.
    + intros n. unfold running_count. rewrite firstn_app, depth_app.
      specialize (Hl1 n). unfold running_count in Hl1.
      destruct (n - length (render l))%nat as [|k] eqn:Hk.
      * rewrite firstn_0. simpl. lia.
      * assert (Hall : firstn n (render l) = render l) by (apply firstn_all2; lia).
        rewrite Hall, Hl2, firstn_cons. cbn [depth]. rewrite delta_op_char.
        specialize (Hr1 k). unfold running_count in Hr1. lia.
    + rewrite depth_app. cbn [depth]. rewrite delta_op_char. lia.
Qed.

(** Strictly inside [name(...)], the running count is positive. *)
Lemma inside_wrap_positive (p a : pystr) (k : nat) :
  paren_free p -> balanced a ->
  (length p < k)%nat -> (k <= length p + 1 + length a)%nat ->
  1 <= depth (firstn k (p ++ "("%char :: a ++ [")"%char])).
Proof.
  intros Hp [Ha _] Hk1 Hk2.
  rewrite firstn_app, depth_app, firstn_all2, (depth_paren_free p Hp) by lia.
  destruct (k - length p)%nat as [|j] eqn:Hj; [lia|].
  rewrite firstn_cons. cbn [depth]. rewrite firstn_app, depth_app.
  replace (j - length a)%nat with 0%nat by lia. rewrite firstn_0.
  specialize (Ha j). unfold running_count in Ha.
  change (delta "(") with 1. simpl. lia.
Qed.

Lemma remove_char_id (c : ascii) (s : pystr) :
  Forall (fun d => d <> c) s -> remove_char c s = s.
Proof.
  unfold remove_char. induction 1 as [|d s Hd _ IH]; [reflexivity|].
  cbn [List.filter]. apply Ascii.eqb_neq in Hd. rewrite Hd. cbn. f_equal. exact IH.
Qed.

Lemma render_no_blank (e : expr) :
  well_formed grouping e -> Forall (fun d => d <> " "%char) (render e).
Proof.
  assert (Htok : forall t, token_ok t -> Forall (fun d => d <> " "%char) t).
  { intros t [_ H]. eapply Forall_impl; [exact H|]. intros c (_ & _ & Hc). exact Hc. }
  induction e as [t|e IH|name arg IH|o l IHl r IHr]; cbn [render well_formed].
  - apply Htok.
  - intros H. constructor; [discriminate|]. apply Forall_app. split; [apply IH, H|].
    constructor; [discriminate|constructor].
  - intros [Hn H]. apply Forall_app. split; [apply Htok, function_name_ok, Hn|].
    constructor; [discriminate|]. apply Forall_app. split; [apply IH, H|].
    constructor; [discriminate|constructor].
  - intros (Hl & Hr & _). apply Forall_app. split; [apply IHl, Hl|].
    constructor; [destruct o; discriminate | apply IHr, Hr].
Qed.

(** What is written neither starts nor ends with an operator. *)
Lemma render_first (e : expr) :
  well_formed grouping e -> exists c s, render e = c :: s /\ is_op c = false.
Proof.
  assert (Htok : forall t, token_ok t -> exists c s, t = c :: s /\ is_op c = false).
  { intros [|c t] [Hne H]; [congruence|]. exists c, t. split; [reflexivity|].
    inversion H as [|? ? (Hc & _) _]. exact Hc. }
  induction e as [t|e IH|name arg IH|o l IHl r IHr]; cbn [render well_formed].
  - apply Htok.
  - intros _. eexists _, _. split; reflexivity.
  - intros [Hn _]. destruct (Htok _ (function_name_ok _ Hn)) as (c & s & -> & Hc).
    eexists _, _. split; [reflexivity|exact Hc].
  - intros (Hl & _). destruct (IHl Hl) as (c & s & -> & Hc).
    eexists _, _. split; [reflexivity|exact Hc].
Qed.

Lemma render_last (e : expr) :
  well_formed grouping e -> exists s c, render e = s ++ [c] /\ is_op c = false.
Proof.
  induction e as [t|e IH|name arg IH|o l IHl r IHr]; cbn [render well_formed].
  - intros [Hne H]. destruct (exists_last Hne) as (s & c & ->).
    exists s, c. split; [reflexivity|].
    apply Forall_app in H as [_ H]. inversion H as [|? ? (Hc & _) _]. exact Hc.
  - intros _. exists ("("%char :: render e), ")"%char. split; reflexivity.
  - intros _. exists (name ++ "("%char :: render arg), ")"%char.
    split; [|reflexivity]. rewrite <- app_assoc. reflexivity.
  - intros (_ & Hr & _). destruct (IHr Hr) as (s & c & -> & Hc).
    exists (render l ++ op_char o :: s), c. split; [|exact Hc].
    rewrite <- app_assoc. reflexivity.
Qed.

(** ** Operators at depth 0 *)

Lemma top_operators_weaken (p q : Z) (s : pystr) :
  q <= p -> top_operators_from p s -> top_operators_from q s.
Proof. intros Hq H k c Hc Hop Hd. specialize (H k c Hc Hop Hd). lia. Qed.

Lemma top_operators_token (p : Z) (t : pystr) :
  Forall token_char t -> top_operators_from p t.
Proof.
  intros H k c Hc Hop _. rewrite Forall_forall in H.
  destruct (H c) as (Hn & _); [|congruence].
  apply list_elem_of_In. eapply nth_error_In, Hc.
Qed.

Lemma top_operators_wrap (p : Z) (name a : pystr) :
  Forall token_char name -> balanced a ->
  top_operators_from p (name ++ "("%char :: a ++ [")"%char]).
Proof.
  intros Hname Ha k c Hc Hop Hd.
  assert (Hpf : paren_free name).
  { eapply Forall_impl; [exact Hname|]. intros d (_ & Hdl & _). exact Hdl. }
  assert (Hk : (k < length (name ++ "("%char :: a ++ [")"%char]))%nat)
    by (apply nth_error_Some; congruence).
  rewrite length_app in Hk. cbn [length] in Hk. rewrite length_app in Hk.
  cbn [length] in Hk.
  destruct (Nat.lt_trichotomy k (length name)) as [Hlt|[Heq|Hgt]].
  - rewrite nth_error_app1 in Hc by exact Hlt.
    rewrite Forall_forall in Hname. destruct (Hname c) as (Hn & _); [|congruence].
    apply list_elem_of_In. eapply nth_error_In, Hc.
  - rewrite nth_error_app2, Heq, Nat.sub_diag in Hc by lia.
    injection Hc as <-. discriminate.
  - destruct (Nat.eq_dec k (length name + 1 + length a)%nat) as [Heq|Hne].
    + rewrite nth_error_app2 in Hc by lia.
      replace (k - length name)%nat with (S (length a)) in Hc by lia.
      cbn [nth_error] in Hc. rewrite nth_error_app2, Nat.sub_diag in Hc by lia.
      injection Hc as <-. discriminate.
    + pose proof (inside_wrap_positive name a k Hpf Ha Hgt ltac:(lia)). lia.
Qed.

Lemma render_top_operators (e : expr) :
  well_formed grouping e -> top_operators_from (binding e) (render e).
Proof.
  induction e as [t|e IH|name arg IH|o l IHl r IHr]; cbn [render well_formed].
  - intros [_ H]. apply top_operators_token, H.
  - intros H. apply (top_operators_wrap _ []); [constructor|].
    eapply render_depth, H.
  - intros [Hn H]. apply top_operators_wrap; [apply function_name_ok, Hn|].
    eapply render_depth, H.
  - intros (Hl & Hr & Hprio) k c Hc Hop Hd. cbn [binding].
    pose proof (render_depth _ Hl) as [_ Hdl].
    assert (Hbl : priority (op_char o) <= binding l) by (destruct (grouping o); lia).
    assert (Hbr : priority (op_char o) <= binding r) by (destruct (grouping o); lia).
    destruct (Nat.lt_trichotomy k (length (render l))) as [Hlt|[Heq|Hgt]].
    + rewrite nth_error_app1 in Hc by exact Hlt.
      rewrite firstn_app in Hd. replace (k - length (render l))%nat with 0%nat in Hd by lia.
      rewrite firstn_0, app_nil_r in Hd.
      specialize (IHl Hl k c Hc Hop Hd). lia.
    + rewrite nth_error_app2, Heq, Nat.sub_diag in Hc by lia.
      injection Hc as <-. lia.
    + rewrite nth_error_app2 in Hc by lia.
      rewrite firstn_app, depth_app, firstn_all2, Hdl in Hd by lia.
      destruct (k - length (render l))%nat as [|j] eqn:Hj; [lia|].
      cbn [nth_error] in Hc. rewrite firstn_cons in Hd. cbn [depth] in Hd.
      rewrite delta_op_char in Hd.
      specialize (IHr Hr j c Hc Hop ltac:(lia)). lia.
Qed.

(** A string split at an operator at depth 0 is not of the form
    [name(...)] with a balanced interior, whatever [name] is. *)
Lemma split_not_call (L R name a : pystr) (o : ascii) :
  L <> [] -> R <> [] -> depth L = 0 -> is_op o = true ->
  Forall token_char name -> balanced a ->
  L ++ o :: R <> name ++ "("%char :: a ++ [")"%char].
Proof.
  intros HL HR HdL Ho Hname Ha Heq.
  assert (Hpf : paren_free name).
  { eapply Forall_impl; [exact Hname|]. intros d (_ & Hdl & _). exact Hdl. }
  assert (Hlen : (length L + 1 + length R = length name + 1 + length a + 1)%nat).
  { apply (f_equal (@length ascii)) in Heq. rewrite !length_app in Heq.
    cbn [length] in Heq. rewrite length_app in Heq. cbn [length] in Heq. lia. }
  assert (HR' : (0 < length R)%nat) by (destruct R; [congruence|simpl; lia]).
  assert (Hnth : nth_error (L ++ o :: R) (length L) = Some o).
  { rewrite nth_error_app2, Nat.sub_diag by lia. reflexivity. }
  assert (Hdepth : depth (firstn (length L) (L ++ o :: R)) = 0).
  { rewrite firstn_app, Nat.sub_diag, firstn_all, firstn_0, app_nil_r. exact HdL. }
  rewrite Heq in Hnth, Hdepth.
  destruct (Nat.lt_trichotomy (length L) (length name)) as [Hlt|[Hk|Hgt]].
  - rewrite nth_error_app1 in Hnth by exact Hlt.
    rewrite Forall_forall in Hname. destruct (Hname o) as (Hn & _); [|congruence].
    apply list_elem_of_In. eapply nth_error_In, Hnth.
  - rewrite nth_error_app2, Hk, Nat.sub_diag in Hnth by lia.
    injection Hnth as <-. discriminate.
  - pose proof (inside_wrap_positive name a (length L) Hpf Ha Hgt ltac:(lia)). lia.
Qed.

Lemma extra_parens_wrap (s : pystr) :
  extra_parens ("("%char :: s ++ [")"%char]) = parens_are_balanced s.
Proof.
  unfold extra_parens.
  assert (E1 : startswith ("("%char :: s ++ [")"%char]) (str "(") = true)
    by reflexivity.
  assert (E2 : endswith ("("%char :: s ++ [")"%char]) (str ")") = true)
    by apply (endswith_app ("("%char :: s) [")"%char]).
  assert (E3 : slice_to_last 1 ("("%char :: s ++ [")"%char]) = s)
    by apply (slice_to_last_wrap ["("%char] s ")"%char).
  rewrite E1, E2, E3. reflexivity.
Qed.

Lemma extra_parens_inv (s : pystr) :
  extra_parens s = true ->
  s = [] ++ "("%char :: slice_to_last 1 s ++ [")"%char] /\ balanced (slice_to_last 1 s).
Proof.
  unfold extra_parens. intros H.
  apply andb_true_iff in H as [H H3]. apply andb_true_iff in H as [H1 H2].
  split; [|apply parens_are_balanced_spec, H3].
  apply (call_shape s []); assumption.
Qed.

(** Only an expression in parentheses has extra parentheses. *)
Lemma extra_parens_render (e : expr) :
  well_formed grouping e ->
  extra_parens (render e) = match e with Par _ => true | _ => false end.
Proof.
  destruct e as [t|e|name arg|o l r]; cbn [render well_formed]; intros H.
  - apply not_true_is_false. intros Hx. apply extra_parens_inv in Hx as [Hx _].
    apply token_ok_paren_free in H. rewrite Hx in H.
    inversion H as [|? ? Hd _]. discriminate.
  - rewrite extra_parens_wrap. apply parens_are_balanced_spec. eapply render_depth, H.
  - apply not_true_is_false. intros Hx. apply extra_parens_inv in Hx as [Hx _].
    destruct H as [Hn _]. apply function_name_ok in Hn as Hok.
    destruct name as [|c name]; [destruct Hok; congruence|].
    injection Hx as -> _. apply token_ok_paren_free in Hok.
    inversion Hok as [|? ? Hd _]. discriminate.
  - apply not_true_is_false. intros Hx. apply extra_parens_inv in Hx as [Hx Hb].
    destruct H as (Hl & Hr & _).
    refine (split_not_call (render l) (render r) [] _ (op_char o) _ _ _ _ _ Hb Hx).
    + eapply render_nonempty, Hl.
    + eapply render_nonempty, Hr.
    + eapply render_depth, Hl.
    + apply is_op_op_char.
    + constructor.
Qed.

Lemma core_well_formed (e : expr) :
  well_formed grouping e -> well_formed grouping (core e).
Proof. induction e; cbn [core well_formed]; auto. Qed.

Lemma core_not_par (e : expr) : match core e with Par _ => False | _ => True end.
Proof. induction e; cbn [core]; auto. Qed.

Lemma length_render_par (e : expr) :
  length (render (Par e)) = S (S (length (render e))).
Proof. cbn [render length]. rewrite length_app. cbn [length]. lia. Qed.

Lemma remove_extra_parens_loop_render (e : expr) :
  well_formed grouping e ->
  forall fuel, (length (render e) <= fuel)%nat ->
    remove_extra_parens_loop fuel (render e) = render (core e).
Proof.
  induction e as [t|e IH|name arg _|o l _ r _]; intros H fuel Hfuel.
  2:{ rewrite length_render_par in Hfuel. destruct fuel as [|fuel]; [lia|].
      cbn [remove_extra_parens_loop]. rewrite (extra_parens_render (Par e) H).
      cbn [render core].
      rewrite (slice_to_last_wrap ["("%char] (render e) ")"%char
               : slice_to_last 1 ("("%char :: render e ++ [")"%char]) = render e).
      apply IH; [exact H|lia]. }
  all: destruct fuel; cbn [remove_extra_parens_loop core]; [reflexivity|];
    rewrite (extra_parens_render _ H); reflexivity.
Qed.

Lemma remove_extra_parens_render (e : expr) :
  well_formed grouping e -> remove_extra_parens (render e) = render (core e).
Proof.
  intros H. unfold remove_extra_parens.
  eapply remove_extra_parens_loop_render; [exact H|lia].
Qed.

Lemma getitem_last (s : pystr) (c : ascii) : getitem (s ++ [c]) (-1) = Ok c.
Proof.
  unfold getitem. rewrite length_app. cbn [length].
  replace (-1 <? 0) with true by reflexivity.
  replace (-1 + Z.of_nat (length s + 1)) with (Z.of_nat (length s)) by lia.
  settle (Z.of_nat (length s) <? 0).
  settle (Z.of_nat (length s + 1) <=? Z.of_nat (length s)).
  cbn [orb]. rewrite Nat2Z.id, nth_error_app2, Nat.sub_diag by lia. reflexivity.
Qed.

Lemma not_op_not_sign (c : ascii) :
  is_op c = false ->
  bool_decide ([c] = str "+") = false /\ bool_decide ([c] = str "-") = false.
Proof.
  intros H. split; apply bool_decide_eq_false; intros [= ->]; discriminate.
Qed.

(** On what is written, the normaliser only removes the outer parentheses. *)
Lemma exp_check_render (e : expr) :
  well_formed grouping e -> exp_check (render e) = Ok (render (core e)).
Proof.
  intros H. unfold exp_check.
  assert (Hb : parens_are_balanced (render e) = true).
  { apply parens_are_balanced_spec. eapply render_depth, H. }
  rewrite Hb. cbn [negb].
  rewrite (remove_char_id _ _ (render_no_blank _ H)).
  rewrite (remove_extra_parens_render _ H).
  pose proof (core_well_formed _ H) as Hc.
  destruct (render_first _ Hc) as (c & s & Hs & Hcop).
  destruct (render_last _ Hc) as (s' & d & Hs' & Hdop).
  assert (G0 : getitem (render (core e)) 0 = Ok c)
    by (rewrite Hs; apply getitem_cons_0).
  assert (G1 : getitem (render (core e)) (-1) = Ok d)
    by (rewrite Hs'; apply getitem_last).
  rewrite G0, G1. cbn [bind].
  fold (is_op c). fold (is_op d). rewrite Hcop, Hdop. cbn [andb].
  destruct (not_op_not_sign c Hcop) as [Hplus Hminus].
  rewrite Hminus, G0. cbn [bind]. rewrite Hplus. reflexivity.
Qed.

(** ** Function detection on what is written *)

Lemma paren_prefix_unique (k f x y : pystr) :
  paren_free k -> paren_free f ->
  k ++ "("%char :: x = f ++ "("%char :: y -> k = f.
Proof.
  revert f. induction k as [|c k IH]; intros [|d f] Hk Hf Heq.
  - reflexivity.
  - injection Heq as <- _. inversion Hf as [|? ? Hd _]. discriminate.
  - injection Heq as -> _. inversion Hk as [|? ? Hd _]. discriminate.
  - injection Heq as -> Heq. f_equal.
    inversion Hk; inversion Hf; subst. eapply IH; eassumption.
Qed.

Lemma call_tests (f arg : pystr) :
  startswith (f ++ "("%char :: arg ++ [")"%char]) (f ++ str "(") = true /\
  endswith (f ++ "("%char :: arg ++ [")"%char]) (str ")") = true /\
  slice_to_last (length f + 1) (f ++ "("%char :: arg ++ [")"%char]) = arg.
Proof.
  assert (E : f ++ "("%char :: arg ++ [")"%char] = (f ++ str "(") ++ arg ++ [")"%char]).
  { rewrite <- app_assoc. reflexivity. }
  repeat split.
  - rewrite E. apply startswith_app.
  - rewrite E, app_assoc. apply endswith_app.
  - rewrite E. replace (length f + 1)%nat with (length (f ++ str "("))
      by (rewrite length_app; reflexivity).
    apply slice_to_last_wrap.
Qed.

Lemma get_function_loop_complete (keys : list pystr) :
  Forall paren_free keys ->
  forall f arg, In f keys -> parens_are_balanced arg = true ->
    get_function_loop keys (f ++ "("%char :: arg ++ [")"%char]) = Some f.
Proof.
  induction 1 as [|k keys Hk Hkeys IH]; intros f arg Hin Harg; [destruct Hin|].
  cbn [get_function_loop].
  destruct (call_tests f arg) as (T1 & T2 & T3).
  destruct (decide (k = f)) as [->|Hne].
  - rewrite T1, T2, T3, Harg. reflexivity.
  - assert (Hf : paren_free f).
    { destruct Hin as [Hin|Hin]; [congruence|].
      rewrite Forall_forall in Hkeys. apply Hkeys, list_elem_of_In, Hin. }
    destruct (startswith (f ++ "("%char :: arg ++ [")"%char]) (k ++ str "(")) eqn:E.
    + exfalso. apply startswith_inv in E as [r Hr]. rewrite <- app_assoc in Hr.
      apply Hne. symmetry.
      exact (paren_prefix_unique f k (arg ++ [")"%char]) r Hf Hk Hr).
    + cbn [andb]. apply IH; [|exact Harg]. destruct Hin; [congruence|assumption].
Qed.

Lemma get_function_render (e : expr) :
  well_formed grouping e ->
  get_function (render (core e)) =
  match core e with Fn name _ => Some name | _ => None end.
Proof.
  intros H. apply core_well_formed in H. pose proof (core_not_par e) as Hnp.
  destruct (core e) as [t|e'|name arg|o l r]; cbn [render well_formed] in *.
  - destruct (get_function t) as [F|] eqn:HF; [exfalso|reflexivity].
    apply get_function_sound in HF as (_ & Hshape & _).
    apply token_ok_paren_free in H. rewrite Hshape in H.
    apply Forall_app in H as [_ H]. inversion H as [|? ? Hd _]. discriminate.
  - destruct Hnp.
  - destruct H as [Hn H]. apply get_function_loop_complete.
    + apply FUNCTION_LIST_paren_free.
    + exact Hn.
    + apply parens_are_balanced_spec. eapply render_depth, H.
  - destruct (get_function _) as [F|] eqn:HF; [exfalso|reflexivity].
    apply get_function_sound in HF as (HFin & Hshape & HB).
    destruct H as (Hl & Hr & _).
    refine (split_not_call (render l) (render r) F _ (op_char o) _ _ _ _ _ _ Hshape).
    + eapply render_nonempty, Hl.
    + eapply render_nonempty, Hr.
    + eapply render_depth, Hl.
    + apply is_op_op_char.
    + apply function_name_ok, HFin.
    + apply parens_are_balanced_spec, HB.
Qed.

(** Outer parentheses make no difference to the constructor. *)
Lemma MathExp_init_par (e : expr) (fuel : nat) :
  well_formed grouping e ->
  MathExp_init fuel (render (Par e)) = MathExp_init fuel (render e).
Proof.
  intros H. destruct fuel as [|fuel]; [reflexivity|].
  cbn [MathExp_init].
  rewrite (exp_check_render (Par e) H), (exp_check_render e H). reflexivity.
Qed.

End Written.

(** ** The split position on what is written *)

Lemma top_operator_token (t : pystr) :
  Forall token_char t -> top_operator t (-1).
Proof.
  intros H. left. split; [reflexivity|]. intros j _. unfold candidateb.
  destruct (nth_error t j) as [c|] eqn:Hc; [|reflexivity].
  rewrite Forall_forall in H. destruct (H c) as (Hn & _).
  - apply list_elem_of_In. eapply nth_error_In, Hc.
  - rewrite Hn. reflexivity.
Qed.

Lemma candidateb_top (exp : pystr) (j : nat) :
  candidateb exp j = true ->
  nth_error exp j = Some (char_at exp j) /\ is_op (char_at exp j) = true /\
  depth (firstn j exp) = 0.
Proof.
  intros H. apply candidateb_inv in H as (_ & Hj & Hop & Hd).
  split; [apply nth_error_char_at; lia|]. split; assumption.
Qed.

(** With every operator grouping to the left, the split is at the operator
    of the outermost [Bin]. *)
Lemma top_operator_bin (o : binop) (l r : expr) :
  well_formed all_left (Bin o l r) ->
  top_operator (render (Bin o l r)) (Z.of_nat (length (render l))).
Proof.
  intros H. pose proof H as (Hl & Hr & Hbl & Hbr). cbn [render].
  set (L := render l). set (R := render r). set (k := length L).
  pose proof (render_depth _ _ Hl) as [_ HdL]. fold L in HdL.
  assert (HL : (0 < length L)%nat).
  { pose proof (render_nonempty _ _ Hl). fold L in H0. destruct L; [congruence|simpl; lia]. }
  assert (HR : (0 < length R)%nat).
  { pose proof (render_nonempty _ _ Hr). fold R in H0. destruct R; [congruence|simpl; lia]. }
  assert (Hnth : nth_error (L ++ op_char o :: R) k = Some (op_char o)).
  { unfold k. rewrite nth_error_app2, Nat.sub_diag by lia. reflexivity. }
  assert (Hchar : char_at (L ++ op_char o :: R) k = op_char o)
    by (apply char_at_nth_error, Hnth).
  assert (Hall : forall j, candidateb (L ++ op_char o :: R) j = true ->
            priority (op_char o) <= priority (char_at (L ++ op_char o :: R) j) /\
            ((k < j)%nat -> priority (op_char o) < priority (char_at (L ++ op_char o :: R) j))).
  { intros j Hj. apply candidateb_top in Hj as (Hcj & Hopj & Hdj).
    pose proof (render_top_operators _ _ H j _ Hcj Hopj Hdj) as Hge.
    cbn [binding] in Hge. split; [exact Hge|]. intros Hlt.
    rewrite nth_error_app2 in Hcj by (fold k; lia).
    rewrite firstn_app, depth_app, firstn_all2, HdL in Hdj by (fold k; lia).
    fold k in Hcj, Hdj.
    destruct (j - k)%nat as [|j'] eqn:Hjk; [lia|].
    cbn [nth_error] in Hcj. rewrite firstn_cons in Hdj. cbn [depth] in Hdj.
    rewrite delta_op_char in Hdj.
    unfold R in Hcj, Hdj.
    pose proof (render_top_operators _ _ Hr j' _ Hcj Hopj ltac:(lia)).
    unfold R. lia. }
  right. exists k. split; [reflexivity|]. split.
  { rewrite length_app. cbn [length]. fold k. lia. }
  split.
  - unfold candidateb. rewrite Hnth, is_op_op_char.
    rewrite firstn_app. unfold k at 1 2. rewrite Nat.sub_diag, firstn_all, firstn_0, app_nil_r, HdL.
    rewrite length_app. cbn [length]. fold k.
    settle ((k =? 0)%nat).
    settle ((k =? k + S (length R) - 1)%nat).
    cbn [orb negb andb Z.eqb].
    destruct (render_last _ _ Hl) as (s & c & Hs & Hc). fold L in Hs.
    assert (Hprev : char_at (L ++ op_char o :: R) (k - 1) = c).
    { apply char_at_nth_error. unfold k. rewrite Hs, length_app. cbn [length].
      rewrite <- app_assoc. rewrite nth_error_app2 by lia.
      replace (length s + 1 - 1 - length s)%nat with 0%nat by lia. reflexivity. }
    rewrite Hprev, Hc, andb_false_r. reflexivity.
  - rewrite Hchar. split.
    + intros j _ Hj. apply Hall, Hj.
    + intros j _ Hj Hlt. apply Hall; assumption.
Qed.

Lemma lookup_top_operator_eq (exp : pystr) (r : Z) :
  top_operator exp r -> lookup_top_operator exp = Ok r.
Proof.
  intros H. destruct (lookup_top_operator_spec exp) as (r' & -> & H').
  f_equal. eapply top_operator_unique; eassumption.
Qed.

(** ** Construction on what is written *)

(** With every operator grouping to the left, the constructor builds the
    tree of the expression written. *)
Theorem MathExp_init_render (e : expr) :
  well_formed all_left e ->
  forall fuel, (length (render e) < fuel)%nat ->
    MathExp_init fuel (render e) = Some (Ok (tree e)).
Proof.
  induction e as [t|e IH|name arg IH|o l IHl r IHr]; intros H fuel Hfuel.
  - destruct fuel as [|fuel]; [lia|]. cbn [MathExp_init].
    rewrite (exp_check_render _ _ H). cbn [bind_fueled].
    rewrite (get_function_render _ _ H). cbn [core render].
    destruct H as [_ H]. rewrite (lookup_top_operator_eq _ _ (top_operator_token _ H)).
    reflexivity.
  - rewrite (MathExp_init_par all_left e fuel H). apply IH; [exact H|].
    rewrite length_render_par in Hfuel. lia.
  - destruct fuel as [|fuel]; [lia|]. cbn [MathExp_init].
    rewrite (exp_check_render _ _ H). cbn [bind_fueled].
    rewrite (get_function_render _ _ H). cbn [core render].
    destruct (call_tests name (render arg)) as (_ & _ & ->).
    destruct H as [_ H]. rewrite (IH H); [reflexivity|].
    cbn [render] in Hfuel. rewrite length_app in Hfuel. cbn [length] in Hfuel.
    rewrite length_app in Hfuel. lia.
  - destruct fuel as [|fuel]; [lia|]. cbn [MathExp_init].
    rewrite (exp_check_render _ _ H). cbn [bind_fueled].
    rewrite (get_function_render _ _ H). cbn [core].
    rewrite (lookup_top_operator_eq _ _ (top_operator_bin _ _ _ H)).
    cbn [bind_fueled render].
    settle (0 <=? Z.of_nat (length (render l))).
    rewrite (getitem_nth _ _ (op_char o)), Nat2Z.id
      by (rewrite nth_error_app2, Nat.sub_diag by lia; reflexivity).
    cbn [bind_fueled].
    replace (Z.to_nat (Z.of_nat (length (render l)) + 1)) with (S (length (render l))) by lia.
    rewrite firstn_app, Nat.sub_diag, firstn_all, firstn_0, app_nil_r.
    rewrite skipn_app, skipn_all2 by lia.
    replace (S (length (render l)) - length (render l))%nat with 1%nat by lia.
    cbn [skipn app]. rewrite ?skipn_O.
    cbn [render] in Hfuel. rewrite length_app in Hfuel. cbn [length] in Hfuel.
    destruct H as (Hl & Hr & _).
    rewrite (IHl Hl) by lia. cbn [bind_fueled].
    rewrite (IHr Hr) by lia. reflexivity.
Qed.

(** Blanks in the input make no difference. *)
Lemma balanced_from_remove_blank (s : pystr) (i : Z) :
  0 <= i ->
  parens_are_balanced_from i (remove_char " " s) = parens_are_balanced_from i s.
Proof.
  revert i. induction s as [|c s IH]; intros i Hi; [reflexivity|].
  unfold remove_char. cbn [List.filter].
  destruct (Ascii.eqb c " ") eqn:E; cbn [negb]; fold (remove_char " " s).
  - apply Ascii.eqb_eq in E. subst c. rewrite parens_are_balanced_from_cons.
    change (delta " ") with 0. rewrite Z.add_0_r.
    settle (i <? 0).
    apply IH, Hi.
  - rewrite !parens_are_balanced_from_cons.
    destruct (i + delta c <? 0) eqn:E'; [reflexivity|].
    apply IH. apply Z.ltb_ge in E'. exact E'.
Qed.

Lemma remove_char_idem (c : ascii) (s : pystr) :
  remove_char c (remove_char c s) = remove_char c s.
Proof.
  apply remove_char_id. unfold remove_char.
  apply Forall_forall. intros d Hd. apply list_elem_of_In, filter_In in Hd as [_ Hd].
  apply negb_true_iff, Ascii.eqb_neq in Hd. exact Hd.
Qed.

Lemma exp_check_remove_blank (s : pystr) :
  exp_check (remove_char " " s) = exp_check s.
Proof.
  unfold exp_check, parens_are_balanced.
  rewrite balanced_from_remove_blank, remove_char_idem by lia. reflexivity.
Qed.

Lemma MathExp_init_remove_blank (fuel : nat) (s : pystr) :
  MathExp_init fuel (remove_char " " s) = MathExp_init fuel s.
Proof.
  destruct fuel as [|fuel]; [reflexivity|].
  cbn [MathExp_init]. rewrite exp_check_remove_blank. reflexivity.
Qed.

(** The constructor on any spelling, blanks included, of an expression. *)
Theorem MathExp_new_render (s : pystr) (e : expr) :
  remove_char " " s = render e -> well_formed all_left e ->
  MathExp_new s = Some (Ok (tree e)).
Proof.
  intros Hs H. unfold MathExp_new.
  rewrite <- MathExp_init_remove_blank, Hs.
  apply MathExp_init_render; [exact H|].
  rewrite <- Hs. pose proof (length_remove_char " " s). lia.
Qed.

(* ===================================================================== *)
(** * Evaluation *)
(* ===================================================================== *)

Section Evaluation.

Variable M : MathModule.

Lemma evaluate_literal vt tok l r tmp :
  evaluate M (Build_MathExp vt tok l r MATHEXP_LITERAL) tmp =
  token_value (table_in_use (Build_MathExp vt tok l r MATHEXP_LITERAL) tmp) tok.
Proof. destruct tmp; reflexivity. Qed.

Lemma evaluate_function vt tok l r tmp :
  evaluate M (Build_MathExp vt tok l (Some r) MATHEXP_FUNCTION) tmp =
  let* arg := evaluate M r
                (Some (table_in_use (Build_MathExp vt tok l (Some r) MATHEXP_FUNCTION) tmp)) in
  let* f := dict_get FUNCTION_LIST tok in
  call M f arg.
Proof. destruct tmp; reflexivity. Qed.

Lemma evaluate_operator_node vt tok l r tmp :
  evaluate M (Build_MathExp vt tok (Some l) (Some r) MATHEXP_OPERATOR) tmp =
  let tbl := table_in_use (Build_MathExp vt tok (Some l) (Some r) MATHEXP_OPERATOR) tmp in
  let* left_value := evaluate M l (Some tbl) in
  let* right_value := evaluate M r (Some tbl) in
  evaluate_operator M tok left_value right_value.
Proof. destruct tmp; reflexivity. Qed.

Lemma evaluate_operator_op_char (o : binop) (x y : pynum) :
  evaluate_operator M [op_char o] x y = apply_binop M o x y.
Proof. destruct o; reflexivity. Qed.

(** Evaluating the tree of an expression gives the value of the
    expression. *)
Theorem evaluate_tree (e : expr) :
  forall tmp, evaluate M (tree e) tmp = value M (default ∅ tmp) e.
Proof.
  induction e as [t|e IH|name arg IH|o l IHl r IHr]; intros tmp; cbn [tree value].
  - rewrite evaluate_literal. destruct tmp; reflexivity.
  - apply IH.
  - rewrite evaluate_function, IH. destruct tmp; reflexivity.
  - rewrite evaluate_operator_node. cbn zeta. rewrite IHl, IHr.
    destruct tmp; cbn [table_in_use default variables_table];
      destruct (value M _ l); cbn [bind]; try reflexivity;
      destruct (value M _ r); cbn [bind]; try reflexivity;
      apply evaluate_operator_op_char.
Qed.

(** Constructing and evaluating any spelling of an expression whose
    operators all group to the left gives the value of the expression. *)
Theorem run_render (s : pystr) (e : expr) tmp :
  remove_char " " s = render e -> well_formed all_left e ->
  run M s tmp = Some (value M (default ∅ tmp) e).
Proof.
  intros Hs H. unfold run. rewrite (MathExp_new_render s e Hs H).
  cbn [bind_fueled]. rewrite evaluate_tree. reflexivity.
Qed.

End Evaluation.

(* ===================================================================== *)
(** * The properties of the specification *)
(* ===================================================================== *)

(** ** Operator precedence (C1) *)

Lemma well_formed_zero_to_zero_to_zero :
  well_formed standard_assoc zero_to_zero_to_zero.
Proof.
  cbn. repeat split; try discriminate; try (repeat constructor; discriminate);
    vm_compute; congruence.
Qed.

(** C1, as stated, fails on every platform: written [0^0^0], the expression
    0^(0^0) has the value 0.0, and the constructed tree evaluates to 1.0,
    the value of (0^0)^0. *)
Lemma C1_counterexample : ~ exists M, agrees_with_standard_arithmetic M.
Proof.
  intros [M H].
  specialize (H (str "0^0^0") zero_to_zero_to_zero None eq_refl
                well_formed_zero_to_zero_to_zero).
  vm_compute in H. discriminate H.
Qed.

(** C1, with every operator grouping to the left: for every string that,
    blanks apart, spells an expression with the precedence of the operators
    and every operator, [^] included, grouping to the left, constructing the
    tree and evaluating it yields the value of that expression; [2+3*4]
    yields 14.0 and [(2+3)*4] yields 20.0. *)
Theorem C1_precedence_left_grouping (M : MathModule) (s : pystr) (e : expr)
    (tmp : option (gmap pystr pynum))
    (Hs : remove_char " " s = render e) (He : well_formed all_left e) :
  run M s tmp = Some (value M (default ∅ tmp) e) /\
  run M (str "2+3*4") None = Some (Ok (PyFloat (Z2float 14))) /\
  run M (str "(2+3)*4") None = Some (Ok (PyFloat (Z2float 20))).
Proof.
  split; [apply run_render; assumption|].
  split; vm_compute; reflexivity.
Qed.

Lemma well_formed_two_plus_three_times_four :
  well_formed all_left two_plus_three_times_four.
Proof.
  cbn. repeat split; try discriminate; try (repeat constructor; discriminate);
    vm_compute; congruence.
Qed.

Lemma C1_witness :
  remove_char " " (str "2 + 3*4") = render two_plus_three_times_four /\
  well_formed all_left two_plus_three_times_four /\
  (run sample_math (str "2 + 3*4") None =
     Some (value sample_math ∅ two_plus_three_times_four) /\
   run sample_math (str "2+3*4") None = Some (Ok (PyFloat (Z2float 14))) /\
   run sample_math (str "(2+3)*4") None = Some (Ok (PyFloat (Z2float 20)))).
Proof.
  split; [reflexivity|]. split; [exact well_formed_two_plus_three_times_four|].
  exact (C1_precedence_left_grouping sample_math (str "2 + 3*4")
           two_plus_three_times_four None eq_refl
           well_formed_two_plus_three_times_four).
Defined.

(** ** Parenthesis imbalance (C5) *)

(** C5: a string whose running count of [(] minus [)] goes negative at some
    point, or is not zero at the end, is refused with
    [Malformed expression]. *)
Theorem C5_unbalanced_is_malformed (s : pystr) (H : unbalanced s) :
  MathExp_new s = Some (Raise (Exception MALFORMED_EXPRESSION_ERROR)).
Proof.
  unfold MathExp_new. cbn [MathExp_init]. unfold exp_check.
  rewrite (parens_are_balanced_unbalanced s H). reflexivity.
Qed.

Lemma C5_witness :
  (unbalanced (str "(1+2") /\
   MathExp_new (str "(1+2") = Some (Raise (Exception MALFORMED_EXPRESSION_ERROR))) /\
  (unbalanced (str "1+2)") /\
   MathExp_new (str "1+2)") = Some (Raise (Exception MALFORMED_EXPRESSION_ERROR))).
Proof.
  assert (H1 : unbalanced (str "(1+2")) by (right; vm_compute; discriminate).
  assert (H2 : unbalanced (str "1+2)")) by (left; exists 4%nat; vm_compute; reflexivity).
  split; (split; [assumption|]).
  - exact (C5_unbalanced_is_malformed (str "(1+2") H1).
  - exact (C5_unbalanced_is_malformed (str "1+2)") H2).
Defined.

(** ** Function detection (C6) *)

(** C6: [get_function] returns a name only for a string that consists of
    the name, an opening parenthesis, a balanced interior and a closing
    parenthesis; [sin(0)+1] is not taken for a call of [sin], and evaluates
    to 1.0 where the sine of 0.0 is 0.0. *)
Theorem C6_function_detection (M : MathModule)
    (Hsin : math_sin M (PyFloat fzero) = Ok (PyFloat fzero))
    (exp F : pystr) (HF : get_function exp = Some F) :
  (In F (dict_keys FUNCTION_LIST) /\
   exists arg, exp = F ++ str "(" ++ arg ++ str ")" /\ parens_are_balanced arg = true) /\
  get_function (str "sin(0)+1") = None /\
  run M (str "sin(0)+1") None = Some (Ok (PyFloat fone)).
Proof.
  split; [|split].
  - apply get_function_sound in HF as (Hin & Hshape & Hb).
    split; [exact Hin|]. eexists. split; [exact Hshape|exact Hb].
  - vm_compute. reflexivity.
  - unfold run.
    replace (MathExp_new (str "sin(0)+1")) with
      (Some (Ok (tree (Bin Add (Fn (str "sin") (Tok (str "0"))) (Tok (str "1"))))))
      by (vm_compute; reflexivity).
    cbn [bind_fueled]. rewrite evaluate_tree. cbn [value default].
    replace (token_value ∅ (str "0")) with (Ok (PyFloat fzero) : result pynum)
      by (vm_compute; reflexivity).
    cbn [bind]. replace (dict_get FUNCTION_LIST (str "sin")) with (Ok f_sin)
      by (vm_compute; reflexivity).
    cbn [bind call]. rewrite Hsin. vm_compute. reflexivity.
Qed.

Lemma C6_witness :
  math_sin sample_math (PyFloat fzero) = Ok (PyFloat fzero) /\
  get_function (str "sin(0)") = Some (str "sin") /\
  ((In (str "sin") (dict_keys FUNCTION_LIST) /\
    exists arg, str "sin(0)" = str "sin" ++ str "(" ++ arg ++ str ")" /\
                parens_are_balanced arg = true) /\
   get_function (str "sin(0)+1") = None /\
   run sample_math (str "sin(0)+1") None = Some (Ok (PyFloat fone))).
Proof.
  split; [reflexivity|]. split; [reflexivity|].
  exact (C6_function_detection sample_math eq_refl (str "sin(0)") (str "sin") eq_refl).
Defined.

(** ** Variables (C7) *)

(** C7: a literal leaf whose token is not a number is looked up in the
    binding in use; [x+1] under [{x: 4}] is 5.0, and without [x] the
    evaluation raises [Symbol not found: x]. *)
Theorem C7_variable_lookup (M : MathModule) (vt tbl : gmap pystr pynum)
    (tok : pystr) (l r : option MathExp) (Hnum : is_number tok = false) :
  evaluate M (Build_MathExp vt tok l r MATHEXP_LITERAL) (Some tbl) =
    match tbl !! tok with
    | Some v => let* x := float_of_num v in Ok (PyFloat x)
    | None => Raise (Exception (SYMBOL_NOT_FOUND_ERROR ++ str ": " ++ tok))
    end /\
  run M (str "x+1") (Some {[ str "x" := PyInt 4 ]}) = Some (Ok (PyFloat (Z2float 5))) /\
  run M (str "x+1") (Some ∅) = Some (Raise (Exception (str "Symbol not found: x"))) /\
  run M (str "x+1") None = Some (Raise (Exception (str "Symbol not found: x"))).
Proof.
  split.
  - rewrite evaluate_literal. unfold token_value, is_number in *.
    destruct (float_of_str tok); [discriminate|]. reflexivity.
  - repeat split; vm_compute; reflexivity.
Qed.

Lemma C7_witness :
  is_number (str "x") = false /\
  (evaluate sample_math (Build_MathExp ∅ (str "x") None None MATHEXP_LITERAL)
     (Some {[ str "x" := PyInt 4 ]}) =
     match ({[ str "x" := PyInt 4 ]} : gmap pystr pynum) !! str "x" with
     | Some v => let* x := float_of_num v in Ok (PyFloat x)
     | None => Raise (Exception (SYMBOL_NOT_FOUND_ERROR ++ str ": " ++ str "x"))
     end /\
   run sample_math (str "x+1") (Some {[ str "x" := PyInt 4 ]}) =
     Some (Ok (PyFloat (Z2float 5))) /\
   run sample_math (str "x+1") (Some ∅) =
     Some (Raise (Exception (str "Symbol not found: x"))) /\
   run sample_math (str "x+1") None =
     Some (Raise (Exception (str "Symbol not found: x")))).
Proof.
  split; [reflexivity|].
  exact (C7_variable_lookup sample_math ∅ {[ str "x" := PyInt 4 ]} (str "x")
           None None eq_refl).
Defined.

(** ** Transient bindings (C9) *)

(** With a binding passed in, no stored table is read, in the node or
    below. *)
Lemma evaluate_transient_only (M : MathModule) (t : MathExp) :
  forall b, evaluate M (forget_tables t) (Some b) = evaluate M t (Some b).
Proof.
  induction t as [vt tok l r ty IHl IHr] using MathExp_induction. intros b.
  cbn [forget_tables evaluate].
  destruct (ty =? MATHEXP_LITERAL); [reflexivity|].
  destruct (ty =? MATHEXP_FUNCTION).
  { destruct r as [r|]; cbn [option_map option_Forall] in *; [|reflexivity].
    rewrite IHr. reflexivity. }
  destruct (ty =? MATHEXP_OPERATOR); [|reflexivity].
  destruct l as [l|]; cbn [option_map option_Forall] in *; [|reflexivity].
  rewrite IHl. destruct (evaluate M l (Some b)); cbn [bind]; [|reflexivity].
  destruct r as [r|]; cbn [option_map option_Forall] in *; [|reflexivity].
  rewrite IHr. reflexivity.
Qed.

(** Reading an attribute returns it and leaves the heap. *)
Lemma attribute_inv {A : Type} (name : object -> A) (self : loc) (h h' : heap) r :
  attribute name self h = Some (r, h') ->
  h' = h /\ exists o, objects h !! self = Some o /\ r = Ok (name o).
Proof.
  unfold attribute. destruct (objects h !! self) as [o|]; [|discriminate].
  intros [= <- <-]. split; [reflexivity|]. exists o. auto.
Qed.

Lemma bind_heaped_inv {A B : Type} (c : heaped A) (k : A -> heaped B) (h h' : heap) r :
  bind_heaped c k h = Some (r, h') ->
  (exists e, c h = Some (Raise e, h') /\ r = Raise e) \/
  (exists a h1, c h = Some (Ok a, h1) /\ k a h1 = Some (r, h')).
Proof.
  unfold bind_heaped. destruct (c h) as [[[a|e] h1]|]; [| |discriminate].
  - intros H. right. exists a, h1. auto.
  - intros [= <- <-]. left. exists e. auto.
Qed.

(** An evaluation leaves the heap as it found it, whatever the heap holds. *)
Lemma evaluate_in_frame (M : MathModule) (fuel : nat) :
  forall self tmp h r h', evaluate_in M fuel self tmp h = Some (r, h') -> h' = h.
Proof.
  induction fuel as [|fuel IH]; intros self tmp h r h' H; [discriminate|].
  cbn [evaluate_in] in H.
  assert (Hattr : forall (A : Type) (name : object -> A) s h0 x h1,
             attribute name s h0 = Some (x, h1) -> h1 = h0)
    by (intros A name s h0 x h1 Hx; apply attribute_inv in Hx; tauto).
  assert (Hlift : forall (A : Type) (x : result A) h0 y h1,
             lift_result x h0 = Some (y, h1) -> h1 = h0)
    by (intros A x h0 y h1 [= _ <-]; reflexivity).
  assert (Htmp : forall x h1,
             match tmp with
             | None => attribute attr_variables_table self
             | Some d => ret_heaped d
             end h = Some (x, h1) -> h1 = h).
  { intros x h1. destruct tmp; [intros [= _ <-]; reflexivity|apply Hattr]. }
  apply bind_heaped_inv in H as [(e & H & ->)|(d & h1 & H1 & H)];
    [apply (Htmp _ _ H)|].
  apply Htmp in H1. subst h1.
  apply bind_heaped_inv in H as [(e & H & ->)|(ty & h1 & H1 & H)];
    [apply (Hattr _ _ _ _ _ _ H)|].
  apply Hattr in H1. subst h1.
  destruct (ty =? MATHEXP_LITERAL).
  { apply bind_heaped_inv in H as [(e & H & ->)|(tok & h1 & H1 & H)];
      [apply (Hattr _ _ _ _ _ _ H)|].
    apply Hattr in H1. subst h1.
    destruct (float_of_str tok); [injection H as _ <-; reflexivity|].
    apply bind_heaped_inv in H as [(e & H & ->)|(m & h1 & H1 & H)].
    - unfold contents in H. destruct (dicts h !! d); discriminate.
    - unfold contents in H1. destruct (dicts h !! d); [|discriminate].
      injection H1 as _ <-. destruct (m !! tok); apply (Hlift _ _ _ _ _ H). }
  destruct (ty =? MATHEXP_FUNCTION).
  { apply bind_heaped_inv in H as [(e & H & ->)|(ri & h1 & H1 & H)];
      [apply (Hattr _ _ _ _ _ _ H)|].
    apply Hattr in H1. subst h1.
    destruct ri as [ri|]; [|apply (Hlift _ _ _ _ _ H)].
    apply bind_heaped_inv in H as [(e & H & ->)|(arg & h1 & H1 & H)];
      [apply (IH _ _ _ _ _ H)|].
    apply IH in H1. subst h1.
    apply bind_heaped_inv in H as [(e & H & ->)|(tok & h1 & H1 & H)];
      [apply (Hattr _ _ _ _ _ _ H)|].
    apply Hattr in H1. subst h1. apply (Hlift _ _ _ _ _ H). }
  destruct (ty =? MATHEXP_OPERATOR); [|apply (Hlift _ _ _ _ _ H)].
  apply bind_heaped_inv in H as [(e & H & ->)|(le & h1 & H1 & H)];
    [apply (Hattr _ _ _ _ _ _ H)|].
  apply Hattr in H1. subst h1.
  destruct le as [le|]; [|apply (Hlift _ _ _ _ _ H)].
  apply bind_heaped_inv in H as [(e & H & ->)|(x & h1 & H1 & H)];
    [apply (IH _ _ _ _ _ H)|].
  apply IH in H1. subst h1.
  apply bind_heaped_inv in H as [(e & H & ->)|(ri & h1 & H1 & H)];
    [apply (Hattr _ _ _ _ _ _ H)|].
  apply Hattr in H1. subst h1.
  destruct ri as [ri|]; [|apply (Hlift _ _ _ _ _ H)].
  apply bind_heaped_inv in H as [(e & H & ->)|(y & h1 & H1 & H)];
    [apply (IH _ _ _ _ _ H)|].
  apply IH in H1. subst h1.
  apply bind_heaped_inv in H as [(e & H & ->)|(tok & h1 & H1 & H)];
    [apply (Hattr _ _ _ _ _ _ H)|].
  apply Hattr in H1. subst h1. apply (Hlift _ _ _ _ _ H).
Qed.

Lemma bind_ret_heaped {A B : Type} (a : A) (k : A -> heaped B) (h : heap) :
  bind_heaped (ret_heaped a) k h = k a h.
Proof. reflexivity. Qed.

Lemma bind_attribute {A B : Type} (name : object -> A) (k : A -> heaped B)
    (self : loc) (h : heap) (o : object) :
  objects h !! self = Some o ->
  bind_heaped (attribute name self) k h = k (name o) h.
Proof. intros Ho. unfold bind_heaped, attribute. rewrite Ho. reflexivity. Qed.

Lemma bind_contents {B : Type} (k : gmap pystr pynum -> heaped B)
    (d : loc) (h : heap) (m : gmap pystr pynum) :
  dicts h !! d = Some m ->
  bind_heaped (contents d) k h = k m h.
Proof. intros Hd. unfold bind_heaped, contents. rewrite Hd. reflexivity. Qed.

Lemma bind_returned {A B : Type} (c : heaped A) (k : A -> heaped B)
    (h : heap) (r : result A) :
  c h = Some (r, h) ->
  bind_heaped c k h = match r with
                      | Ok a => k a h
                      | Raise e => Some (Raise e, h)
                      end.
Proof. intros Hc. unfold bind_heaped. rewrite Hc. destruct r; reflexivity. Qed.

(** On the objects of a tree, and with a dict of the heap passed in, the
    call on the heap returns what [evaluate] returns on the tree with the
    contents of the dict, and the heap as it was. *)
Lemma evaluate_in_holds (M : MathModule) (t : MathExp) :
  forall fuel self d b h,
    holds h self t -> dicts h !! d = Some b -> (height t < fuel)%nat ->
    evaluate_in M fuel self (Some d) h = Some (evaluate M t (Some b), h).
Proof.
  induction t as [vt tok l r ty IHl IHr] using MathExp_induction.
  intros fuel self d b h Hh Hd Hf.
  destruct fuel as [|fuel]; [lia|].
  cbn [holds] in Hh. destruct Hh as (o & Ho & Hvt & Htok & Hty & Hl & Hr).
  cbn [height] in Hf.
  cbn [evaluate_in evaluate].
  rewrite bind_ret_heaped, (bind_attribute _ _ _ _ _ Ho), Hty.
  destruct (ty =? MATHEXP_LITERAL).
  { rewrite (bind_attribute _ _ _ _ _ Ho), Htok.
    destruct (float_of_str tok); [reflexivity|].
    rewrite (bind_contents _ _ _ _ Hd).
    destruct (b !! tok); reflexivity. }
  destruct (ty =? MATHEXP_FUNCTION).
  { rewrite (bind_attribute _ _ _ _ _ Ho).
    destruct r as [r|], (attr_right o) as [ri|]; try contradiction; [|reflexivity].
    cbn [option_Forall] in IHr.
    rewrite (bind_returned _ _ _ _ (IHr fuel ri d b h Hr Hd ltac:(lia))).
    destruct (evaluate M r (Some b)) as [arg|e]; cbn [bind]; [|reflexivity].
    rewrite (bind_attribute _ _ _ _ _ Ho), Htok. reflexivity. }
  destruct (ty =? MATHEXP_OPERATOR); [|reflexivity].
  rewrite (bind_attribute _ _ _ _ _ Ho).
  destruct l as [l|], (attr_left o) as [le|]; try contradiction; [|reflexivity].
  cbn [option_Forall] in IHl.
  rewrite (bind_returned _ _ _ _ (IHl fuel le d b h Hl Hd ltac:(lia))).
  destruct (evaluate M l (Some b)) as [x|e]; cbn [bind]; [|reflexivity].
  rewrite (bind_attribute _ _ _ _ _ Ho).
  destruct r as [r|], (attr_right o) as [ri|]; try contradiction; [|reflexivity].
  cbn [option_Forall] in IHr.
  rewrite (bind_returned _ _ _ _ (IHr fuel ri d b h Hr Hd ltac:(lia))).
  destruct (evaluate M r (Some b)) as [y|e]; cbn [bind]; [|reflexivity].
  rewrite (bind_attribute _ _ _ _ _ Ho), Htok. reflexivity.
Qed.

(** Without a dict passed in, the call reads the dict the instance refers
    to. *)
Lemma evaluate_in_stored (M : MathModule) (fuel : nat) (self : loc) (h : heap)
    (o : object) :
  objects h !! self = Some o ->
  evaluate_in M fuel self None h =
  evaluate_in M fuel self (Some (attr_variables_table o)) h.
Proof.
  intros Ho. destruct fuel as [|fuel]; [reflexivity|].
  cbn [evaluate_in]. rewrite (bind_attribute _ _ _ _ _ Ho), bind_ret_heaped.
  reflexivity.
Qed.

Lemma holds_object (h : heap) (self : loc) (t : MathExp) :
  holds h self t ->
  exists o, objects h !! self = Some o /\
            dicts h !! attr_variables_table o = Some (variables_table t).
Proof.
  destruct t as [vt tok l r ty]. cbn [holds variables_table].
  intros (o & Ho & Hvt & _). exists o. auto.
Qed.

Lemma evaluate_value (M : MathModule) (t : MathExp) (e : expr)
    (b : gmap pystr pynum) :
  forget_tables t = tree e -> evaluate M t (Some b) = value M b e.
Proof.
  intros He. rewrite <- evaluate_transient_only, He, evaluate_tree. reflexivity.
Qed.

Lemma sample_heap_holds :
  holds sample_heap 0%nat
    (with_variables_table (tree x_plus_one) {[ str "x" := PyInt 1 ]}).
Proof.
  cbn. eexists. split; [reflexivity|]. cbn.
  repeat split; eexists; (split; [reflexivity|]); cbn; repeat split; reflexivity.
Qed.

(** C9: on a heap that holds the objects of a tree, a call of [evaluate]
    with a dict passed in returns the value of the expression with the
    variables read in that dict, whatever the dicts the instances refer to
    hold, and a call without one returns its value with the variables read
    in the dict the root refers to; after either call the heap is as it was
    before, so that nothing of the first is left in the second.  On every
    tree, of whatever shape, the calls return what [evaluate] returns on the
    tree with its tables emptied and the contents of the dict passed in, and
    no call of [evaluate] on any heap changes it. *)
Theorem C9_transient_binding (M : MathModule) (h : heap) (self d : loc)
    (t : MathExp) (b : gmap pystr pynum) (fuel : nat)
    (Hobjects : holds h self t) (Hdict : dicts h !! d = Some b)
    (Hfuel : (height t < fuel)%nat) :
  (forall e : expr, forget_tables t = tree e ->
     evaluate_in M fuel self (Some d) h = Some (value M b e, h) /\
     evaluate_in M fuel self None h = Some (value M (variables_table t) e, h)) /\
  evaluate_in M fuel self (Some d) h =
    Some (evaluate M (forget_tables t) (Some b), h) /\
  evaluate_in M fuel self None h =
    Some (evaluate M (forget_tables t) (Some (variables_table t)), h) /\
  (forall n s tmp h0 r h1, evaluate_in M n s tmp h0 = Some (r, h1) -> h1 = h0).
Proof.
  destruct (holds_object _ _ _ Hobjects) as (o & Ho & Hvt).
  assert (Hcall : evaluate_in M fuel self (Some d) h =
                  Some (evaluate M t (Some b), h))
    by (apply evaluate_in_holds; assumption).
  assert (Hstored : evaluate_in M fuel self None h =
                    Some (evaluate M t (Some (variables_table t)), h)).
  { rewrite (evaluate_in_stored _ _ _ _ _ Ho).
    apply evaluate_in_holds; assumption. }
  split; [|split; [|split]].
  - intros e He. rewrite Hcall, Hstored, !(evaluate_value _ _ _ _ He). auto.
  - rewrite evaluate_transient_only. exact Hcall.
  - rewrite evaluate_transient_only. exact Hstored.
  - intros n. apply evaluate_in_frame.
Qed.

Lemma C9_witness :
  evaluate_in sample_math 3 0%nat (Some 20%nat) sample_heap =
    Some (Ok (PyFloat (Z2float 5)), sample_heap) /\
  evaluate_in sample_math 3 0%nat None sample_heap =
    Some (Ok (PyFloat (Z2float 2)), sample_heap).
Proof.
  exact (proj1 (C9_transient_binding sample_math sample_heap 0%nat 20%nat
                  (with_variables_table (tree x_plus_one) {[ str "x" := PyInt 1 ]})
                  {[ str "x" := PyInt 4 ]} 3
                  sample_heap_holds eq_refl ltac:(cbn; lia))
               x_plus_one eq_refl).
Defined.

(** ** Removing a variable (C10) *)

Lemma with_variables_table_same (self : MathExp) :
  with_variables_table self (variables_table self) = self.
Proof. destruct self. reflexivity. Qed.

(** C10: removing a key the stored binding does not hold raises [KeyError]
    and leaves the object as it was. *)
Theorem C10_remove_missing_variable (self : MathExp) (key : pystr)
    (H : variables_table self !! key = None) :
  remove_variable key self = (Raise (KeyError key), self).
Proof.
  unfold remove_variable, dict_pop. rewrite H. cbn [bind].
  rewrite with_variables_table_same. reflexivity.
Qed.

Lemma C10_witness :
  variables_table (Build_MathExp {[ str "x" := PyInt 4 ]} (str "x") None None
                     MATHEXP_LITERAL) !! str "y" = None /\
  remove_variable (str "y")
    (Build_MathExp {[ str "x" := PyInt 4 ]} (str "x") None None MATHEXP_LITERAL) =
  (Raise (KeyError (str "y")),
   Build_MathExp {[ str "x" := PyInt 4 ]} (str "x") None None MATHEXP_LITERAL).
Proof.
  split; [reflexivity|].
  exact (C10_remove_missing_variable
           (Build_MathExp {[ str "x" := PyInt 4 ]} (str "x") None None MATHEXP_LITERAL)
           (str "y") eq_refl).
Defined.

(** Removing a key the binding holds deletes it, and nothing else. *)
Lemma remove_variable_present (self : MathExp) (key : pystr) (v : pynum) :
  variables_table self !! key = Some v ->
  remove_variable key self =
  (Ok tt, with_variables_table self (delete key (variables_table self))).
Proof. intros H. unfold remove_variable, dict_pop. rewrite H. reflexivity. Qed.

(** ** Failures of construction (C3) *)

(** C3: construction always ends, in a tree, in the module's
    [Malformed expression] or in [IndexError]; on the empty string, and on
    any string whose normal form or one of whose operands is empty, it ends
    in [IndexError], which is neither of the module's own two errors. *)
Theorem C3_empty_input_index_error :
  (forall exp, exists r, MathExp_new exp = Some r /\ init_outcome r) /\
  MathExp_new [] = Some (Raise IndexError) /\
  MathExp_new (str "()") = Some (Raise IndexError) /\
  MathExp_new (str " ") = Some (Raise IndexError) /\
  MathExp_new (str "2+()") = Some (Raise IndexError) /\
  MathExp_new (str "sin()") = Some (Raise IndexError) /\
  IndexError <> Exception MALFORMED_EXPRESSION_ERROR /\
  IndexError <> Exception EXPRESSION_PARSING_ERROR.
Proof.
  split; [exact MathExp_new_total|].
  repeat split; try discriminate; vm_compute; reflexivity.
Qed.

(** ** Division by zero (C2) *)







(** ** Splitting at the last of equal priorities (C4) *)

(** C4: when all the candidates have the same priority, the split position
    is the last candidate, so a chain of such operators groups to the left;
    [8-3-2] is built as (8-3)-2 and evaluates to 3.0. *)
Theorem C4_rightmost_of_equal_priority (M : MathModule) (exp : pystr) (c : nat)
    (Hsame : forall j j', candidateb exp j = true -> candidateb exp j' = true ->
               priority (char_at exp j) = priority (char_at exp j'))
    (Hc : candidateb exp c = true) :
  (exists r, lookup_top_operator exp = Ok (Z.of_nat r) /\ candidateb exp r = true /\
             forall j, candidateb exp j = true -> (j <= r)%nat) /\
  MathExp_new (str "8-3-2") =
    Some (Ok (tree (Bin Sub (Bin Sub (Tok (str "8")) (Tok (str "3"))) (Tok (str "2"))))) /\
  run M (str "8-3-2") None = Some (Ok (PyFloat (Z2float 3))).
Proof.
  split; [|split; vm_compute; reflexivity].
  destruct (lookup_top_operator_spec exp) as (r & Hr & Hbest).
  destruct Hbest as [[-> Hnone]|(k & -> & Hk & Hck & Hmin & Hlast)].
  - rewrite Hnone in Hc; [discriminate|].
    apply candidateb_inv in Hc. lia.
  - exists k. split; [exact Hr|]. split; [exact Hck|].
    intros j Hj. destruct (Nat.le_gt_cases j k) as [Hle|Hgt]; [exact Hle|].
    assert (Hjlen : (j < length exp)%nat) by (apply candidateb_inv in Hj; lia).
    specialize (Hlast j Hjlen Hj Hgt). specialize (Hsame k j Hck Hj). lia.
Qed.

Lemma C4_witness :
  (forall j j', candidateb (str "8-3-2") j = true -> candidateb (str "8-3-2") j' = true ->
     priority (char_at (str "8-3-2") j) = priority (char_at (str "8-3-2") j')) /\
  candidateb (str "8-3-2") 1 = true /\
  ((exists r, lookup_top_operator (str "8-3-2") = Ok (Z.of_nat r) /\
              candidateb (str "8-3-2") r = true /\
              forall j, candidateb (str "8-3-2") j = true -> (j <= r)%nat) /\
   MathExp_new (str "8-3-2") =
     Some (Ok (tree (Bin Sub (Bin Sub (Tok (str "8")) (Tok (str "3"))) (Tok (str "2"))))) /\
   run sample_math (str "8-3-2") None = Some (Ok (PyFloat (Z2float 3)))).
Proof.
  assert (Hsame : forall j j',
             candidateb (str "8-3-2") j = true -> candidateb (str "8-3-2") j' = true ->
             priority (char_at (str "8-3-2") j) = priority (char_at (str "8-3-2") j')).
  { assert (Hcases : forall j, candidateb (str "8-3-2") j = true -> j = 1%nat \/ j = 3%nat).
    { intros j Hj. pose proof (candidateb_inv _ _ Hj) as (_ & Hlen & _).
      cbn in Hlen. destruct j as [|[|[|[|j]]]]; try discriminate Hj; auto; lia. }
    intros j j' Hj Hj'.
    destruct (Hcases j Hj) as [-> | ->], (Hcases j' Hj') as [-> | ->]; reflexivity. }
  split; [exact Hsame|]. split; [reflexivity|].
  exact (C4_rightmost_of_equal_priority sample_math (str "8-3-2") 1 Hsame eq_refl).
Defined.

(** ** The factorial function (C8) *)

Lemma fact_loop (n : nat) :
  fold_left (fun res i => res * i) (py_range 1 (Z.of_nat n + 1)) 1 = factorial n.
Proof.
  unfold py_range. replace (Z.to_nat (Z.of_nat n + 1 - 1)) with n by lia.
  induction n as [|n IH]; [reflexivity|].
  rewrite seq_S, map_app, fold_left_app, IH. cbn [List.map fold_left factorial].
  lia.
Qed.

Lemma fact_of_nonneg (z : Z) :
  0 <= z ->
  (if (z =? 0) || (z =? 1) then Ok (PyInt 1)
   else Ok (PyInt (fold_left (fun res i => res * i) (py_range 1 (z + 1)) 1)))
  = Ok (PyInt (factorial (Z.to_nat z))).
Proof.
  intros Hz. assert (Hn : z = Z.of_nat (Z.to_nat z)) by lia.
  revert Hn. generalize (Z.to_nat z). intros n ->. rewrite fact_loop.
  destruct n as [|[|n]]; try reflexivity.
  settle (Z.of_nat (S (S n)) =? 0).
  settle (Z.of_nat (S (S n)) =? 1).
  reflexivity.
Qed.

Lemma fact_int (z : Z) :
  fact (PyInt z) =
  if 0 <=? z then Ok (PyInt (factorial (Z.to_nat z)))
  else Raise (Exception FACTORIAL_ERROR).
Proof.
  unfold fact, py_mod, arith. cbn [Z.eqb bind].
  rewrite Z.mod_1_r. unfold py_ne, py_eq, py_lt. cbn [py_compare Z.compare negb orb].
  destruct (Z.compare_spec z 0) as [->|Hlt|Hgt].
  - reflexivity.
  - settle (0 <=? z). reflexivity.
  - settle (0 <=? z).
    cbn [py_int bind]. apply fact_of_nonneg. lia.
Qed.

(** *** Rounding what needs no rounding *)

Lemma digits2_pos_log2 (p : positive) :
  Z.pos (digits2_pos p) = Z.log2 (Z.pos p) + 1.
Proof.
  induction p as [p IH|p IH|]; cbn [digits2_pos]; [| |reflexivity].
  - rewrite Pos2Z.inj_succ, IH.
    change (Z.pos p~1) with (2 * Z.pos p + 1). rewrite Z.log2_succ_double by lia. lia.
  - rewrite Pos2Z.inj_succ, IH.
    change (Z.pos p~0) with (2 * Z.pos p). rewrite Z.log2_double by lia. lia.
Qed.

Lemma digits2_pos_iter (p d : positive) :
  Z.pos (digits2_pos (Pos.iter xO p d)) = Z.pos (digits2_pos p) + Z.pos d.
Proof.
  induction d as [|d IH] using Pos.peano_ind.
  - cbn [Pos.iter digits2_pos]. lia.
  - rewrite Pos.iter_succ. cbn [digits2_pos]. rewrite Pos2Z.inj_succ, IH. lia.
Qed.

(** A mantissa already in canonical position is kept as it is. *)
Lemma binary_round_aux_canonical (s : bool) (m : positive) (e : Z) :
  fexp prec emax (Z.pos (digits2_pos m) + e) = e ->
  binary_round_aux prec emax s (Z.pos m) e loc_Exact =
  if e <=? emax - prec then S754_finite s m e else S754_infinity s.
Proof.
  intros H. unfold binary_round_aux, shr_fexp. cbn [Zdigits2 shr_record_of_loc].
  rewrite H, Z.sub_diag. cbn [shr shr_m loc_of_shr_record round_nearest_even].
  cbn [Zdigits2 shr_record_of_loc]. rewrite H, Z.sub_diag. cbn [shr shr_m].
  reflexivity.
Qed.

(** Rounding a positive mantissa that sits at or above its canonical
    position gives a non-zero number of the same sign. *)
Lemma binary_round_exact (s : bool) (p : positive) (e : Z) :
  fexp prec emax (Z.pos (digits2_pos p) + e) <= e ->
  exists f, binary_round prec emax s p e = f /\
            is_zero f = false /\ is_nan f = false /\ sign_bit f = s.
Proof.
  intros H. unfold binary_round, shl_align.
  destruct (fexp prec emax (Z.pos (digits2_pos p) + e) - e) as [|d|d] eqn:E; [|lia|].
  - rewrite binary_round_aux_canonical by lia.
    destruct (e <=? emax - prec); eexists; repeat split.
  - rewrite binary_round_aux_canonical.
    + destruct (_ <=? emax - prec); eexists; repeat split.
    + rewrite digits2_pos_iter.
      set (E' := fexp prec emax (Z.pos (digits2_pos p) + e)) in *.
      replace (Z.pos (digits2_pos p) + Z.pos d + E') with (Z.pos (digits2_pos p) + e) by lia.
      reflexivity.
Qed.

(** *** [num % 1] on a finite float *)

Lemma fone_eq : fone = S754_finite false 4503599627370496 (-52).
Proof. vm_compute. reflexivity. Qed.

Lemma c_fmod_one (s : bool) (m : positive) (e : Z) :
  c_fmod (S754_finite s m e) fone =
  binary_normalize prec emax (cond_Zopp s (rem_one m e)) (Z.min e (-52)) s.
Proof. rewrite fone_eq. reflexivity. Qed.

Lemma rem_one_spec (m : positive) (e : Z) :
  0 <= rem_one m e /\
  (rem_one m e = 0 <-> (0 <= e \/ Z.pos m mod 2 ^ (- e) = 0)) /\
  (e <= -52 -> rem_one m e <= Z.pos m) /\
  (-52 < e -> rem_one m e < 2 ^ 52).
Proof.
  unfold rem_one. change 4503599627370496 with (2 ^ 52).
  destruct (Z_le_gt_dec e (-52)) as [Hle|Hgt].
  - rewrite Z.min_l by lia. rewrite Z.sub_diag, Z.mul_1_r.
    rewrite <- Z.pow_add_r by lia. replace (52 + (-52 - e)) with (- e) by lia.
    assert (Hpos : 0 < 2 ^ (- e)) by (apply Z.pow_pos_nonneg; lia).
    pose proof (Z.mod_pos_bound (Z.pos m) (2 ^ (- e)) Hpos).
    split; [lia|]. split; [|split].
    + split; [intros H0; right; exact H0|]. intros [H0|H0]; [lia|exact H0].
    + intros _. apply Z.mod_le; lia.
    + lia.
  - rewrite Z.min_r by lia.
    replace (e - -52) with (e + 52) by lia. replace (-52 - -52) with 0 by lia.
    rewrite Z.mul_1_r.
    assert (Hpos : 0 < 2 ^ 52) by reflexivity.
    pose proof (Z.mod_pos_bound (Z.pos m * 2 ^ (e + 52)) (2 ^ 52) Hpos).
    assert (Hc : 0 < 2 ^ (e + 52)) by (apply Z.pow_pos_nonneg; lia).
    split; [lia|]. split; [|split]; [|lia|lia].
    destruct (Z_le_gt_dec 0 e) as [He|He].
    + assert (Hz : (Z.pos m * 2 ^ (e + 52)) mod 2 ^ 52 = 0).
      { rewrite Z.pow_add_r by lia.
        rewrite Z.mul_assoc. apply Z.mod_mul. lia. }
      rewrite Hz. split; [intros _; left; exact He|reflexivity].
    + assert (Hsplit : 2 ^ 52 = 2 ^ (- e) * 2 ^ (e + 52)).
      { rewrite <- Z.pow_add_r by lia. f_equal. lia. }
      assert (Hz : (Z.pos m * 2 ^ (e + 52)) mod 2 ^ 52
                   = Z.pos m mod 2 ^ (- e) * 2 ^ (e + 52)).
      { rewrite Hsplit. assert (0 < 2 ^ (- e)) by (apply Z.pow_pos_nonneg; lia).
        apply Z.mul_mod_distr_r; lia. }
      rewrite Hz. split.
      * intros H0. right. apply Z.mul_eq_0 in H0 as [H0|H0]; [exact H0|lia].
      * intros [H0|H0]; [lia|]. rewrite H0. reflexivity.
Qed.

Lemma py_lt_finite_zero (s : bool) (m : positive) (e : Z) :
  py_lt (PyFloat (S754_finite s m e)) (PyInt 0) = s.
Proof.
  unfold py_lt. cbn [py_compare float_int_compare].
  destruct (0 <=? e) eqn:E.
  - apply Z.leb_le in E.
    assert (0 < Z.pos m * 2 ^ e) by (apply Z.mul_pos_pos; [lia|apply Z.pow_pos_nonneg; lia]).
    destruct s; cbn [cond_Zopp].
    + destruct (Z.compare_spec (- (Z.pos m * 2 ^ e)) 0); try reflexivity; lia.
    + destruct (Z.compare_spec (Z.pos m * 2 ^ e) 0); try reflexivity; lia.
  - destruct s; reflexivity.
Qed.

Lemma py_ne_nonzero (f : float) :
  is_zero f = false -> py_ne (PyFloat f) (PyInt 0) = true.
Proof.
  unfold py_ne, py_eq. cbn [py_compare].
  destruct f as [s|s| |s m e]; cbn [is_zero float_int_compare]; try discriminate;
    intros _.
  - destruct s; reflexivity.
  - reflexivity.
  - pose proof (py_lt_finite_zero s m e) as H. unfold py_lt in H.
    cbn [py_compare float_int_compare] in H.
    destruct (0 <=? e) eqn:E.
    + apply Z.leb_le in E.
      assert (0 < Z.pos m * 2 ^ e) by (apply Z.mul_pos_pos; [lia|apply Z.pow_pos_nonneg; lia]).
      destruct s; cbn [cond_Zopp].
      * destruct (Z.compare_spec (- (Z.pos m * 2 ^ e)) 0); try reflexivity; lia.
      * destruct (Z.compare_spec (Z.pos m * 2 ^ e) 0); try reflexivity; lia.
    + destruct s; reflexivity.
Qed.

Lemma feqb_nonzero (f : float) (s : bool) :
  is_zero f = false -> feqb f (S754_zero s) = false.
Proof.
  destruct f as [s'|s'| |s' m e]; cbn [is_zero]; try discriminate; intros _.
  - destruct s'; reflexivity.
  - reflexivity.
  - destruct s'; reflexivity.
Qed.

Lemma fltb_nonneg (f : float) :
  sign_bit f = false -> fltb f (S754_zero false) = false.
Proof.
  destruct f as [s'|s'| |s' m e]; cbn [sign_bit]; intros H; subst; reflexivity.
Qed.

Lemma float_rem_one_ok (f : float) : exists x, float_rem f fone = Ok x.
Proof.
  unfold float_rem. change (feqb fone (S754_zero false)) with false. cbn iota.
  destruct (negb _); [|eexists; reflexivity].
  destruct (negb _); eexists; reflexivity.
Qed.

Lemma py_mod_float_one (f : float) :
  py_mod (PyFloat f) (PyInt 1) = let* x := float_rem f fone in Ok (PyFloat x).
Proof. reflexivity. Qed.

Lemma float_rem_one_integral (s : bool) (m : positive) (e : Z) :
  rem_one m e = 0 -> float_rem (S754_finite s m e) fone = Ok (S754_zero false).
Proof.
  intros Hz. unfold float_rem. change (feqb fone (S754_zero false)) with false.
  cbn iota. rewrite c_fmod_one, Hz.
  replace (cond_Zopp s 0) with 0 by (destruct s; reflexivity).
  cbn [binary_normalize].
  replace (feqb (S754_zero s) (S754_zero false)) with true by (destruct s; reflexivity).
  reflexivity.
Qed.

Lemma valid_binary_finite (s : bool) (m : positive) (e : Z) :
  valid_binary prec emax (S754_finite s m e) = true ->
  Z.log2 (Z.pos m) + 1 <= 53 /\ -1074 <= e.
Proof.
  cbn [valid_binary]. unfold bounded, canonical_mantissa. intros H.
  apply andb_true_iff in H as [H _]. apply Z.eqb_eq in H.
  unfold fexp, emin, prec, emax in H. rewrite digits2_pos_log2 in H. lia.
Qed.

Lemma float_rem_one_fraction (m : positive) (e : Z) :
  valid_binary prec emax (S754_finite false m e) = true ->
  rem_one m e <> 0 ->
  exists f, float_rem (S754_finite false m e) fone = Ok f /\ is_zero f = false.
Proof.
  intros Hvalid Hnz. apply valid_binary_finite in Hvalid as [Hdig Hemin].
  destruct (rem_one_spec m e) as (Hr0 & _ & Hrle & Hrlt).
  unfold float_rem. change (feqb fone (S754_zero false)) with false. cbn iota.
  rewrite c_fmod_one. cbn [cond_Zopp].
  destruct (rem_one m e) as [|p|p] eqn:Hp; [congruence| |lia].
  cbn [binary_normalize].
  assert (Hfexp : fexp prec emax (Z.pos (digits2_pos p) + Z.min e (-52)) <= Z.min e (-52)).
  { unfold fexp, emin, prec, emax. rewrite digits2_pos_log2.
    destruct (Z_le_gt_dec e (-52)) as [Hle|Hgt].
    - rewrite Z.min_l by lia. specialize (Hrle Hle).
      assert (Z.log2 (Z.pos p) <= Z.log2 (Z.pos m)) by (apply Z.log2_le_mono; lia).
      lia.
    - rewrite Z.min_r by lia. specialize (Hrlt ltac:(lia)).
      assert (Z.log2 (Z.pos p) < 52) by (apply Z.log2_lt_pow2; lia).
      lia. }
  destruct (binary_round_exact false p _ Hfexp) as (f & -> & Hfz & _ & Hfs).
  rewrite (feqb_nonzero f false Hfz). cbn [negb].
  change (fltb fone (S754_zero false)) with false. rewrite (fltb_nonneg f Hfs).
  cbn [Bool.eqb negb]. exists f. split; [reflexivity|exact Hfz].
Qed.

Lemma fact_float_finite (s : bool) (m : positive) (e : Z) :
  valid_binary prec emax (S754_finite s m e) = true ->
  fact (PyFloat (S754_finite s m e)) =
  match nonneg_integer (PyFloat (S754_finite s m e)) with
  | Some n => Ok (PyInt (factorial (Z.to_nat n)))
  | None => Raise (Exception FACTORIAL_ERROR)
  end.
Proof.
  intros Hvalid. unfold fact. rewrite py_mod_float_one.
  destruct (rem_one_spec m e) as (Hr0 & Hriff & _).
  unfold nonneg_integer, float_integer.
  destruct (Z.eq_dec (rem_one m e) 0) as [Hz|Hnz].
  - rewrite (float_rem_one_integral s m e Hz). cbn [bind].
    change (py_ne (PyFloat (S754_zero false)) (PyInt 0)) with false.
    rewrite py_lt_finite_zero. cbn [orb py_int float_trunc].
    apply Hriff in Hz.
    destruct (0 <=? e) eqn:E.
    + apply Z.leb_le in E.
      assert (0 < Z.pos m * 2 ^ e)
        by (apply Z.mul_pos_pos; [lia|apply Z.pow_pos_nonneg; lia]).
      destruct s; cbn [cond_Zopp].
      * settle (0 <=? - (Z.pos m * 2 ^ e)).
        reflexivity.
      * settle (0 <=? Z.pos m * 2 ^ e).
        cbn [bind]. apply fact_of_nonneg. lia.
    + apply Z.leb_gt in E. destruct Hz as [Hz|Hz]; [lia|]. rewrite Hz. cbn [Z.eqb].
      assert (Hd : 0 < 2 ^ (- e)) by (apply Z.pow_pos_nonneg; lia).
      assert (Hq : 0 < Z.pos m / 2 ^ (- e)).
      { pose proof (Z.div_mod (Z.pos m) (2 ^ (- e)) ltac:(lia)) as Hdm.
        rewrite Hz in Hdm. nia. }
      destruct s; cbn [cond_Zopp].
      * settle (0 <=? - (Z.pos m / 2 ^ (- e))).
        reflexivity.
      * settle (0 <=? Z.pos m / 2 ^ (- e)).
        cbn [bind]. apply fact_of_nonneg. lia.
  - assert (He : (0 <=? e) = false).
    { apply Z.leb_gt. destruct (Z_le_gt_dec 0 e); [|lia]. exfalso. apply Hnz, Hriff. lia. }
    assert (Hm : (Z.pos m mod 2 ^ (- e) =? 0) = false).
    { apply Z.eqb_neq. intros Hm. apply Hnz, Hriff. right. exact Hm. }
    rewrite He, Hm.
    destruct s.
    + destruct (float_rem_one_ok (S754_finite true m e)) as [x ->]. cbn [bind].
      rewrite py_lt_finite_zero, orb_true_r. reflexivity.
    + destruct (float_rem_one_fraction m e Hvalid Hnz) as (f & -> & Hf). cbn [bind].
      rewrite (py_ne_nonzero f Hf). reflexivity.
Qed.

(** [fact] on every number: the factorial of a non-negative integer value,
    the module's error on anything else. *)
Theorem fact_spec (v : pynum) :
  representable v ->
  fact v =
  match nonneg_integer v with
  | Some n => Ok (PyInt (factorial (Z.to_nat n)))
  | None => Raise (Exception FACTORIAL_ERROR)
  end.
Proof.
  destruct v as [z|f]; intros Hv.
  - rewrite fact_int. cbn [nonneg_integer]. destruct (0 <=? z); reflexivity.
  - destruct f as [s|s| |s m e].
    + destruct s; reflexivity.
    + destruct s; reflexivity.
    + reflexivity.
    + apply fact_float_finite, Hv.
Qed.

(** [fact(3)] does not evaluate to the [float] 6.0: [fact] multiplies
    [int]s and returns their product, the [int] 6. *)
Lemma C8_counterexample : ~ exists M, fact_of_three_is_a_float M.
Proof.
  intros [M H]. unfold fact_of_three_is_a_float in H.
  assert (E : run M (str "fact(3)") None = Some (Ok (PyInt 6)))
    by (vm_compute; reflexivity).
  rewrite E in H. discriminate H.
Qed.

(** C8, with the value of the example as the code returns it: [fact]
    returns the factorial, an [int], on the non-negative integer values and
    raises its error on every other number, negative or not integral;
    [fact(3)] yields the [int] 6, which [==] holds equal to 6.0, and
    [fact(-1)] raises the error. *)
Theorem C8_fact_domain (M : MathModule) (v : pynum) (Hv : representable v) :
  fact v =
    match nonneg_integer v with
    | Some n => Ok (PyInt (factorial (Z.to_nat n)))
    | None => Raise (Exception FACTORIAL_ERROR)
    end /\
  run M (str "fact(3)") None = Some (Ok (PyInt 6)) /\
  py_eq (PyInt 6) (PyFloat (Z2float 6)) = true /\
  run M (str "fact(-1)") None = Some (Raise (Exception FACTORIAL_ERROR)) /\
  run M (str "fact(2.5)") None = Some (Raise (Exception FACTORIAL_ERROR)).
Proof.
  split; [apply fact_spec, Hv|]. repeat split; vm_compute; reflexivity.
Qed.

Lemma C8_witness :
  representable (PyFloat (Z2float 3)) /\
  (fact (PyFloat (Z2float 3)) =
     match nonneg_integer (PyFloat (Z2float 3)) with
     | Some n => Ok (PyInt (factorial (Z.to_nat n)))
     | None => Raise (Exception FACTORIAL_ERROR)
     end /\
   run sample_math (str "fact(3)") None = Some (Ok (PyInt 6)) /\
   py_eq (PyInt 6) (PyFloat (Z2float 6)) = true /\
   run sample_math (str "fact(-1)") None = Some (Raise (Exception FACTORIAL_ERROR)) /\
   run sample_math (str "fact(2.5)") None = Some (Raise (Exception FACTORIAL_ERROR))).
Proof.
  split; [reflexivity|].
  exact (C8_fact_domain sample_math (PyFloat (Z2float 3)) eq_refl).
Defined.

(* ===================================================================== *)
(** * Further properties of the code *)
(* ===================================================================== *)

(** ** Parenthesis balance, further *)

Lemma running_count_app (a b : pystr) (n : nat) :
  running_count (a ++ b) n =
  if (n <=? length a)%nat then running_count a n
  else depth a + running_count b (n - length a).
Proof.
  unfold running_count. rewrite firstn_app, depth_app.
  destruct (n <=? length a)%nat eqn:E.
  - apply Nat.leb_le in E. replace (n - length a)%nat with 0%nat by lia.
    rewrite firstn_0. cbn [depth]. lia.
  - apply Nat.leb_gt in E. rewrite firstn_all2 by lia. reflexivity.
Qed.

Lemma running_count_all (a : pystr) (n : nat) :
  (length a <= n)%nat -> running_count a n = depth a.
Proof. intros H. unfold running_count. rewrite firstn_all2 by lia. reflexivity. Qed.

Lemma balanced_app (a b : pystr) : balanced a -> balanced b -> balanced (a ++ b).
Proof.
  intros [Ha1 Ha2] [Hb1 Hb2]. split.
  - intros n. rewrite running_count_app. destruct (n <=? length a)%nat.
    + apply Ha1.
    + specialize (Hb1 (n - length a)%nat). lia.
  - rewrite depth_app. lia.
Qed.

Lemma balanced_app_inv_r (a b : pystr) : balanced a -> balanced (a ++ b) -> balanced b.
Proof.
  intros [Ha1 Ha2] [H1 H2]. rewrite depth_app in H2. split; [|lia].
  intros n. specialize (H1 (length a + n)%nat). rewrite running_count_app in H1.
  destruct (length a + n <=? length a)%nat eqn:E.
  - apply Nat.leb_le in E. replace n with 0%nat by lia. unfold running_count.
    rewrite firstn_0. cbn [depth]. lia.
  - replace (length a + n - length a)%nat with n in H1 by lia. lia.
Qed.

Lemma balanced_app_inv_l (a b : pystr) : balanced a -> balanced (b ++ a) -> balanced b.
Proof.
  intros [Ha1 Ha2] [H1 H2]. rewrite depth_app in H2. split; [|lia].
  intros n. destruct (Nat.le_gt_cases n (length b)) as [Hn|Hn].
  - specialize (H1 n). rewrite running_count_app in H1.
    apply Nat.leb_le in Hn. rewrite Hn in H1. exact H1.
  - rewrite running_count_all by lia. lia.
Qed.

Lemma bool_eq_iff (x y : bool) : (x = true <-> y = true) -> x = y.
Proof. destruct x, y; intros [H1 H2]; try reflexivity; [symmetry; auto|auto]. Qed.

Lemma is_paren_delta (c : ascii) : is_paren c = false -> delta c = 0.
Proof.
  unfold is_paren, delta. destruct (Ascii.eqb c "("); [discriminate|].
  destruct (Ascii.eqb c ")"); [discriminate|reflexivity].
Qed.

Lemma balanced_from_filter (s : pystr) (i : Z) :
  0 <= i ->
  parens_are_balanced_from i (List.filter is_paren s) = parens_are_balanced_from i s.
Proof.
  revert i. induction s as [|c s IH]; intros i Hi; [reflexivity|].
  cbn [List.filter]. destruct (is_paren c) eqn:E.
  - rewrite !parens_are_balanced_from_cons.
    destruct (i + delta c <? 0) eqn:E'; [reflexivity|].
    apply IH. apply Z.ltb_ge in E'. exact E'.
  - rewrite parens_are_balanced_from_cons, (is_paren_delta _ E), Z.add_0_r.
    settle (i <? 0). apply IH, Hi.
Qed.

(** X1: [parens_are_balanced] returns [True] exactly on the strings whose running
    count of [(] minus [)] never goes negative and ends at zero, and [False]
    exactly on the others; only the parentheses of the string matter. *)
Theorem parens_are_balanced_decides (s : pystr) :
  (parens_are_balanced s = true <-> balanced s) /\
  (parens_are_balanced s = false <-> unbalanced s) /\
  parens_are_balanced (List.filter is_paren s) = parens_are_balanced s.
Proof.
  split; [apply parens_are_balanced_spec|].
  split; [apply parens_are_balanced_false_iff|].
  apply balanced_from_filter. lia.
Qed.

(** X2: a balanced string put before or after any string leaves the
    answer of [parens_are_balanced] on that string unchanged, and a balanced
    string in a pair of parentheses is balanced. *)
Theorem parens_are_balanced_app (a b : pystr) (Ha : parens_are_balanced a = true) :
  parens_are_balanced (a ++ b) = parens_are_balanced b /\
  parens_are_balanced (b ++ a) = parens_are_balanced b /\
  parens_are_balanced ("("%char :: a ++ [")"%char]) = true.
Proof.
  apply parens_are_balanced_spec in Ha.
  split; [|split].
  - apply bool_eq_iff. rewrite !parens_are_balanced_spec. split.
    + apply balanced_app_inv_r, Ha.
    + apply balanced_app, Ha.
  - apply bool_eq_iff. rewrite !parens_are_balanced_spec. split.
    + apply balanced_app_inv_l, Ha.
    + intros Hb. apply balanced_app; assumption.
  - apply parens_are_balanced_spec. apply (balanced_wrap [] a); [constructor|exact Ha].
Qed.

Lemma parens_are_balanced_app_witness :
  parens_are_balanced (str "(1+2)") = true /\
  (parens_are_balanced (str "(1+2)" ++ str "*(3") = parens_are_balanced (str "*(3") /\
   parens_are_balanced (str "*(3" ++ str "(1+2)") = parens_are_balanced (str "*(3") /\
   parens_are_balanced ("("%char :: str "(1+2)" ++ [")"%char]) = true).
Proof.
  split; [reflexivity|].
  exact (parens_are_balanced_app (str "(1+2)") (str "*(3") eq_refl).
Defined.

(** ** [remove_extra_parens] *)

Lemma wrapped_0 (s : pystr) : wrapped 0 s = s.
Proof. unfold wrapped. cbn [repeat app]. apply app_nil_r. Qed.

Lemma wrapped_S (k : nat) (s : pystr) :
  wrapped (S k) s = "("%char :: wrapped k s ++ [")"%char].
Proof.
  unfold wrapped. cbn [repeat app]. rewrite <- !app_assoc.
  do 3 f_equal. apply (repeat_cons k ")"%char).
Qed.

(** More fuel than the length changes nothing. *)
Lemma remove_extra_parens_loop_fuel (fuel : nat) :
  forall exp, (length exp <= fuel)%nat ->
    remove_extra_parens_loop (S fuel) exp = remove_extra_parens_loop fuel exp.
Proof.
  induction fuel as [|fuel IH]; intros exp Hlen.
  - destruct exp; [reflexivity|cbn [length] in Hlen; lia].
  - cbn [remove_extra_parens_loop]. destruct (extra_parens exp) eqn:E; [|reflexivity].
    apply (IH (slice_to_last 1 exp)). rewrite length_slice_to_last. lia.
Qed.

Lemma remove_extra_parens_loop_enough (fuel : nat) (exp : pystr) :
  (length exp <= fuel)%nat ->
  remove_extra_parens_loop fuel exp = remove_extra_parens exp.
Proof.
  unfold remove_extra_parens. induction 1 as [|fuel Hle IH]; [reflexivity|].
  rewrite remove_extra_parens_loop_fuel by exact Hle. exact IH.
Qed.

Lemma remove_extra_parens_step (exp : pystr) :
  remove_extra_parens exp =
  if extra_parens exp then remove_extra_parens (slice_to_last 1 exp) else exp.
Proof.
  rewrite <- (remove_extra_parens_loop_enough (S (length exp)) exp) by lia.
  cbn [remove_extra_parens_loop]. destruct (extra_parens exp); [|reflexivity].
  apply remove_extra_parens_loop_enough. rewrite length_slice_to_last. lia.
Qed.

Lemma remove_extra_parens_wrap (s : pystr) :
  parens_are_balanced s = true ->
  remove_extra_parens ("("%char :: s ++ [")"%char]) = remove_extra_parens s.
Proof.
  intros H. rewrite remove_extra_parens_step, extra_parens_wrap, H.
  rewrite (slice_to_last_wrap ["("%char] s ")"%char
           : slice_to_last 1 ("("%char :: s ++ [")"%char]) = s).
  reflexivity.
Qed.

Lemma remove_extra_parens_stop (exp : pystr) :
  extra_parens exp = false -> remove_extra_parens exp = exp.
Proof. intros H. rewrite remove_extra_parens_step, H. reflexivity. Qed.

(** What the loop returns: by induction on the length. *)
Lemma remove_extra_parens_spec (n : nat) :
  forall exp, (length exp <= n)%nat ->
    extra_parens (remove_extra_parens exp) = false /\
    (exists k, exp = wrapped k (remove_extra_parens exp)) /\
    parens_are_balanced (remove_extra_parens exp) = parens_are_balanced exp.
Proof.
  induction n as [|n IH]; intros exp Hlen.
  - destruct exp; [|cbn [length] in Hlen; lia].
    split; [reflexivity|]. split; [exists 0%nat; reflexivity|reflexivity].
  - rewrite remove_extra_parens_step. destruct (extra_parens exp) eqn:E.
    + destruct (extra_parens_inv _ E) as [Hshape Hb].
      destruct (IH (slice_to_last 1 exp)) as (H1 & [k Hk] & H3).
      { rewrite length_slice_to_last. lia. }
      split; [exact H1|]. split.
      * exists (S k). rewrite wrapped_S, <- Hk. exact Hshape.
      * rewrite H3. apply parens_are_balanced_spec in Hb. rewrite Hb.
        symmetry. apply parens_are_balanced_spec. rewrite Hshape.
        apply balanced_wrap; [constructor|]. apply parens_are_balanced_spec, Hb.
    + split; [exact E|]. split; [exists 0%nat; symmetry; apply wrapped_0|reflexivity].
Qed.

(** X3: [remove_extra_parens] returns its argument without some number
    of enclosing pairs of parentheses; what it returns is no longer a balanced
    string in one pair of parentheses, so a second pass changes nothing; and
    the result is balanced exactly when the argument is. *)
Theorem remove_extra_parens_result (exp : pystr) :
  extra_parens (remove_extra_parens exp) = false /\
  (exists k, exp = wrapped k (remove_extra_parens exp)) /\
  remove_extra_parens (remove_extra_parens exp) = remove_extra_parens exp /\
  parens_are_balanced (remove_extra_parens exp) = parens_are_balanced exp.
Proof.
  destruct (remove_extra_parens_spec (length exp) exp (Nat.le_refl _)) as (H1 & H2 & H3).
  split; [exact H1|]. split; [exact H2|]. split; [|exact H3].
  apply remove_extra_parens_stop, H1.
Qed.

(** ** The constructor's fuel *)

Lemma MathExp_init_fuel (fuel : nat) :
  forall fuel' exp r, MathExp_init fuel exp = Some r -> (fuel <= fuel')%nat ->
    MathExp_init fuel' exp = Some r.
Proof.
  induction fuel as [|fuel IH]; intros fuel' exp r H Hle; [discriminate|].
  destruct fuel' as [|fuel']; [lia|].
  cbn [MathExp_init] in *.
  destruct (exp_check exp) as [exp'|e]; cbn [bind_fueled] in *; [|exact H].
  destruct (get_function exp') as [F|].
  - destruct (MathExp_init fuel _) as [r1|] eqn:E1; [|discriminate].
    rewrite (IH fuel' _ _ E1) by lia. exact H.
  - destruct (lookup_top_operator exp') as [p|e]; cbn [bind_fueled] in *; [|exact H].
    destruct (0 <=? p); [|exact H].
    destruct (getitem exp' p); cbn [bind_fueled] in *; [|exact H].
    destruct (MathExp_init fuel (firstn _ _)) as [r1|] eqn:E1; [|discriminate].
    rewrite (IH fuel' _ _ E1) by lia.
    destruct r1 as [tl|e]; cbn [bind_fueled] in *; [|exact H].
    destruct (MathExp_init fuel (skipn _ _)) as [r2|] eqn:E2; [|discriminate].
    rewrite (IH fuel' _ _ E2) by lia. exact H.
Qed.

Lemma MathExp_init_enough (fuel : nat) (exp : pystr) :
  (length exp < fuel)%nat -> MathExp_init fuel exp = MathExp_new exp.
Proof.
  intros H. destruct (MathExp_new_total exp) as (r & Hr & _). rewrite Hr.
  apply (MathExp_init_fuel _ _ _ _ Hr). lia.
Qed.

Lemma MathExp_new_step (exp : pystr) :
  MathExp_new exp =
  let+ exp := Some (exp_check exp) in
  match get_function exp with
  | Some function =>
      let+ right := MathExp_new (slice_to_last (length function + 1) exp) in
      Some (Ok (Build_MathExp ∅ function None (Some right) MATHEXP_FUNCTION))
  | None =>
      let+ top_operator_pos := Some (lookup_top_operator exp) in
      if 0 <=? top_operator_pos then
        let+ c := Some (getitem exp top_operator_pos) in
        let+ left := MathExp_new (firstn (Z.to_nat top_operator_pos) exp) in
        let+ right := MathExp_new (skipn (Z.to_nat (top_operator_pos + 1)) exp) in
        Some (Ok (Build_MathExp ∅ [c] (Some left) (Some right) MATHEXP_OPERATOR))
      else Some (Ok (Build_MathExp ∅ exp None None MATHEXP_LITERAL))
  end.
Proof.
  rewrite <- (MathExp_init_enough (S (S (length exp))) exp) by lia.
  generalize (Nat.lt_succ_diag_r (length exp)).
  generalize (S (length exp)). intros fuel Hfuel.
  cbn [MathExp_init].
  destruct (exp_check exp) as [exp'|e] eqn:Hcheck; cbn [bind_fueled]; [|reflexivity].
  pose proof (exp_check_length _ _ Hcheck) as Hlen.
  destruct (get_function exp') as [F|] eqn:HF.
  - rewrite MathExp_init_enough; [reflexivity|].
    apply get_function_sound in HF as (_ & Hshape & _).
    apply (f_equal (@length ascii)) in Hshape.
    rewrite length_app in Hshape. cbn [length] in Hshape.
    rewrite length_app in Hshape. cbn [length] in Hshape.
    rewrite length_slice_to_last in *. lia.
  - destruct (lookup_top_operator_spec exp') as (r & -> & Hr). cbn [bind_fueled].
    destruct (0 <=? r) eqn:Hsign; [|reflexivity].
    apply Z.leb_le in Hsign.
    destruct (top_operator_range _ _ Hr Hsign) as (k & -> & Hk0 & Hk1 & _).
    rewrite (getitem_nth _ _ _ (nth_error_char_at exp' k ltac:(lia))).
    cbn [bind_fueled].
    rewrite (MathExp_init_enough _ (firstn _ _)) by (rewrite length_firstn; lia).
    destruct (MathExp_new (firstn _ _)) as [[tl|e]|]; cbn [bind_fueled]; try reflexivity.
    rewrite (MathExp_init_enough _ (skipn _ _)) by (rewrite length_skipn; lia).
    reflexivity.
Qed.

Lemma MathExp_new_exp_check (s s' : pystr) :
  exp_check s = exp_check s' -> MathExp_new s = MathExp_new s'.
Proof. intros H. rewrite !MathExp_new_step, H. reflexivity. Qed.

(** X4: two strings that differ only in blanks construct the same tree, or
    fail alike, and evaluate alike; blanks inside a number or a name are
    dropped as well. *)
Theorem blanks_are_ignored (M : MathModule) (s s' : pystr)
    (tmp : option (gmap pystr pynum))
    (H : remove_char " " s = remove_char " " s') :
  MathExp_new s = MathExp_new s' /\ run M s tmp = run M s' tmp.
Proof.
  assert (E : MathExp_new s = MathExp_new s').
  { apply MathExp_new_exp_check.
    rewrite <- (exp_check_remove_blank s), <- (exp_check_remove_blank s'), H.
    reflexivity. }
  split; [exact E|]. unfold run. rewrite E. reflexivity.
Qed.

Lemma blanks_are_ignored_witness :
  remove_char " " (str "1 2 + x") = remove_char " " (str "12+x") /\
  (MathExp_new (str "1 2 + x") = MathExp_new (str "12+x") /\
   run sample_math (str "1 2 + x") None = run sample_math (str "12+x") None).
Proof.
  split; [reflexivity|].
  exact (blanks_are_ignored sample_math (str "1 2 + x") (str "12+x") None eq_refl).
Defined.

(** ** Redundant parentheses *)

Lemma remove_char_wrap (s : pystr) :
  remove_char " " ("("%char :: s ++ [")"%char]) =
  "("%char :: remove_char " " s ++ [")"%char].
Proof.
  unfold remove_char. cbn [List.filter Ascii.eqb Bool.eqb negb].
  rewrite List.filter_app. reflexivity.
Qed.

Lemma parens_are_balanced_remove_blank (s : pystr) :
  parens_are_balanced (remove_char " " s) = parens_are_balanced s.
Proof. apply balanced_from_remove_blank. lia. Qed.

Lemma parens_are_balanced_wrap (s : pystr) :
  parens_are_balanced s = true -> parens_are_balanced ("("%char :: s ++ [")"%char]) = true.
Proof.
  intros H. apply parens_are_balanced_spec.
  apply (balanced_wrap [] s); [constructor|]. apply parens_are_balanced_spec, H.
Qed.

Lemma exp_check_wrap (s : pystr) :
  parens_are_balanced s = true ->
  exp_check ("("%char :: s ++ [")"%char]) = exp_check s.
Proof.
  intros H. unfold exp_check.
  rewrite (parens_are_balanced_wrap s H), H, remove_char_wrap.
  rewrite remove_extra_parens_wrap; [reflexivity|].
  rewrite parens_are_balanced_remove_blank. exact H.
Qed.

Lemma parens_are_balanced_wrapped (k : nat) (s : pystr) :
  parens_are_balanced s = true -> parens_are_balanced (wrapped k s) = true.
Proof.
  intros H. induction k as [|k IH]; [rewrite wrapped_0; exact H|].
  rewrite wrapped_S. apply parens_are_balanced_wrap, IH.
Qed.

Lemma exp_check_wrapped (k : nat) (s : pystr) :
  parens_are_balanced s = true -> exp_check (wrapped k s) = exp_check s.
Proof.
  intros H. induction k as [|k IH]; [rewrite wrapped_0; reflexivity|].
  rewrite wrapped_S, exp_check_wrap; [exact IH|].
  apply parens_are_balanced_wrapped, H.
Qed.

(** X5: any number of pairs of parentheses around a balanced string
    changes neither the tree constructed nor the result. *)
Theorem redundant_parentheses_are_transparent (M : MathModule) (k : nat) (s : pystr)
    (tmp : option (gmap pystr pynum)) (H : parens_are_balanced s = true) :
  MathExp_new (wrapped k s) = MathExp_new s /\
  run M (wrapped k s) tmp = run M s tmp.
Proof.
  assert (E : MathExp_new (wrapped k s) = MathExp_new s)
    by (apply MathExp_new_exp_check, exp_check_wrapped, H).
  split; [exact E|]. unfold run. rewrite E. reflexivity.
Qed.

Lemma redundant_parentheses_are_transparent_witness :
  parens_are_balanced (str "2+3") = true /\
  wrapped 2 (str "2+3") = str "((2+3))" /\
  (MathExp_new (wrapped 2 (str "2+3")) = MathExp_new (str "2+3") /\
   run sample_math (wrapped 2 (str "2+3")) None = run sample_math (str "2+3") None).
Proof.
  split; [reflexivity|]. split; [reflexivity|].
  exact (redundant_parentheses_are_transparent sample_math 2 (str "2+3") None eq_refl).
Defined.

(** ** Signs *)

Lemma getitem_last_inv (s : pystr) (c : ascii) :
  getitem s (-1) = Ok c -> exists r, s = r ++ [c].
Proof.
  destruct s as [|c0 s0]; [rewrite getitem_nil; discriminate|].
  destruct (exists_last (l := c0 :: s0)) as (r & d & E); [discriminate|].
  rewrite E, getitem_last. intros [= ->]. exists r. reflexivity.
Qed.

Lemma getitem_last_cons (c d : ascii) (s : pystr) :
  getitem (c :: d :: s) (-1) = getitem (d :: s) (-1).
Proof.
  destruct (exists_last (l := d :: s)) as (r & x & E); [discriminate|].
  rewrite E. rewrite (getitem_last r x).
  apply (getitem_last (c :: r) x).
Qed.

Lemma extra_parens_not_open (c : ascii) (s : pystr) :
  c <> "("%char -> extra_parens (c :: s) = false.
Proof.
  intros H. unfold extra_parens. cbn [str list_ascii_of_string startswith].
  apply Ascii.eqb_neq in H. rewrite Ascii.eqb_sym, H. reflexivity.
Qed.

Lemma parens_are_balanced_skip (c : ascii) (s : pystr) :
  delta c = 0 -> parens_are_balanced (c :: s) = parens_are_balanced s.
Proof.
  intros H. unfold parens_are_balanced.
  rewrite parens_are_balanced_from_cons, H. reflexivity.
Qed.

Lemma exp_check_minus (s : pystr) :
  exp_check ("-"%char :: s) = exp_check ("0"%char :: "-"%char :: s).
Proof.
  unfold exp_check.
  rewrite !parens_are_balanced_skip by reflexivity.
  destruct (parens_are_balanced s); cbn [negb]; [|reflexivity].
  change (remove_char " " ("-"%char :: s)) with ("-"%char :: remove_char " " s).
  change (remove_char " " ("0"%char :: "-"%char :: s))
    with ("0"%char :: "-"%char :: remove_char " " s).
  rewrite !remove_extra_parens_stop by (apply extra_parens_not_open; discriminate).
  rewrite getitem_last_cons, !getitem_cons_0. cbn [bind].
  destruct (getitem ("-"%char :: remove_char " " s) (-1)) as [last|e]; cbn [bind];
    [|reflexivity].
  change (is_operator ["-"%char] && negb (bool_decide (["-"%char] = str "+"))
          && negb (bool_decide (["-"%char] = str "-"))) with false.
  change (is_operator ["0"%char]) with false.
  cbn [andb]. destruct (is_operator [last]); [reflexivity|].
  change (bool_decide (["-"%char] = str "-")) with true.
  change (bool_decide (["0"%char] = str "-")) with false.
  cbn [str list_ascii_of_string app]. rewrite !getitem_cons_0. reflexivity.
Qed.

(** X6: a leading [-] is read as a subtraction from 0: [-s] constructs what
    [0-s] constructs, for every string [s]; [-5+3] evaluates to -2.0. *)
Theorem leading_minus_is_zero_minus (M : MathModule) (s : pystr)
    (tmp : option (gmap pystr pynum)) :
  MathExp_new ("-"%char :: s) = MathExp_new ("0"%char :: "-"%char :: s) /\
  run M ("-"%char :: s) tmp = run M ("0"%char :: "-"%char :: s) tmp /\
  run M (str "-5+3") None = Some (Ok (PyFloat (Z2float (-2)))).
Proof.
  assert (E : MathExp_new ("-"%char :: s) = MathExp_new ("0"%char :: "-"%char :: s))
    by apply MathExp_new_exp_check, exp_check_minus.
  split; [exact E|]. split; [unfold run; rewrite E; reflexivity|].
  vm_compute. reflexivity.
Qed.

(** ** What [exp_check] returns *)

Lemma blank_free_remove_char (s : pystr) : blank_free (remove_char " " s).
Proof.
  unfold blank_free, remove_char.
  apply Forall_forall. intros d Hd. apply list_elem_of_In, filter_In in Hd as [_ Hd].
  apply negb_true_iff, Ascii.eqb_neq in Hd. exact Hd.
Qed.

Lemma blank_free_wrapped (k : nat) (s : pystr) : blank_free (wrapped k s) -> blank_free s.
Proof.
  unfold blank_free, wrapped. intros H.
  apply Forall_app in H as [_ H]. apply Forall_app in H as [H _]. exact H.
Qed.

Lemma blank_free_stripped (s : pystr) : blank_free (stripped s).
Proof.
  unfold stripped.
  destruct (remove_extra_parens_spec _ (remove_char " " s) (Nat.le_refl _))
    as (_ & [k Hk] & _).
  apply (blank_free_wrapped k). rewrite <- Hk. apply blank_free_remove_char.
Qed.

Lemma parens_are_balanced_stripped (s : pystr) :
  parens_are_balanced (stripped s) = parens_are_balanced s.
Proof.
  unfold stripped.
  destruct (remove_extra_parens_spec _ (remove_char " " s) (Nat.le_refl _))
    as (_ & _ & ->).
  apply parens_are_balanced_remove_blank.
Qed.

(** The cases of a successful [exp_check]. *)
Lemma exp_check_ok (s r : pystr) :
  exp_check s = Ok r ->
  parens_are_balanced s = true /\
  exists first rest last,
    stripped s = first :: rest /\ getitem (stripped s) (-1) = Ok last /\
    is_op last = false /\
    (is_op first = false \/ first = "+"%char \/ first = "-"%char) /\
    r = if Ascii.eqb first "-" then "0"%char :: stripped s
        else if Ascii.eqb first "+" then rest else stripped s.
Proof.
  unfold exp_check. fold (stripped s).
  destruct (parens_are_balanced s); cbn [negb]; [|discriminate].
  destruct (getitem (stripped s) 0) as [first|e1] eqn:E1; cbn [bind]; [|discriminate].
  destruct (getitem (stripped s) (-1)) as [last|e2] eqn:E2; cbn [bind]; [|discriminate].
  apply getitem_0_inv in E1 as E1'. destruct E1' as [rest Hs].
  fold (is_op first). fold (is_op last).
  change (str "+") with ["+"%char]. change (str "-") with ["-"%char].
  rewrite !bool_decide_char.
  destruct (is_op first && negb (Ascii.eqb first "+") && negb (Ascii.eqb first "-")) eqn:Ef;
    [discriminate|].
  destruct (is_op last) eqn:El; [discriminate|].
  intros H. split; [reflexivity|]. exists first, rest, last.
  split; [exact Hs|]. split; [reflexivity|]. split; [exact El|]. split.
  { destruct (is_op first); [|left; reflexivity]. cbn [andb] in Ef.
    destruct (Ascii.eqb first "+") eqn:Ep; [apply Ascii.eqb_eq in Ep; auto|].
    destruct (Ascii.eqb first "-") eqn:Em; [apply Ascii.eqb_eq in Em; auto|].
    discriminate. }
  destruct (Ascii.eqb first "-") eqn:Em.
  - cbn [str list_ascii_of_string app] in H. rewrite getitem_cons_0 in H.
    cbn [bind] in H. rewrite ?bool_decide_char in H.
    change (Ascii.eqb "0" "+") with false in H. injection H as <-. reflexivity.
  - rewrite E1 in H. cbn [bind] in H. rewrite ?bool_decide_char in H.
    destruct (Ascii.eqb first "+"); injection H as <-; [|reflexivity].
    rewrite Hs. reflexivity.
Qed.

Lemma exp_check_post (s r : pystr) :
  exp_check s = Ok r ->
  r <> [] /\ parens_are_balanced r = true /\ blank_free r /\ ends_in_operand r /\
  (length r <= length s + 1)%nat.
Proof.
  intros H. pose proof (exp_check_length _ _ H) as Hlen.
  apply exp_check_ok in H as (Hb & first & rest & last & Hs & Hl & Hlast & Hfirst & ->).
  pose proof (blank_free_stripped s) as Hbf.
  pose proof (parens_are_balanced_stripped s) as Hbs. rewrite Hb in Hbs.
  apply getitem_last_inv in Hl as [q Hq].
  destruct (Ascii.eqb first "-") eqn:Em; [|destruct (Ascii.eqb first "+") eqn:Ep].
  - split; [discriminate|]. split; [rewrite parens_are_balanced_skip by reflexivity; exact Hbs|].
    split; [constructor; [discriminate|exact Hbf]|]. split; [|exact Hlen].
    exists ("0"%char :: q), last. rewrite Hq. split; [reflexivity|exact Hlast].
  - apply Ascii.eqb_eq in Ep. subst first.
    assert (Hrest : rest = removelast rest ++ [last]).
    { destruct q as [|c q]; rewrite Hs in Hq.
      - injection Hq as <- _. discriminate.
      - injection Hq as _ ->. rewrite removelast_last. reflexivity. }
    split; [rewrite Hrest; apply not_eq_sym, app_cons_not_nil|].
    split; [rewrite Hs, parens_are_balanced_skip in Hbs by reflexivity; exact Hbs|].
    split; [rewrite Hs in Hbf; inversion Hbf; assumption|]. split; [|exact Hlen].
    exists (removelast rest), last. split; [exact Hrest|exact Hlast].
  - split; [rewrite Hs; discriminate|]. split; [exact Hbs|]. split; [exact Hbf|].
    split; [|exact Hlen]. exists q, last. split; [exact Hq|exact Hlast].
Qed.

(** X7: a string [exp_check] returns is never empty, is balanced, holds no
    blank, does not end in an operator, and is at most one character longer
    than the argument. *)
Theorem exp_check_returns (s r : pystr) (H : exp_check s = Ok r) :
  r <> [] /\ parens_are_balanced r = true /\ blank_free r /\ ends_in_operand r /\
  (length r <= length s + 1)%nat.
Proof. exact (exp_check_post s r H). Qed.

Lemma exp_check_returns_witness :
  exp_check (str " (-x) ") = Ok (str "0-x") /\
  (str "0-x" <> [] /\ parens_are_balanced (str "0-x") = true /\ blank_free (str "0-x") /\
   ends_in_operand (str "0-x") /\ (length (str "0-x") <= length (str " (-x) ") + 1)%nat).
Proof.
  split; [reflexivity|].
  exact (exp_check_returns (str " (-x) ") (str "0-x") eq_refl).
Defined.

(** X8: [exp_check] drops a leading [+] and returns the rest as it is: the
    rest is not normalised again.  So [+*3] and [+(2)] construct the literal
    leaves [*3] and [(2)], and [+-x] the leaf [-x], where [*3] alone is
    refused. *)
Theorem leading_plus_is_dropped_once (r : pystr)
    (Hb : parens_are_balanced r = true) (Hbf : blank_free r) (He : ends_in_operand r) :
  exp_check ("+"%char :: r) = Ok r /\
  MathExp_new (str "+*3") =
    Some (Ok (Build_MathExp ∅ (str "*3") None None MATHEXP_LITERAL)) /\
  MathExp_new (str "*3") = Some (Raise (Exception MALFORMED_EXPRESSION_ERROR)) /\
  MathExp_new (str "+(2)") =
    Some (Ok (Build_MathExp ∅ (str "(2)") None None MATHEXP_LITERAL)) /\
  MathExp_new (str "+-x") =
    Some (Ok (Build_MathExp ∅ (str "-x") None None MATHEXP_LITERAL)).
Proof.
  split; [|repeat split; vm_compute; reflexivity].
  destruct He as (q & last & -> & Hlast).
  unfold exp_check. rewrite parens_are_balanced_skip, Hb by reflexivity. cbn [negb].
  rewrite (remove_char_id " " ("+"%char :: q ++ [last])) by (constructor; [discriminate|exact Hbf]).
  rewrite remove_extra_parens_stop by (apply extra_parens_not_open; discriminate).
  rewrite getitem_cons_0.
  rewrite (getitem_last ("+"%char :: q) last
           : getitem ("+"%char :: q ++ [last]) (-1) = Ok last).
  cbn [bind].
  fold (is_op last). rewrite Hlast.
  change (is_operator ["+"%char] && negb (bool_decide (["+"%char] = str "+"))
          && negb (bool_decide (["+"%char] = str "-"))) with false.
  cbn iota. change (bool_decide (["+"%char] = str "-")) with false. cbn iota.
  rewrite getitem_cons_0. reflexivity.
Qed.

Lemma leading_plus_is_dropped_once_witness :
  parens_are_balanced (str "*3") = true /\ blank_free (str "*3") /\
  ends_in_operand (str "*3") /\
  (exp_check ("+"%char :: str "*3") = Ok (str "*3") /\
   MathExp_new (str "+*3") =
     Some (Ok (Build_MathExp ∅ (str "*3") None None MATHEXP_LITERAL)) /\
   MathExp_new (str "*3") = Some (Raise (Exception MALFORMED_EXPRESSION_ERROR)) /\
   MathExp_new (str "+(2)") =
     Some (Ok (Build_MathExp ∅ (str "(2)") None None MATHEXP_LITERAL)) /\
   MathExp_new (str "+-x") =
     Some (Ok (Build_MathExp ∅ (str "-x") None None MATHEXP_LITERAL))).
Proof.
  assert (H1 : blank_free (str "*3")) by (repeat constructor; discriminate).
  assert (H2 : ends_in_operand (str "*3")) by (exists (str "*"), "3"%char; split; reflexivity).
  split; [reflexivity|]. split; [exact H1|]. split; [exact H2|].
  exact (leading_plus_is_dropped_once (str "*3") eq_refl H1 H2).
Defined.

(** ** The empty normal form *)

Lemma remove_extra_parens_wrapped (k : nat) (s : pystr) :
  parens_are_balanced s = true ->
  remove_extra_parens (wrapped k s) = remove_extra_parens s.
Proof.
  intros H. induction k as [|k IH]; [rewrite wrapped_0; reflexivity|].
  rewrite wrapped_S, remove_extra_parens_wrap; [exact IH|].
  apply parens_are_balanced_wrapped, H.
Qed.

(** X9: [exp_check] ends in [IndexError] exactly on the strings that, blanks
    apart, are some number (possibly zero) of [(] followed by as many [)]. *)
Theorem exp_check_index_error (s : pystr) :
  exp_check s = Raise IndexError <-> exists k, remove_char " " s = wrapped k [].
Proof.
  split.
  - unfold exp_check. fold (stripped s).
    destruct (parens_are_balanced s); cbn [negb]; [|discriminate].
    destruct (stripped s) as [|c q] eqn:Hs.
    + intros _. unfold stripped in Hs.
      destruct (remove_extra_parens_spec _ (remove_char " " s) (Nat.le_refl _))
        as (_ & [k Hk] & _).
      exists k. rewrite Hs in Hk. exact Hk.
    + rewrite getitem_cons_0. cbn [bind].
      destruct (exists_last (l := c :: q)) as (q' & d & E); [discriminate|].
      rewrite E, getitem_last. cbn [bind]. rewrite <- E.
      destruct (_ && _); [discriminate|]. destruct (is_operator [d]); [discriminate|].
      destruct (bool_decide ([c] = str "-")); cbn [str list_ascii_of_string app];
        rewrite getitem_cons_0; discriminate.
  - intros [k Hk]. unfold exp_check.
    rewrite <- parens_are_balanced_remove_blank, Hk.
    rewrite parens_are_balanced_wrapped by reflexivity. cbn [negb].
    rewrite remove_extra_parens_wrapped by reflexivity.
    reflexivity.
Qed.

(** ** The split position, further *)

Lemma split_at (exp : pystr) (k : nat) :
  (k < length exp)%nat ->
  exp = firstn k exp ++ char_at exp k :: skipn (S k) exp.
Proof.
  intros Hk. pose proof (nth_error_char_at exp k Hk) as Hn.
  revert Hn. generalize (char_at exp k). intros c Hn.
  apply nth_error_split in Hn as (l1 & l2 & -> & <-).
  rewrite firstn_app, Nat.sub_diag, firstn_all, firstn_0, app_nil_r.
  rewrite skipn_app, skipn_all2 by lia.
  replace (S (length l1) - length l1)%nat with 1%nat by lia. reflexivity.
Qed.

(** X11: [lookup_top_operator] never raises; it returns -1 or the index of
    an operator character outside all parentheses, with at least one
    character on either side. *)
Theorem lookup_top_operator_position (exp : pystr) :
  exists r, lookup_top_operator exp = Ok r /\
    (r = -1 \/
     exists L c R, exp = L ++ c :: R /\ r = Z.of_nat (length L) /\
                   L <> [] /\ R <> [] /\ is_op c = true /\ depth L = 0).
Proof.
  destruct (lookup_top_operator_spec exp) as (r & Hr & Htop).
  exists r. split; [exact Hr|].
  destruct (Z.lt_ge_cases r 0) as [Hneg|Hpos].
  - left. destruct Htop as [[-> _]|(k & -> & _)]; [reflexivity|lia].
  - right. destruct (top_operator_range _ _ Htop Hpos) as (k & -> & Hk0 & Hk1 & Hop & Hd).
    exists (firstn k exp), (char_at exp k), (skipn (S k) exp).
    split; [apply split_at; lia|]. rewrite length_firstn.
    split; [lia|]. split.
    { intros E. apply (f_equal (@length ascii)) in E. rewrite length_firstn in E.
      cbn [length] in E. lia. }
    split; [|split; [exact Hop|exact Hd]].
    intros E. apply (f_equal (@length ascii)) in E. rewrite length_skipn in E.
    cbn [length] in E. lia.
Qed.

Lemma candidateb_length (exp : pystr) (j : nat) :
  candidateb exp j = true -> (j < length exp)%nat.
Proof. intros H. apply candidateb_inv in H. lia. Qed.

(** X12: [lookup_top_operator] returns -1 exactly when the string has no
    split candidate, and otherwise the candidate of least priority, the last
    one among those of that priority. *)
Theorem lookup_top_operator_weakest_last (exp : pystr) (r : Z) :
  lookup_top_operator exp = Ok r <->
  (r = -1 /\ forall j, candidateb exp j = false) \/
  (exists k, r = Z.of_nat k /\ candidateb exp k = true /\
     (forall j, candidateb exp j = true ->
                priority (char_at exp k) <= priority (char_at exp j)) /\
     (forall j, candidateb exp j = true -> (k < j)%nat ->
                priority (char_at exp k) < priority (char_at exp j))).
Proof.
  split.
  - intros Hr. destruct (lookup_top_operator_spec exp) as (r' & Hr' & Htop).
    rewrite Hr in Hr'. injection Hr' as <-.
    destruct Htop as [[-> Hnone]|(k & -> & Hk & Hck & Hmin & Hlast)].
    + left. split; [reflexivity|]. intros j.
      destruct (candidateb exp j) eqn:E; [|reflexivity].
      rewrite <- E. apply Hnone. apply candidateb_length, E.
    + right. exists k. split; [reflexivity|]. split; [exact Hck|]. split.
      * intros j Hj. apply Hmin; [apply candidateb_length|]; exact Hj.
      * intros j Hj. apply Hlast; [apply candidateb_length|]; exact Hj.
  - intros H. apply lookup_top_operator_eq.
    destruct H as [[-> Hnone]|(k & -> & Hck & Hmin & Hlast)].
    + left. split; [reflexivity|]. intros j _. apply Hnone.
    + right. exists k. split; [reflexivity|].
      split; [apply candidateb_length, Hck|]. split; [exact Hck|]. split.
      * intros j _. apply Hmin.
      * intros j _. apply Hlast.
Qed.

Lemma balanced_prefix (a b : pystr) : balanced (a ++ b) -> depth a = 0 -> balanced a.
Proof.
  intros [H1 H2] Hd. split; [|exact Hd].
  intros n. destruct (Nat.le_gt_cases n (length a)) as [Hn|Hn].
  - specialize (H1 n). rewrite running_count_app in H1.
    apply Nat.leb_le in Hn. rewrite Hn in H1. exact H1.
  - rewrite running_count_all by lia. lia.
Qed.

(** X13: when a balanced string is split at the position
    [lookup_top_operator] returns, both operands are non-empty and balanced. *)
Theorem split_operands_are_balanced (exp : pystr) (r : Z)
    (Hb : parens_are_balanced exp = true)
    (Hr : lookup_top_operator exp = Ok r) (Hpos : 0 <= r) :
  firstn (Z.to_nat r) exp <> [] /\
  skipn (Z.to_nat (r + 1)) exp <> [] /\
  parens_are_balanced (firstn (Z.to_nat r) exp) = true /\
  parens_are_balanced (skipn (Z.to_nat (r + 1)) exp) = true.
Proof.
  destruct (lookup_top_operator_position exp) as (r' & Hr' & H).
  rewrite Hr in Hr'. injection Hr' as <-.
  destruct H as [->|(L & c & R & -> & -> & HL & HR & Hop & Hd)]; [lia|].
  rewrite Nat2Z.id.
  replace (Z.to_nat (Z.of_nat (length L) + 1)) with (S (length L)) by lia.
  rewrite firstn_app, Nat.sub_diag, firstn_all, firstn_0, app_nil_r.
  rewrite skipn_app, skipn_all2 by lia.
  replace (S (length L) - length L)%nat with 1%nat by lia. cbn [skipn app].
  rewrite ?skipn_O.
  split; [exact HL|]. split; [exact HR|].
  apply parens_are_balanced_spec in Hb.
  pose proof (balanced_prefix _ _ Hb Hd) as HbL.
  split; [apply parens_are_balanced_spec, HbL|].
  rewrite <- (parens_are_balanced_skip c R) by (apply is_op_paren_free, Hop).
  apply parens_are_balanced_spec. apply (balanced_app_inv_r L); assumption.
Qed.

Lemma split_operands_are_balanced_witness :
  parens_are_balanced (str "(1+2)*3") = true /\
  lookup_top_operator (str "(1+2)*3") = Ok 5 /\ 0 <= 5 /\
  (firstn (Z.to_nat 5) (str "(1+2)*3") <> [] /\
   skipn (Z.to_nat (5 + 1)) (str "(1+2)*3") <> [] /\
   parens_are_balanced (firstn (Z.to_nat 5) (str "(1+2)*3")) = true /\
   parens_are_balanced (skipn (Z.to_nat (5 + 1)) (str "(1+2)*3")) = true).
Proof.
  split; [reflexivity|]. split; [reflexivity|]. split; [lia|].
  exact (split_operands_are_balanced (str "(1+2)*3") 5 eq_refl eq_refl ltac:(lia)).
Defined.

(** ** Function calls *)

Lemma get_function_call (F arg : pystr) :
  In F (dict_keys FUNCTION_LIST) -> parens_are_balanced arg = true ->
  get_function (F ++ "("%char :: arg ++ [")"%char]) = Some F.
Proof.
  apply (get_function_loop_complete (dict_keys FUNCTION_LIST)
           FUNCTION_LIST_paren_free F arg).
Qed.

(** X14: [get_function] finds every call: on a registered name followed by
    a balanced string in parentheses it returns that name. *)
Theorem get_function_complete (F arg : pystr)
    (HF : In F (dict_keys FUNCTION_LIST)) (Ha : parens_are_balanced arg = true) :
  get_function (F ++ str "(" ++ arg ++ str ")") = Some F.
Proof. exact (get_function_call F arg HF Ha). Qed.

Lemma get_function_complete_witness :
  In (str "asin") (dict_keys FUNCTION_LIST) /\
  parens_are_balanced (str "(x)/2") = true /\
  get_function (str "asin" ++ str "(" ++ str "(x)/2" ++ str ")") = Some (str "asin").
Proof.
  assert (H : In (str "asin") (dict_keys FUNCTION_LIST))
    by (cbn; tauto).
  split; [exact H|]. split; [reflexivity|].
  exact (get_function_complete (str "asin") (str "(x)/2") H eq_refl).
Defined.

Lemma function_name_first (F : pystr) :
  In F (dict_keys FUNCTION_LIST) ->
  exists c F', F = c :: F' /\ is_op c = false /\ c <> "("%char /\ blank_free F.
Proof.
  cbn [dict_keys FUNCTION_LIST List.map fst In].
  intros [<-|[<-|[<-|[<-|[<-|[<-|[<-|[<-|[<-|[<-|[]]]]]]]]]]];
    (eexists _, _; split; [reflexivity|]; split; [reflexivity|]; split; [discriminate|];
     repeat constructor; discriminate).
Qed.

Lemma exp_check_call (F arg : pystr) :
  In F (dict_keys FUNCTION_LIST) -> parens_are_balanced arg = true ->
  exp_check (F ++ "("%char :: arg ++ [")"%char]) =
  Ok (F ++ "("%char :: remove_char " " arg ++ [")"%char]).
Proof.
  intros HF Ha.
  destruct (function_name_first F HF) as (c & F' & -> & Hc & Hopen & Hbf).
  assert (Hpf : paren_free (c :: F')).
  { eapply (proj1 (List.Forall_forall _ _) FUNCTION_LIST_paren_free). exact HF. }
  unfold exp_check.
  assert (Hb : parens_are_balanced ((c :: F') ++ "("%char :: arg ++ [")"%char]) = true).
  { apply parens_are_balanced_spec, balanced_wrap; [exact Hpf|].
    apply parens_are_balanced_spec, Ha. }
  rewrite Hb. cbn [negb].
  assert (Hrm : remove_char " " ((c :: F') ++ "("%char :: arg ++ [")"%char]) =
                (c :: F') ++ "("%char :: remove_char " " arg ++ [")"%char]).
  { unfold remove_char. rewrite List.filter_app.
    fold (remove_char " " (c :: F')). rewrite (remove_char_id " " (c :: F') Hbf).
    f_equal. apply remove_char_wrap. }
  rewrite Hrm.
  rewrite remove_extra_parens_stop by (apply extra_parens_not_open, Hopen).
  assert (Hshape : (c :: F') ++ "("%char :: remove_char " " arg ++ [")"%char] =
                   (c :: F' ++ "("%char :: remove_char " " arg) ++ [")"%char]).
  { cbn [app]. rewrite <- app_assoc. reflexivity. }
  rewrite Hshape, getitem_last. cbn [app]. rewrite getitem_cons_0. cbn [bind].
  fold (is_op c). rewrite Hc. cbn [andb].
  change (is_operator [")"%char]) with false. cbn iota.
  destruct (not_op_not_sign c Hc) as [Hplus Hminus].
  rewrite Hminus, getitem_cons_0. cbn [bind]. rewrite Hplus. reflexivity.
Qed.

(** X15: a registered name applied to a balanced argument constructs a
    function node over the construction of the argument, and fails as the
    construction of the argument fails. *)
Theorem function_call_construction (F arg : pystr)
    (HF : In F (dict_keys FUNCTION_LIST)) (Ha : parens_are_balanced arg = true) :
  MathExp_new (F ++ str "(" ++ arg ++ str ")") =
  let+ right := MathExp_new arg in
  Some (Ok (Build_MathExp ∅ F None (Some right) MATHEXP_FUNCTION)).
Proof.
  rewrite MathExp_new_step.
  change (F ++ str "(" ++ arg ++ str ")") with (F ++ "("%char :: arg ++ [")"%char]).
  rewrite (exp_check_call F arg HF Ha). cbn [bind_fueled].
  rewrite (get_function_call F (remove_char " " arg) HF)
    by (rewrite parens_are_balanced_remove_blank; exact Ha).
  destruct (call_tests F (remove_char " " arg)) as (_ & _ & ->).
  replace (MathExp_new (remove_char " " arg)) with (MathExp_new arg); [reflexivity|].
  apply MathExp_new_exp_check. symmetry. apply exp_check_remove_blank.
Qed.

Lemma function_call_construction_witness :
  In (str "abs") (dict_keys FUNCTION_LIST) /\
  parens_are_balanced (str "x - 1") = true /\
  MathExp_new (str "abs" ++ str "(" ++ str "x - 1" ++ str ")") =
  let+ right := MathExp_new (str "x - 1") in
  Some (Ok (Build_MathExp ∅ (str "abs") None (Some right) MATHEXP_FUNCTION)).
Proof.
  assert (H : In (str "abs") (dict_keys FUNCTION_LIST)) by (cbn; tauto).
  split; [exact H|]. split; [reflexivity|].
  exact (function_call_construction (str "abs") (str "x - 1") H eq_refl).
Defined.

(** ** The shape of constructed trees *)

Lemma MathExp_init_well_shaped (fuel : nat) :
  forall exp t, MathExp_init fuel exp = Some (Ok t) -> well_shaped t.
Proof.
  induction fuel as [|fuel IH]; intros exp t H; [discriminate|].
  cbn [MathExp_init] in H.
  destruct (exp_check exp) as [exp'|e] eqn:Hcheck; cbn [bind_fueled] in H; [|discriminate].
  destruct (get_function exp') as [F|] eqn:HF.
  - destruct (MathExp_init fuel _) as [[tr|e]|] eqn:Er; cbn [bind_fueled] in H;
      try discriminate.
    injection H as <-. cbn [well_shaped]. split; [reflexivity|]. right. left.
    apply get_function_sound in HF as (Hin & _).
    split; [reflexivity|]. split; [exact Hin|]. split; [reflexivity|].
    apply (IH _ _ Er).
  - destruct (lookup_top_operator_spec exp') as (r & Hr & Htop).
    rewrite Hr in H. cbn [bind_fueled] in H.
    destruct (0 <=? r) eqn:Hsign.
    + apply Z.leb_le in Hsign.
      destruct (top_operator_range _ _ Htop Hsign) as (k & -> & Hk0 & Hk1 & Hop & _).
      rewrite (getitem_nth _ _ _ (nth_error_char_at exp' k ltac:(lia))) in H.
      cbn [bind_fueled] in H.
      destruct (MathExp_init fuel (firstn _ _)) as [[tl|e]|] eqn:El; cbn [bind_fueled] in H;
        try discriminate.
      destruct (MathExp_init fuel (skipn _ _)) as [[tr|e]|] eqn:Er; cbn [bind_fueled] in H;
        try discriminate.
      injection H as <-. cbn [well_shaped]. split; [reflexivity|]. right. right.
      split; [reflexivity|]. split; [exact Hop|].
      split; [apply (IH _ _ El)|apply (IH _ _ Er)].
    + injection H as <-. cbn [well_shaped]. split; [reflexivity|]. left.
      split; [reflexivity|]. split; [|split; reflexivity].
      apply (exp_check_post _ _ Hcheck).
Qed.

(** X16: every node of a constructed tree has the children its type asks for:
    a literal a non-empty token and no child, a function node a registered
    name and its argument only, an operator node one of the five operators
    and two operands; every node starts with an empty table. *)
Theorem constructed_trees_are_well_shaped (exp : pystr) (t : MathExp)
    (H : MathExp_new exp = Some (Ok t)) :
  well_shaped t.
Proof. exact (MathExp_init_well_shaped _ exp t H). Qed.

Lemma constructed_trees_are_well_shaped_witness :
  MathExp_new (str "sin(x)+1") =
    Some (Ok (tree (Bin Add (Fn (str "sin") (Tok (str "x"))) (Tok (str "1"))))) /\
  well_shaped (tree (Bin Add (Fn (str "sin") (Tok (str "x"))) (Tok (str "1")))).
Proof.
  split; [reflexivity|].
  exact (constructed_trees_are_well_shaped (str "sin(x)+1") _ eq_refl).
Defined.

(** ** What an evaluation can raise *)

Lemma int_to_float_raises (z : Z) (e : exn) :
  int_to_float z = Raise e -> e = OverflowError.
Proof.
  unfold int_to_float. destruct (Z2float z); try discriminate.
  intros [= <-]. reflexivity.
Qed.

Lemma float_of_num_raises (v : pynum) (e : exn) :
  float_of_num v = Raise e -> e = OverflowError.
Proof. destruct v; cbn [float_of_num]; [apply int_to_float_raises|discriminate]. Qed.

Lemma arith_raises (fi : Z -> Z -> result pynum) (ff : float -> float -> result pynum)
    (a b : pynum) (e : exn) :
  (forall x y e, fi x y = Raise e -> arithmetic_error e) ->
  (forall x y e, ff x y = Raise e -> arithmetic_error e) ->
  arith fi ff a b = Raise e -> arithmetic_error e.
Proof.
  intros Hfi Hff. unfold arith.
  assert (Hfloat : (let* x := float_of_num a in let* y := float_of_num b in ff x y) = Raise e ->
                   arithmetic_error e).
  { destruct (float_of_num a) as [x|e1] eqn:Ea; cbn [bind].
    - destruct (float_of_num b) as [y|e2] eqn:Eb; cbn [bind]; [apply Hff|].
      intros [= <-]. right. left. eapply float_of_num_raises, Eb.
    - intros [= <-]. right. left. eapply float_of_num_raises, Ea. }
  destruct a as [x|x], b as [y|y]; try exact Hfloat. apply Hfi.
Qed.

Lemma py_add_raises (a b : pynum) (e : exn) : py_add a b = Raise e -> arithmetic_error e.
Proof. apply arith_raises; discriminate. Qed.

Lemma py_sub_raises (a b : pynum) (e : exn) : py_sub a b = Raise e -> arithmetic_error e.
Proof. apply arith_raises; discriminate. Qed.

Lemma py_mul_raises (a b : pynum) (e : exn) : py_mul a b = Raise e -> arithmetic_error e.
Proof. apply arith_raises; discriminate. Qed.

Lemma py_truediv_raises (a b : pynum) (e : exn) :
  py_truediv a b = Raise e -> arithmetic_error e.
Proof.
  apply arith_raises; intros x y e'.
  - unfold int_true_divide. destruct (y =? 0); cbn [bind]; [intros [= <-]; left; reflexivity|].
    destruct x; cbn [bind]; try discriminate;
      destruct (fdiv _ _); cbn [bind]; try discriminate;
      intros [= <-]; right; left; reflexivity.
  - unfold float_div. destruct (feqb y _); cbn [bind]; [|discriminate].
    intros [= <-]. left. reflexivity.
Qed.

Lemma py_mod_raises (a b : pynum) (e : exn) : py_mod a b = Raise e -> arithmetic_error e.
Proof.
  apply arith_raises; intros x y e'.
  - destruct (y =? 0); [|discriminate]. intros [= <-]. left. reflexivity.
  - unfold float_rem. destruct (feqb y _); cbn [bind].
    + intros [= <-]. left. reflexivity.
    + destruct (negb _); [destruct (negb _)|]; discriminate.
Qed.

Lemma py_int_raises (v : pynum) (e : exn) : py_int v = Raise e -> arithmetic_error e.
Proof.
  destruct v as [z|f]; cbn [py_int]; [discriminate|].
  destruct f as [s|s| |s m ex]; cbn [float_trunc]; try discriminate.
  - intros [= <-]. right. left. reflexivity.
  - intros [= <-]. right. right. reflexivity.
  - destruct (0 <=? ex); discriminate.
Qed.

Lemma fact_raises (v : pynum) (e : exn) :
  fact v = Raise e -> e = Exception FACTORIAL_ERROR \/ arithmetic_error e.
Proof.
  unfold fact. destruct (py_mod v (PyInt 1)) as [r|e1] eqn:Em; cbn [bind].
  2:{ intros [= <-]. right. eapply py_mod_raises, Em. }
  destruct (_ || _); [intros [= <-]; left; reflexivity|].
  destruct (py_int v) as [n|e2] eqn:Ei; cbn [bind].
  2:{ intros [= <-]. right. eapply py_int_raises, Ei. }
  destruct (_ || _); discriminate.
Qed.

Lemma call_raises (M : MathModule) (f : pyfunc) (x : pynum) (e : exn) :
  math_errors M -> call M f x = Raise e ->
  e = Exception FACTORIAL_ERROR \/ arithmetic_error e.
Proof.
  intros HM H.
  assert (Hlib : forall g, In g (library_functions M) -> g x = Raise e ->
                           e = Exception FACTORIAL_ERROR \/ arithmetic_error e).
  { intros g Hg Hr. right. destruct (HM g x e Hg Hr) as [->| ->];
      [right; right|right; left]; reflexivity. }
  destruct f; cbn [call] in H;
    try (eapply Hlib; [|exact H]; cbn [library_functions In]; tauto).
  - discriminate.
  - apply (fact_raises x e H).
Qed.

Lemma evaluate_operator_raises (M : MathModule) (tok : pystr) (x y : pynum) (e : exn) :
  is_operator tok = true -> bool_decide (tok = str "^") = false ->
  evaluate_operator M tok x y = Raise e -> arithmetic_error e.
Proof.
  intros Hop Hpow. unfold evaluate_operator. rewrite Hpow.
  destruct (bool_decide (tok = str "*")) eqn:E2; [apply py_mul_raises|].
  destruct (bool_decide (tok = str "/")) eqn:E3; [apply py_truediv_raises|].
  destruct (bool_decide (tok = str "+")) eqn:Ep; [apply py_add_raises|].
  destruct (bool_decide (tok = str "-")) eqn:Em; [apply py_sub_raises|].
  exfalso. unfold is_operator in Hop. apply bool_decide_eq_true in Hop.
  repeat match goal with
         | H : bool_decide _ = false |- _ => apply bool_decide_eq_false in H
         end.
  rewrite !elem_of_cons, elem_of_nil in Hop.
  destruct Hop as [?|[?|[?|[?|[?|[]]]]]]; congruence.
Qed.

Lemma dict_get_keys {V : Type} (d : list (pystr * V)) (k : pystr) :
  In k (dict_keys d) -> exists v, dict_get d k = Ok v.
Proof.
  induction d as [|[k' v'] d IH]; cbn [dict_keys List.map fst In dict_get]; [tauto|].
  intros [->|H].
  - exists v'. rewrite bool_decide_eq_true_2 by reflexivity. reflexivity.
  - destruct (bool_decide (k' = k)); [exists v'; reflexivity|]. apply IH, H.
Qed.

Lemma evaluation_error_argument vt tok l r tbl e :
  evaluation_error r tbl e ->
  evaluation_error (Build_MathExp vt tok l (Some r) MATHEXP_FUNCTION) tbl e.
Proof.
  intros [(k & -> & Hin & Hk)|H]; [left|right; exact H].
  exists k. split; [reflexivity|]. split; [exact Hin|exact Hk].
Qed.

Lemma evaluation_error_operand vt tok l r tbl e :
  evaluation_error l tbl e \/ evaluation_error r tbl e ->
  evaluation_error (Build_MathExp vt tok (Some l) (Some r) MATHEXP_OPERATOR) tbl e.
Proof.
  intros [[(k & -> & Hin & Hk)|H]|[(k & -> & Hin & Hk)|H]];
    try (right; exact H); left; exists k; (split; [reflexivity|]);
    (split; [|exact Hk]); cbn [tokens_read];
    change (MATHEXP_OPERATOR =? MATHEXP_LITERAL) with false;
    change (MATHEXP_OPERATOR =? MATHEXP_FUNCTION) with false;
    change (MATHEXP_OPERATOR =? MATHEXP_OPERATOR) with true; cbn iota;
    apply in_or_app; [left|right]; exact Hin.
Qed.

Lemma evaluate_raises (M : MathModule) (HM : math_errors M) (t : MathExp) :
  well_shaped t -> uses_power t = false ->
  forall tbl e, evaluate M t (Some tbl) = Raise e -> evaluation_error t tbl e.
Proof.
  induction t as [vt tok l r ty IHl IHr] using MathExp_induction.
  intros Hs Hp tbl e He. cbn [well_shaped] in Hs. destruct Hs as [_ Hshape].
  cbn [uses_power] in Hp.
  apply orb_false_iff in Hp as [Hp Hpr]. apply orb_false_iff in Hp as [Hp Hpl].
  destruct Hshape as [(-> & Htok & -> & ->)|[(-> & Hin & -> & Hr)|(-> & Hop & Hl & Hr)]].
  - rewrite evaluate_literal in He. cbn [table_in_use] in He. unfold token_value in He.
    unfold evaluation_error. cbn [tokens_read].
    change (MATHEXP_LITERAL =? MATHEXP_LITERAL) with true. cbn iota.
    unfold is_number. destruct (float_of_str tok); [discriminate|].
    destruct (tbl !! tok) as [v|] eqn:Ev.
    + destruct (float_of_num v) eqn:Ef; cbn [bind] in He; [discriminate|].
      injection He as <-. right. right. right. left. eapply float_of_num_raises, Ef.
    + injection He as <-. left. exists tok.
      split; [reflexivity|]. split; [left; reflexivity|exact Ev].
  - destruct r as [r|]; [|contradiction]. cbn [option_Forall] in IHr.
    rewrite evaluate_function in He. cbn [table_in_use] in He.
    destruct (evaluate M r (Some tbl)) as [arg|e'] eqn:Ea; cbn [bind] in He.
    + destruct (dict_get_keys FUNCTION_LIST tok Hin) as [f Hf].
      rewrite Hf in He. cbn [bind] in He. right. apply (call_raises M f arg e HM He).
    + injection He as <-. apply evaluation_error_argument. apply (IHr Hr Hpr _ _ Ea).
  - destruct l as [l|]; [|contradiction]. destruct r as [r|]; [|contradiction].
    cbn [option_Forall] in IHl, IHr.
    change (MATHEXP_OPERATOR =? MATHEXP_OPERATOR) with true in Hp. cbn [andb] in Hp.
    rewrite evaluate_operator_node in He. cbn [table_in_use] in He. cbn zeta in He.
    destruct (evaluate M l (Some tbl)) as [x|e'] eqn:El; cbn [bind] in He.
    + destruct (evaluate M r (Some tbl)) as [y|e''] eqn:Er; cbn [bind] in He.
      * right. right. apply (evaluate_operator_raises M tok x y e Hop Hp He).
      * injection He as <-. apply evaluation_error_operand. right.
        apply (IHr Hr Hpr _ _ Er).
    + injection He as <-. apply evaluation_error_operand. left.
      apply (IHl Hl Hpl _ _ El).
Qed.

Lemma evaluate_table_in_use (M : MathModule) (t : MathExp) tmp :
  evaluate M t tmp = evaluate M t (Some (table_in_use t tmp)).
Proof. destruct t, tmp; reflexivity. Qed.

Lemma evaluation_error_not_internal (t : MathExp) (tbl : gmap pystr pynum) (e : exn) :
  evaluation_error t tbl e ->
  e <> AttributeError /\ e <> Exception EXPRESSION_PARSING_ERROR /\
  (forall k, e <> KeyError k).
Proof.
  intros [(k & -> & _)|[->|[->|[->| ->]]]]; repeat split; try discriminate;
    intros; discriminate.
Qed.

(** X19: evaluating a constructed tree without a power raises nothing but
    [Symbol not found] for a token the tree reads and the table lacks, the
    error of [fact], [ZeroDivisionError], [OverflowError] or [ValueError];
    the [Expression parser error] of [evaluate] and [evaluate_operator], a
    missing child and a missing function are never met. *)
Theorem evaluation_errors (M : MathModule) (exp : pystr) (t : MathExp)
    (tmp : option (gmap pystr pynum)) (e : exn)
    (HM : math_errors M) (Ht : MathExp_new exp = Some (Ok t))
    (Hp : uses_power t = false) (He : evaluate M t tmp = Raise e) :
  evaluation_error t (table_in_use t tmp) e /\
  e <> AttributeError /\ e <> Exception EXPRESSION_PARSING_ERROR /\
  (forall k, e <> KeyError k).
Proof.
  assert (H : evaluation_error t (table_in_use t tmp) e).
  { rewrite evaluate_table_in_use in He.
    apply (evaluate_raises M HM t (MathExp_init_well_shaped _ exp t Ht) Hp _ _ He). }
  split; [exact H|]. apply (evaluation_error_not_internal _ _ _ H).
Qed.

Lemma at_zero_raises (v : float -> float) (x : pynum) (e : exn) :
  at_zero v x = Raise e -> e = ValueError \/ e = OverflowError.
Proof.
  unfold at_zero. destruct (float_of_num x) as [f|e'] eqn:E; cbn [bind].
  - destruct (is_zero f); [discriminate|]. intros [= <-]. left. reflexivity.
  - intros [= <-]. right. eapply float_of_num_raises, E.
Qed.

Lemma math_errors_sample_math : math_errors sample_math.
Proof.
  intros f x e. cbn [library_functions sample_math math_sin math_cos math_tan
                     math_asin math_acos math_atan math_log math_log10 In].
  intros [<-|[<-|[<-|[<-|[<-|[<-|[<-|[<-|[]]]]]]]]];
    try apply at_zero_raises; intros [= <-]; left; reflexivity.
Qed.

Lemma evaluation_errors_witness :
  math_errors sample_math /\
  MathExp_new (str "x/0") = Some (Ok (tree (Bin Div (Tok (str "x")) (Tok (str "0"))))) /\
  uses_power (tree (Bin Div (Tok (str "x")) (Tok (str "0")))) = false /\
  evaluate sample_math (tree (Bin Div (Tok (str "x")) (Tok (str "0")))) None =
    Raise (Exception (str "Symbol not found: x")) /\
  (evaluation_error (tree (Bin Div (Tok (str "x")) (Tok (str "0"))))
     (table_in_use (tree (Bin Div (Tok (str "x")) (Tok (str "0")))) None)
     (Exception (str "Symbol not found: x")) /\
   Exception (str "Symbol not found: x") <> AttributeError /\
   Exception (str "Symbol not found: x") <> Exception EXPRESSION_PARSING_ERROR /\
   (forall k, Exception (str "Symbol not found: x") <> KeyError k)).
Proof.
  split; [exact math_errors_sample_math|]. split; [reflexivity|].
  split; [reflexivity|]. split; [reflexivity|].
  exact (evaluation_errors sample_math (str "x/0") _ None _
           math_errors_sample_math eq_refl eq_refl eq_refl).
Defined.

(** ** What an evaluation reads *)

Lemma evaluate_frame (M : MathModule) (t : MathExp) :
  forall b b', Forall (fun k => b !! k = b' !! k) (tokens_read t) ->
    evaluate M t (Some b) = evaluate M t (Some b').
Proof.
  induction t as [vt tok l r ty IHl IHr] using MathExp_induction.
  intros b b' H. cbn [evaluate tokens_read] in *.
  destruct (ty =? MATHEXP_LITERAL).
  { unfold is_number in H. destruct (float_of_str tok); [reflexivity|].
    inversion H as [|? ? Hk _]. rewrite Hk. reflexivity. }
  destruct (ty =? MATHEXP_FUNCTION).
  { destruct r as [r|]; [|reflexivity]. cbn [option_Forall] in IHr.
    rewrite (IHr b b' H). reflexivity. }
  destruct (ty =? MATHEXP_OPERATOR); [|reflexivity].
  destruct l as [l|]; [|reflexivity]. cbn [option_Forall] in IHl.
  apply Forall_app in H as [Hl Hr].
  rewrite (IHl b b' Hl). destruct (evaluate M l (Some b')); cbn [bind]; [|reflexivity].
  destruct r as [r|]; [|reflexivity]. cbn [option_Forall] in IHr.
  rewrite (IHr b b' Hr). reflexivity.
Qed.

(** X20: an evaluation depends on the table only through the tokens of the
    leaves that are not numbers; a token [float] reads as a number, such as
    [inf], is never looked up. *)
Theorem evaluate_reads_only_its_tokens (M : MathModule) (t : MathExp)
    (b b' : gmap pystr pynum)
    (H : Forall (fun k => b !! k = b' !! k) (tokens_read t)) :
  evaluate M t (Some b) = evaluate M t (Some b').
Proof. exact (evaluate_frame M t b b' H). Qed.

Lemma evaluate_reads_only_its_tokens_witness :
  Forall (fun k => ({[ str "x" := PyInt 4; str "inf" := PyInt 1 ]} : gmap pystr pynum) !! k
                   = ({[ str "x" := PyInt 4 ]} : gmap pystr pynum) !! k)
         (tokens_read (tree (Bin Add (Tok (str "x")) (Tok (str "inf"))))) /\
  evaluate sample_math (tree (Bin Add (Tok (str "x")) (Tok (str "inf"))))
    (Some {[ str "x" := PyInt 4; str "inf" := PyInt 1 ]}) =
  evaluate sample_math (tree (Bin Add (Tok (str "x")) (Tok (str "inf"))))
    (Some {[ str "x" := PyInt 4 ]}).
Proof.
  assert (H : Forall (fun k => ({[ str "x" := PyInt 4; str "inf" := PyInt 1 ]}
                                  : gmap pystr pynum) !! k
                               = ({[ str "x" := PyInt 4 ]} : gmap pystr pynum) !! k)
                (tokens_read (tree (Bin Add (Tok (str "x")) (Tok (str "inf")))))).
  { repeat constructor. }
  split; [exact H|].
  exact (evaluate_reads_only_its_tokens sample_math _ _ _ H).
Defined.

(** ** The variable table and evaluation *)

Lemma tokens_read_with_variables_table (t : MathExp) (vt : gmap pystr pynum) :
  tokens_read (with_variables_table t vt) = tokens_read t.
Proof. destruct t. reflexivity. Qed.

Lemma evaluate_with_variables_table (M : MathModule) (t : MathExp) (vt : gmap pystr pynum) :
  evaluate M (with_variables_table t vt) None = evaluate M t (Some vt).
Proof. destruct t. reflexivity. Qed.

Lemma evaluate_stored (M : MathModule) (t : MathExp) :
  evaluate M t None = evaluate M t (Some (variables_table t)).
Proof. destruct t. reflexivity. Qed.

(** X21: adding or removing a variable the tree does not read leaves the
    result of [evaluate] unchanged. *)
Theorem unread_variables_do_not_matter (M : MathModule) (t : MathExp)
    (key : pystr) (value : pynum) (H : ~ In key (tokens_read t)) :
  evaluate M (snd (add_variable key value t)) None = evaluate M t None /\
  evaluate M (snd (remove_variable key t)) None = evaluate M t None.
Proof.
  assert (Hne : forall k, In k (tokens_read t) -> key <> k)
    by (intros k Hk ->; exact (H Hk)).
  split.
  - cbn [add_variable snd]. rewrite evaluate_with_variables_table, evaluate_stored.
    apply evaluate_frame. apply Forall_forall. intros k Hk.
    apply lookup_insert_ne, Hne, list_elem_of_In, Hk.
  - unfold remove_variable, dict_pop.
    destruct (variables_table t !! key) eqn:E; cbn [snd];
      rewrite evaluate_with_variables_table, evaluate_stored; [|reflexivity].
    apply evaluate_frame. apply Forall_forall. intros k Hk.
    apply lookup_delete_ne, Hne, list_elem_of_In, Hk.
Qed.

Lemma unread_variables_do_not_matter_witness :
  ~ In (str "y") (tokens_read (tree (Bin Add (Tok (str "x")) (Tok (str "1"))))) /\
  (evaluate sample_math
     (snd (add_variable (str "y") (PyInt 2) (tree (Bin Add (Tok (str "x")) (Tok (str "1"))))))
     None =
   evaluate sample_math (tree (Bin Add (Tok (str "x")) (Tok (str "1")))) None /\
   evaluate sample_math
     (snd (remove_variable (str "y") (tree (Bin Add (Tok (str "x")) (Tok (str "1"))))))
     None =
   evaluate sample_math (tree (Bin Add (Tok (str "x")) (Tok (str "1")))) None).
Proof.
  assert (H : ~ In (str "y") (tokens_read (tree (Bin Add (Tok (str "x")) (Tok (str "1"))))))
    by (intros [H|[]]; discriminate H).
  split; [exact H|].
  exact (unread_variables_do_not_matter sample_math _ (str "y") (PyInt 2) H).
Defined.

(** X23: [get_variable] returns what [add_variable] stored last and raises
    [KeyError] after [remove_variable], other keys being untouched;
    [get_variables_table] returns the table [set_variables_table] stored; and
    an evaluation without a table uses the stored one, in every node. *)
Theorem variable_table_round_trips (M : MathModule) (self : MathExp) (key key' : pystr)
    (value value' : pynum) (tbl : gmap pystr pynum) :
  fst (get_variable key' (snd (add_variable key value self))) =
    (if bool_decide (key' = key) then Ok value else fst (get_variable key' self)) /\
  fst (get_variable key' (snd (remove_variable key self))) =
    (if bool_decide (key' = key) then Raise (KeyError key')
     else fst (get_variable key' self)) /\
  snd (add_variable key value' (snd (add_variable key value self))) =
    snd (add_variable key value' self) /\
  fst (get_variables_table (snd (set_variables_table tbl self))) = Ok tbl /\
  evaluate M (snd (set_variables_table tbl self)) None = evaluate M self (Some tbl) /\
  evaluate M (snd (add_variable key value self)) None =
    evaluate M self (Some (<[key := value]> (variables_table self))).
Proof.
  destruct self as [vt tok l r ty].
  cbn [add_variable remove_variable get_variable get_variables_table set_variables_table
       with_variables_table variables_table fst snd].
  split; [|split; [|split; [|split; [|split]]]]; try reflexivity.
  - destruct (bool_decide (key' = key)) eqn:E.
    + apply bool_decide_eq_true in E. subst key'. rewrite lookup_insert_eq. reflexivity.
    + apply bool_decide_eq_false in E. rewrite lookup_insert_ne by congruence. reflexivity.
  - unfold remove_variable, dict_pop. cbn [variables_table].
    destruct (bool_decide (key' = key)) eqn:E.
    + apply bool_decide_eq_true in E. subst key'.
      destruct (vt !! key) eqn:Ek; cbn [with_variables_table variables_table fst snd].
      * rewrite lookup_delete_eq. reflexivity.
      * rewrite Ek. reflexivity.
    + apply bool_decide_eq_false in E.
      destruct (vt !! key) eqn:Ek; cbn [with_variables_table variables_table fst snd];
        [|reflexivity].
      rewrite lookup_delete_ne by congruence. reflexivity.
  - rewrite insert_insert_eq. reflexivity.
Qed.

(** X24: adding a variable that was not there and removing it again gives
    the object back as it was. *)
Theorem add_then_remove_restores (self : MathExp) (key : pystr) (value : pynum)
    (H : variables_table self !! key = None) :
  remove_variable key (snd (add_variable key value self)) = (Ok tt, self).
Proof.
  destruct self as [vt tok l r ty].
  cbn [add_variable with_variables_table variables_table fst snd] in *.
  unfold remove_variable, dict_pop. cbn [variables_table].
  rewrite lookup_insert_eq. cbn [bind with_variables_table].
  rewrite delete_insert_id by exact H. reflexivity.
Qed.

Lemma add_then_remove_restores_witness :
  variables_table (tree (Tok (str "x"))) !! str "x" = None /\
  remove_variable (str "x") (snd (add_variable (str "x") (PyInt 4) (tree (Tok (str "x"))))) =
  (Ok tt, tree (Tok (str "x"))).
Proof.
  split; [reflexivity|].
  exact (add_then_remove_restores (tree (Tok (str "x"))) (str "x") (PyInt 4) eq_refl).
Defined.

(** ** Floats *)

Lemma arith_float (fi : Z -> Z -> result pynum) (ff : float -> float -> result pynum)
    (x y : float) (v : pynum) :
  (forall a b w, ff a b = Ok w -> exists z, w = PyFloat z) ->
  arith fi ff (PyFloat x) (PyFloat y) = Ok v -> exists z, v = PyFloat z.
Proof. intros Hff. cbn [arith float_of_num bind]. apply Hff. Qed.

Lemma evaluate_operator_float (M : MathModule) (tok : pystr) (x y : float) (v : pynum) :
  bool_decide (tok = str "^") = false ->
  evaluate_operator M tok (PyFloat x) (PyFloat y) = Ok v -> exists z, v = PyFloat z.
Proof.
  intros Hpow. unfold evaluate_operator. rewrite Hpow.
  assert (Hok : forall f : float, forall w, Ok (PyFloat f) = Ok w -> exists z, w = PyFloat z)
    by (intros f w [= <-]; eexists; reflexivity).
  clear Hpow.
  destruct (bool_decide (tok = str "*")); [apply arith_float; intros a b w; apply Hok|].
  destruct (bool_decide (tok = str "/")).
  { apply arith_float. intros a b w. unfold float_div.
    destruct (feqb _ _); cbn [bind]; [discriminate|apply Hok]. }
  destruct (bool_decide (tok = str "+")); [apply arith_float; intros a b w; apply Hok|].
  destruct (bool_decide (tok = str "-")); [apply arith_float; intros a b w; apply Hok|].
  discriminate.
Qed.

Lemma call_float (M : MathModule) (f : pyfunc) (x : float) (v : pynum) :
  returns_floats M -> f <> f_fact ->
  call M f (PyFloat x) = Ok v -> exists z, v = PyFloat z.
Proof.
  intros HM Hf H.
  destruct f; cbn [call] in H; try congruence;
    try (eapply HM; [|exact H]; cbn [library_functions In]; tauto).
  injection H as <-. eexists. reflexivity.
Qed.

Lemma dict_get_fact (f : pyfunc) (tok : pystr) :
  dict_get FUNCTION_LIST tok = Ok f -> f = f_fact -> tok = str "fact".
Proof.
  intros H ->. cbn [dict_get FUNCTION_LIST] in H.
  repeat match type of H with
         | (if bool_decide (?k = tok) then _ else _) = _ =>
             destruct (bool_decide (k = tok)) eqn:E;
             [try discriminate H; apply bool_decide_eq_true in E; symmetry; exact E|clear E]
         end.
  discriminate H.
Qed.

Lemma evaluate_float (M : MathModule) (HM : returns_floats M) (t : MathExp) :
  calls_fact t = false -> uses_power t = false ->
  forall tmp v, evaluate M t tmp = Ok v -> exists z, v = PyFloat z.
Proof.
  induction t as [vt tok l r ty IHl IHr] using MathExp_induction.
  intros Hf Hp tmp v He. cbn [calls_fact] in Hf. cbn [uses_power] in Hp.
  apply orb_false_iff in Hf as [Hf Hfr]. apply orb_false_iff in Hf as [Hf Hfl].
  apply orb_false_iff in Hp as [Hp Hpr]. apply orb_false_iff in Hp as [Hp Hpl].
  cbn [evaluate] in He.
  destruct (ty =? MATHEXP_LITERAL).
  { destruct (float_of_str tok); [injection He as <-; eexists; reflexivity|].
    destruct (_ !! tok); [|discriminate].
    destruct (float_of_num _); cbn [bind] in He; [|discriminate].
    injection He as <-. eexists. reflexivity. }
  destruct (ty =? MATHEXP_FUNCTION).
  { destruct r as [r|]; [|discriminate]. cbn [option_Forall] in IHr.
    destruct (evaluate M r _) as [arg|] eqn:Ea; cbn [bind] in He; [|discriminate].
    destruct (IHr Hfr Hpr _ _ Ea) as [x ->].
    destruct (dict_get FUNCTION_LIST tok) as [f|] eqn:Ed; cbn [bind] in He; [|discriminate].
    apply (call_float M f x v HM); [|exact He].
    intros Hfact. apply (dict_get_fact f tok Ed) in Hfact. subst tok.
    cbn [andb] in Hf. rewrite bool_decide_eq_true_2 in Hf by reflexivity. discriminate. }
  destruct (ty =? MATHEXP_OPERATOR); [|discriminate]. cbn [andb] in Hp.
  destruct l as [l|]; [|discriminate]. cbn [option_Forall] in IHl.
  destruct (evaluate M l _) as [x|] eqn:El; cbn [bind] in He; [|discriminate].
  destruct r as [r|]; [|discriminate]. cbn [option_Forall] in IHr.
  destruct (evaluate M r _) as [y|] eqn:Er; cbn [bind] in He; [|discriminate].
  destruct (IHl Hfl Hpl _ _ El) as [x' ->]. destruct (IHr Hfr Hpr _ _ Er) as [y' ->].
  apply (evaluate_operator_float M tok x' y' v Hp He).
Qed.

(** X22: short of a call of [fact] or a power, every number [evaluate]
    returns is a float. *)
Theorem evaluate_returns_a_float (M : MathModule) (t : MathExp)
    (tmp : option (gmap pystr pynum)) (v : pynum)
    (HM : returns_floats M) (Hf : calls_fact t = false) (Hp : uses_power t = false)
    (He : evaluate M t tmp = Ok v) :
  exists z, v = PyFloat z.
Proof. exact (evaluate_float M HM t Hf Hp tmp v He). Qed.

Lemma returns_floats_sample_math : returns_floats sample_math.
Proof.
  assert (Hz : forall g x v, at_zero g x = Ok v -> exists z, v = PyFloat z).
  { intros g x v. unfold at_zero. destruct (float_of_num x); cbn [bind]; [|discriminate].
    destruct (is_zero _); [|discriminate]. intros [= <-]. eexists. reflexivity. }
  intros f x v. cbn [library_functions sample_math math_sin math_cos math_tan
                     math_asin math_acos math_atan math_log math_log10 In].
  intros [<-|[<-|[<-|[<-|[<-|[<-|[<-|[<-|[]]]]]]]]];
    try apply Hz; discriminate.
Qed.

Lemma evaluate_returns_a_float_witness :
  returns_floats sample_math /\
  calls_fact (tree (Bin Mul (Fn (str "abs") (Bin Sub (Tok (str "0")) (Tok (str "3"))))
                            (Tok (str "2")))) = false /\
  uses_power (tree (Bin Mul (Fn (str "abs") (Bin Sub (Tok (str "0")) (Tok (str "3"))))
                            (Tok (str "2")))) = false /\
  evaluate sample_math
    (tree (Bin Mul (Fn (str "abs") (Bin Sub (Tok (str "0")) (Tok (str "3"))))
                   (Tok (str "2")))) None = Ok (PyFloat (Z2float 6)) /\
  exists z, PyFloat (Z2float 6) = PyFloat z.
Proof.
  split; [exact returns_floats_sample_math|]. split; [reflexivity|].
  split; [reflexivity|]. split; [vm_compute; reflexivity|].
  exact (evaluate_returns_a_float sample_math
           (tree (Bin Mul (Fn (str "abs") (Bin Sub (Tok (str "0")) (Tok (str "3"))))
                          (Tok (str "2")))) None (PyFloat (Z2float 6))
           returns_floats_sample_math eq_refl eq_refl eq_refl).
Defined.

(** ** Refusals of [exp_check] *)

(** X10: [exp_check] raises [Malformed expression] exactly when the
    parentheses are unbalanced or when, blanks and enclosing parentheses
    removed, the string starts with [^], [*] or [/] or ends in an operator. *)
Theorem exp_check_malformed (s : pystr) :
  exp_check s = Raise (Exception MALFORMED_EXPRESSION_ERROR) <->
  parens_are_balanced s = false \/
  exists first rest q last,
    stripped s = first :: rest /\ stripped s = q ++ [last] /\
    ((is_op first = true /\ first <> "+"%char /\ first <> "-"%char) \/ is_op last = true).
Proof.
  unfold exp_check. fold (stripped s).
  destruct (parens_are_balanced s); cbn [negb].
  2:{ split; [intros _; left; reflexivity|reflexivity]. }
  destruct (stripped s) as [|c r] eqn:Hs.
  { rewrite getitem_nil. cbn [bind]. split; [discriminate|].
    intros [H|(first & rest & q & last & H & _)]; discriminate. }
  destruct (exists_last (l := c :: r)) as (q & d & E); [discriminate|].
  rewrite getitem_cons_0. cbn [bind]. rewrite E at 1. rewrite getitem_last. cbn [bind].
  fold (is_op c). fold (is_op d).
  change (str "+") with ["+"%char]. change (str "-") with ["-"%char].
  rewrite !bool_decide_char.
  destruct (is_op c && negb (Ascii.eqb c "+") && negb (Ascii.eqb c "-")) eqn:Ec.
  { split; [|reflexivity]. intros _. right. exists c, r, q, d.
    split; [reflexivity|]. split; [exact E|]. left.
    apply andb_true_iff in Ec as [Ec Em]. apply andb_true_iff in Ec as [Ec Ep].
    apply negb_true_iff, Ascii.eqb_neq in Em, Ep. auto. }
  destruct (is_op d) eqn:Ed.
  { split; [|reflexivity]. intros _. right. exists c, r, q, d.
    split; [reflexivity|]. split; [exact E|]. right. exact Ed. }
  split.
  - destruct (Ascii.eqb c "-"); cbn [str list_ascii_of_string app];
      rewrite getitem_cons_0; discriminate.
  - intros [H|(first & rest & q' & last & H1 & H2 & H)]; [discriminate|].
    injection H1 as <- <-. rewrite E in H2. apply app_inj_tail in H2 as [_ <-].
    destruct H as [(Hop & Hp & Hm)|Hop]; [|congruence].
    apply Ascii.eqb_neq in Hp, Hm. rewrite Hop, Hp, Hm in Ec. discriminate.
Qed.

(** ** The operator tables *)

(** X25: [is_operator], the keys of [OPERATOR_PRIORITY] and the operators
    [evaluate_operator] implements are the same five; on any other token
    [evaluate_operator] raises [Expression parser error]. *)
Theorem operator_tables_agree (M : MathModule) (token : pystr) (x y : pynum) :
  (is_operator token = true <-> In token (dict_keys OPERATOR_PRIORITY)) /\
  (is_operator token = true <-> exists o, token = [op_char o]) /\
  (is_operator token = false ->
   evaluate_operator M token x y = Raise (Exception EXPRESSION_PARSING_ERROR)) /\
  (forall o, evaluate_operator M [op_char o] x y = apply_binop M o x y).
Proof.
  assert (Hmem : is_operator token = true <->
                 token = str "^" \/ token = str "*" \/ token = str "/" \/
                 token = str "+" \/ token = str "-").
  { unfold is_operator. rewrite bool_decide_eq_true, !elem_of_cons, elem_of_nil. tauto. }
  split; [|split; [|split]].
  - rewrite Hmem. cbn [dict_keys OPERATOR_PRIORITY List.map fst In].
    split; intros H; repeat destruct H as [H|H]; subst; tauto.
  - rewrite Hmem. split.
    + intros [->|[->|[->|[->| ->]]]];
        [exists Pow|exists Mul|exists Div|exists Add|exists Sub]; reflexivity.
    + intros [[] ->]; cbn [op_char]; tauto.
  - intros H. unfold evaluate_operator.
    repeat match goal with
           | |- (if bool_decide ?P then _ else _) = _ =>
               destruct (bool_decide P) eqn:?E;
               [apply bool_decide_eq_true in E;
                exfalso; apply not_true_iff_false in H; apply H, Hmem; tauto|clear E]
           end.
    reflexivity.
  - intros o. apply evaluate_operator_op_char.
Qed.

(** ** Written expressions *)

(** X17: construction reads back what [render] writes: on any spelling,
    blanks included, of an expression whose operators group to the left, the
    constructor returns the tree of that expression, parentheses leaving no
    node. *)
Theorem written_expression_tree (s : pystr) (e : expr)
    (Hs : remove_char " " s = render e) (He : well_formed all_left e) :
  MathExp_new s = Some (Ok (tree e)).
Proof. exact (MathExp_new_render s e Hs He). Qed.

Lemma written_expression_tree_witness :
  remove_char " " (str "2 * (3 + sin(x))") =
    render (Bin Mul (Tok (str "2"))
              (Par (Bin Add (Tok (str "3")) (Fn (str "sin") (Tok (str "x")))))) /\
  well_formed all_left
    (Bin Mul (Tok (str "2"))
       (Par (Bin Add (Tok (str "3")) (Fn (str "sin") (Tok (str "x")))))) /\
  MathExp_new (str "2 * (3 + sin(x))") =
    Some (Ok (tree (Bin Mul (Tok (str "2"))
                      (Par (Bin Add (Tok (str "3")) (Fn (str "sin") (Tok (str "x")))))))).
Proof.
  assert (H : well_formed all_left
    (Bin Mul (Tok (str "2"))
       (Par (Bin Add (Tok (str "3")) (Fn (str "sin") (Tok (str "x"))))))).
  { cbn. repeat split; try discriminate; try (repeat constructor; discriminate);
      try (vm_compute; congruence). }
  split; [reflexivity|]. split; [exact H|].
  exact (written_expression_tree (str "2 * (3 + sin(x))")
           (Bin Mul (Tok (str "2"))
              (Par (Bin Add (Tok (str "3")) (Fn (str "sin") (Tok (str "x"))))))
           eq_refl H).
Defined.

(** ** The leaves of constructed trees *)

Lemma MathExp_init_leaves (fuel : nat) :
  forall exp t, MathExp_init fuel exp = Some (Ok t) -> Forall fully_split (leaf_tokens t).
Proof.
  induction fuel as [|fuel IH]; intros exp t H; [discriminate|].
  cbn [MathExp_init] in H.
  destruct (exp_check exp) as [exp'|e] eqn:Hcheck; cbn [bind_fueled] in H; [|discriminate].
  destruct (get_function exp') as [F|] eqn:HF.
  - destruct (MathExp_init fuel _) as [[tr|e]|] eqn:Er; cbn [bind_fueled] in H;
      try discriminate.
    injection H as <-. cbn [leaf_tokens].
    change (MATHEXP_FUNCTION =? MATHEXP_LITERAL) with false. cbn [app].
    apply (IH _ _ Er).
  - destruct (lookup_top_operator_spec exp') as (r & Hr & Htop).
    rewrite Hr in H. cbn [bind_fueled] in H.
    destruct (0 <=? r) eqn:Hsign.
    + apply Z.leb_le in Hsign.
      destruct (top_operator_range _ _ Htop Hsign) as (k & -> & Hk0 & Hk1 & Hop & _).
      rewrite (getitem_nth _ _ _ (nth_error_char_at exp' k ltac:(lia))) in H.
      cbn [bind_fueled] in H.
      destruct (MathExp_init fuel (firstn _ _)) as [[tl|e]|] eqn:El; cbn [bind_fueled] in H;
        try discriminate.
      destruct (MathExp_init fuel (skipn _ _)) as [[tr|e]|] eqn:Er; cbn [bind_fueled] in H;
        try discriminate.
      injection H as <-. cbn [leaf_tokens].
      change (MATHEXP_OPERATOR =? MATHEXP_LITERAL) with false. cbn [app].
      apply Forall_app. split; [apply (IH _ _ El)|apply (IH _ _ Er)].
    + injection H as <-. cbn [leaf_tokens].
      change (MATHEXP_LITERAL =? MATHEXP_LITERAL) with true. cbn [app].
      constructor; [|constructor].
      destruct (exp_check_post _ _ Hcheck) as (_ & Hb & Hbf & Hend & _).
      split; [exact Hb|]. split; [exact Hbf|]. split; [exact Hend|].
      split; [exact HF|]. rewrite Hr. f_equal.
      apply Z.leb_gt in Hsign.
      destruct Htop as [[-> _]|(k & -> & _)]; [reflexivity|lia].
Qed.

(** X28: the token of every literal leaf of a constructed tree is
    normalised (balanced, without blanks, not ending in an operator), is no
    call of a registered function and has no split position left. *)
Theorem leaves_are_fully_split (exp : pystr) (t : MathExp)
    (H : MathExp_new exp = Some (Ok t)) :
  Forall fully_split (leaf_tokens t).
Proof. exact (MathExp_init_leaves _ exp t H). Qed.

Lemma leaves_are_fully_split_witness :
  MathExp_new (str "sin(x)+1") =
    Some (Ok (tree (Bin Add (Fn (str "sin") (Tok (str "x"))) (Tok (str "1"))))) /\
  Forall fully_split
    (leaf_tokens (tree (Bin Add (Fn (str "sin") (Tok (str "x"))) (Tok (str "1"))))).
Proof.
  split; [reflexivity|].
  exact (leaves_are_fully_split (str "sin(x)+1") _ eq_refl).
Defined.

(** ** Numbers with a signed exponent *)

Lemma is_digit_facts (c : ascii) :
  is_digit c = true ->
  is_space c = false /\ Ascii.eqb underscore c = false /\
  Ascii.eqb c "-" = false /\ Ascii.eqb c "+" = false /\ Ascii.eqb c "." = false /\
  lower c <> "i"%char /\ lower c <> "n"%char /\ Ascii.eqb (lower c) "e" = false /\
  token_char c.
Proof.
  destruct c as [[] [] [] [] [] [] [] []]; intros H; try discriminate H;
    repeat split; try reflexivity; discriminate.
Qed.

Lemma take_digits_app (a r : pystr) :
  forallb is_digit a = true ->
  match r with c :: _ => is_digit c = false | [] => True end ->
  take_digits (a ++ r) = (a, r).
Proof.
  intros Ha Hr. induction a as [|d a IH]; cbn [app].
  - destruct r as [|c r]; [reflexivity|]. cbn [take_digits]. rewrite Hr. reflexivity.
  - cbn [forallb] in Ha. apply andb_true_iff in Ha as [Hd Ha].
    cbn [take_digits]. rewrite Hd, (IH Ha). reflexivity.
Qed.

Lemma no_underscore (s : pystr) :
  forallb (fun c => negb (Ascii.eqb underscore c)) s = true ->
  existsb (Ascii.eqb underscore) s = false.
Proof.
  induction s as [|c s IH]; cbn [forallb existsb]; [reflexivity|].
  intros H. apply andb_true_iff in H as [Hc Hs].
  apply negb_true_iff in Hc. rewrite Hc, (IH Hs). reflexivity.
Qed.

Lemma digits_no_underscore (a : pystr) :
  forallb is_digit a = true ->
  forallb (fun c => negb (Ascii.eqb underscore c)) a = true.
Proof.
  induction a as [|c a IH]; cbn [forallb]; [reflexivity|].
  intros H. apply andb_true_iff in H as [Hc Ha].
  destruct (is_digit_facts c Hc) as (_ & -> & _). rewrite (IH Ha). reflexivity.
Qed.

Lemma strip_id (c d : ascii) (s : pystr) :
  is_space c = false -> is_space d = false ->
  strip (c :: s ++ [d]) = c :: s ++ [d].
Proof.
  intros Hc Hd. unfold strip. cbn [lstrip]. rewrite Hc.
  change (c :: s ++ [d]) with ((c :: s) ++ [d]).
  rewrite rev_app_distr. cbn [rev app lstrip]. rewrite Hd.
  change (d :: rev s ++ [c]) with ([d] ++ rev (c :: s)).
  rewrite rev_app_distr, rev_involutive. reflexivity.
Qed.

Lemma float_of_str_plain (t : pystr) (c d : ascii) (s : pystr) :
  t = c :: s ++ [d] ->
  forallb (fun x => negb (Ascii.eqb underscore x)) t = true ->
  is_space c = false -> is_space d = false ->
  Ascii.eqb c "-" = false -> Ascii.eqb c "+" = false ->
  float_of_str t = parse_float_body false t.
Proof.
  intros -> Hu Hc Hd Hm Hp. unfold float_of_str.
  rewrite (no_underscore _ Hu), (strip_id c d s Hc Hd).
  cbn [take_sign]. rewrite Hm, Hp. reflexivity.
Qed.

Lemma not_keyword (c : ascii) (s : pystr) :
  lower c <> "i"%char -> lower c <> "n"%char ->
  bool_decide (List.map lower (c :: s) = str "inf")
  || bool_decide (List.map lower (c :: s) = str "infinity") = false /\
  bool_decide (List.map lower (c :: s) = str "nan") = false.
Proof.
  intros Hi Hn. cbn [List.map].
  split; [apply orb_false_iff; split|]; apply bool_decide_eq_false; intros [= E _]; congruence.
Qed.

Lemma digits_then_e (a : pystr) :
  digits a -> float_of_str (a ++ str "e") = None.
Proof.
  intros [Hne Ha].
  assert (Hu : forallb (fun x => negb (Ascii.eqb underscore x)) (a ++ str "e") = true).
  { rewrite forallb_app, (digits_no_underscore a Ha). reflexivity. }
  destruct a as [|c a]; [congruence|]. clear Hne.
  pose proof Ha as Hca.
  cbn [forallb] in Ha. apply andb_true_iff in Ha as [Hc Ha].
  destruct (is_digit_facts c Hc) as (Hsp & _ & Hm & Hp & _ & Hi & Hn & _).
  rewrite (float_of_str_plain ((c :: a) ++ str "e") c "e" a eq_refl Hu Hsp eq_refl Hm Hp).
  unfold parse_float_body. cbv zeta. change (str "e") with ["e"%char]. cbn [app].
  destruct (not_keyword c (a ++ ["e"%char]) Hi Hn) as [-> ->].
  rewrite (take_digits_app (c :: a) ["e"%char] Hca eq_refl
           : take_digits (c :: a ++ ["e"%char]) = _).
  cbn. reflexivity.
Qed.

Lemma digits_e_minus_digits (a b : pystr) :
  digits a -> digits b -> is_number (a ++ str "e-" ++ b) = true.
Proof.
  intros [Hne Ha] [Hnb Hb].
  assert (Hu : forallb (fun x => negb (Ascii.eqb underscore x)) (a ++ str "e-" ++ b) = true).
  { rewrite !forallb_app, (digits_no_underscore a Ha), (digits_no_underscore b Hb).
    reflexivity. }
  assert (Htd : take_digits (b ++ []) = (b, [])) by (apply take_digits_app; [exact Hb|exact I]).
  rewrite app_nil_r in Htd.
  destruct a as [|c a]; [congruence|]. clear Hne.
  pose proof Ha as Hca.
  cbn [forallb] in Ha. apply andb_true_iff in Ha as [Hc Ha].
  destruct (is_digit_facts c Hc) as (Hsp & _ & Hm & Hp & _ & Hi & Hn & _).
  assert (Hlast : exists q d, b = q ++ [d] /\ is_space d = false).
  { destruct (exists_last Hnb) as (q & d & ->). exists q, d. split; [reflexivity|].
    rewrite forallb_app in Hb. apply andb_true_iff in Hb as [_ Hd].
    cbn [forallb] in Hd. rewrite andb_true_r in Hd. apply (is_digit_facts d Hd). }
  destruct Hlast as (q & d & Eb & Hspd).
  unfold is_number.
  rewrite (float_of_str_plain ((c :: a) ++ str "e-" ++ b) c d
             (a ++ "e"%char :: "-"%char :: q)); try assumption.
  2:{ rewrite Eb. cbn [app str list_ascii_of_string]. rewrite <- app_assoc. reflexivity. }
  unfold parse_float_body. cbv zeta. change (str "e-") with ["e"%char; "-"%char].
  cbn [app].
  destruct (not_keyword c (a ++ "e"%char :: "-"%char :: b) Hi Hn) as [-> ->].
  rewrite (take_digits_app (c :: a) ("e"%char :: "-"%char :: b) Hca eq_refl
           : take_digits (c :: a ++ "e"%char :: "-"%char :: b) = _).
  change (Ascii.eqb "e" ".") with false. cbn iota. rewrite app_nil_r.
  cbn [parse_exponent]. change (Ascii.eqb (lower "e") "e") with true. cbn iota.
  cbn [take_sign]. change (Ascii.eqb "-" "-") with true. cbn iota.
  rewrite Htd. destruct b; [congruence|]. reflexivity.
Qed.

Lemma digits_token_ok (a : pystr) (r : pystr) :
  forallb is_digit a = true -> Forall token_char r -> a ++ r <> [] ->
  token_ok (a ++ r).
Proof.
  intros Ha Hr Hne. split; [exact Hne|]. apply Forall_app. split; [|exact Hr].
  apply Forall_forall. intros c Hc. apply list_elem_of_In in Hc.
  rewrite forallb_forall in Ha. apply (is_digit_facts c (Ha c Hc)).
Qed.

(** X18: a number written with a negative exponent, digits [e-] digits, is a
    number for [float] but is not constructed as one: the constructor splits
    it at the sign, and evaluation looks the part before the sign up as a
    variable. *)
Theorem signed_exponent_is_split (M : MathModule) (a b : pystr)
    (tbl : gmap pystr pynum) (Ha : digits a) (Hb : digits b)
    (Htbl : tbl !! (a ++ str "e") = None) :
  is_number (a ++ str "e-" ++ b) = true /\
  MathExp_new (a ++ str "e-" ++ b) =
    Some (Ok (tree (Bin Sub (Tok (a ++ str "e")) (Tok b)))) /\
  run M (a ++ str "e-" ++ b) (Some tbl) =
    Some (Raise (Exception (SYMBOL_NOT_FOUND_ERROR ++ str ": " ++ a ++ str "e"))).
Proof.
  assert (Hwf : well_formed all_left (Bin Sub (Tok (a ++ str "e")) (Tok b))).
  { destruct Ha as [Hna Ha], Hb as [Hnb Hb]. cbn [well_formed binding].
    split; [|split; [|split; vm_compute; congruence]].
    - apply digits_token_ok; [exact Ha| |destruct a; discriminate].
      repeat constructor; discriminate.
    - rewrite <- (app_nil_r b). apply digits_token_ok; [exact Hb|constructor|].
      rewrite app_nil_r. exact Hnb. }
  assert (Hblank : remove_char " " (a ++ str "e-" ++ b) =
                   render (Bin Sub (Tok (a ++ str "e")) (Tok b))).
  { cbn [render op_char]. rewrite <- app_assoc. cbn [str list_ascii_of_string app].
    apply remove_char_id. change (Forall (fun d => d <> " "%char) (a ++ "e"%char :: "-"%char :: b)).
    destruct Ha as [_ Ha], Hb as [_ Hb].
    apply Forall_app. split; [|constructor; [discriminate|constructor; [discriminate|]]].
    - apply Forall_forall. intros c Hc. apply list_elem_of_In in Hc.
      rewrite forallb_forall in Ha. apply (is_digit_facts c (Ha c Hc)).
    - apply Forall_forall. intros c Hc. apply list_elem_of_In in Hc.
      rewrite forallb_forall in Hb. apply (is_digit_facts c (Hb c Hc)). }
  split; [apply digits_e_minus_digits; assumption|].
  split; [apply (MathExp_new_render _ _ Hblank Hwf)|].
  rewrite (run_render M _ _ (Some tbl) Hblank Hwf). cbn [default value].
  unfold token_value at 1. rewrite (digits_then_e a Ha). unfold id.
  rewrite Htbl. reflexivity.
Qed.

Lemma signed_exponent_is_split_witness :
  digits (str "1") /\ digits (str "5") /\
  (∅ : gmap pystr pynum) !! (str "1" ++ str "e") = None /\
  (is_number (str "1" ++ str "e-" ++ str "5") = true /\
   MathExp_new (str "1" ++ str "e-" ++ str "5") =
     Some (Ok (tree (Bin Sub (Tok (str "1" ++ str "e")) (Tok (str "5"))))) /\
   run sample_math (str "1" ++ str "e-" ++ str "5") (Some ∅) =
     Some (Raise (Exception (SYMBOL_NOT_FOUND_ERROR ++ str ": " ++ str "1" ++ str "e")))).
Proof.
  assert (H1 : digits (str "1")) by (split; [discriminate|reflexivity]).
  assert (H5 : digits (str "5")) by (split; [discriminate|reflexivity]).
  split; [exact H1|]. split; [exact H5|]. split; [reflexivity|].
  exact (signed_exponent_is_split sample_math (str "1") (str "5") ∅ H1 H5 eq_refl).
Defined.

(** ** A sign after an operator *)


Lemma well_formed_zero_minus (r : expr) :
  well_formed all_left r -> -3 < binding r ->
  well_formed all_left (Bin Sub (Tok (str "0")) r).
Proof.
  intros Hr Hb. cbn [well_formed all_left binding op_char].
  split; [split; [discriminate|repeat constructor; discriminate]|].
  split; [exact Hr|]. split; [vm_compute; discriminate|exact Hb].
Qed.

Lemma priority_op_char (o : binop) : -3 <= priority (op_char o).
Proof. destruct o; vm_compute; discriminate. Qed.

Section Negated.

Variables (o : binop) (l r : expr).
Hypothesis H : well_formed all_left (Bin o l r).

Let L := render l.
Let R := render r.
Let W := L ++ op_char o :: "-"%char :: R.

Lemma signed_parts :
  well_formed all_left l /\ well_formed all_left r /\
  priority (op_char o) <= binding l /\ priority (op_char o) < binding r /\
  balanced L /\ balanced R /\ L <> [] /\ R <> [] /\ blank_free L /\ blank_free R.
Proof.
  destruct H as (Hl & Hr & Hbl & Hbr).
  repeat split; try assumption;
    try (apply (render_depth all_left); assumption);
    try (apply (render_nonempty all_left); assumption);
    try (apply (render_no_blank all_left); assumption).
Qed.

Lemma signed_top_operator : top_operator W (Z.of_nat (length L)).
Proof.
  destruct signed_parts as (Hl & Hr & Hbl & Hbr & [_ HdL] & _ & HL & HR & _).
  set (k := length L).
  assert (HL' : (0 < k)%nat) by (unfold k; destruct L; [congruence|simpl; lia]).
  assert (Hnth : nth_error W k = Some (op_char o)).
  { unfold W, k. rewrite nth_error_app2, Nat.sub_diag by lia. reflexivity. }
  assert (Hchar : char_at W k = op_char o) by (apply char_at_nth_error, Hnth).
  assert (Hsign : candidateb W (S k) = false).
  { unfold candidateb.
    assert (E : nth_error W (S k) = Some "-"%char).
    { unfold W, k. rewrite nth_error_app2 by lia.
      replace (S (length L) - length L)%nat with 1%nat by lia. reflexivity. }
    rewrite E. replace (S k - 1)%nat with k by lia.
    rewrite Hchar, is_op_op_char.
    change (plus_or_minus "-") with true. cbn [andb negb]. apply andb_false_r. }
  assert (Hall : forall j, candidateb W j = true ->
            priority (op_char o) <= priority (char_at W j) /\
            ((k < j)%nat -> priority (op_char o) < priority (char_at W j))).
  { intros j Hj. pose proof Hj as Hj'.
    apply candidateb_top in Hj as (Hcj & Hopj & Hdj).
    destruct (Nat.lt_trichotomy j k) as [Hlt|[->|Hgt]].
    - split; [|lia]. remember (char_at W j) as c eqn:Ec. clear Ec.
      unfold W in Hcj, Hdj.
      rewrite nth_error_app1 in Hcj by exact Hlt.
      rewrite firstn_app in Hdj. replace (j - length L)%nat with 0%nat in Hdj by (fold k; lia).
      rewrite firstn_0, app_nil_r in Hdj. unfold L in Hcj, Hdj.
      pose proof (render_top_operators all_left l Hl j _ Hcj Hopj Hdj). lia.
    - rewrite Hchar. split; lia.
    - destruct (Nat.eq_dec j (S k)) as [->|Hne]; [congruence|].
      remember (char_at W j) as c eqn:Ec. clear Ec.
      unfold W in Hcj, Hdj.
      rewrite nth_error_app2 in Hcj by (fold k; lia).
      rewrite firstn_app, depth_app, firstn_all2, HdL in Hdj by (fold k; lia).
      fold k in Hcj, Hdj.
      destruct (j - k)%nat as [|[|j']] eqn:Hjk; [lia|lia|].
      cbn [nth_error] in Hcj. rewrite !firstn_cons in Hdj. cbn [depth] in Hdj.
      rewrite delta_op_char in Hdj. change (delta "-") with 0 in Hdj.
      unfold R in Hcj, Hdj.
      pose proof (render_top_operators all_left r Hr j' _ Hcj Hopj ltac:(lia)).
      split; [lia|]. intros _. lia. }
  right. exists k. split; [reflexivity|]. split.
  { unfold W. rewrite length_app. cbn [length]. fold k. lia. }
  split.
  - unfold candidateb. rewrite Hnth, is_op_op_char.
    unfold W at 1. rewrite firstn_app. unfold k at 1 2.
    rewrite Nat.sub_diag, firstn_all, firstn_0, app_nil_r, HdL.
    unfold W at 1. rewrite length_app. cbn [length]. fold k.
    settle ((k =? 0)%nat).
    settle ((k =? k + S (S (length R)) - 1)%nat).
    cbn [orb negb andb Z.eqb].
    destruct (render_last all_left l Hl) as (s & c & Hs & Hc). fold L in Hs.
    assert (Hprev : char_at W (k - 1) = c).
    { apply char_at_nth_error. unfold W, k. rewrite Hs, length_app. cbn [length].
      rewrite <- app_assoc. rewrite nth_error_app2 by lia.
      replace (length s + 1 - 1 - length s)%nat with 0%nat by lia. reflexivity. }
    rewrite Hprev, Hc, andb_false_r. reflexivity.
  - rewrite Hchar. split.
    + intros j _ Hj. apply Hall, Hj.
    + intros j _ Hj Hlt. apply Hall; assumption.
Qed.

Lemma signed_not_call (name a : pystr) :
  Forall token_char name -> balanced a -> W <> name ++ "("%char :: a ++ [")"%char].
Proof.
  destruct signed_parts as (_ & _ & _ & _ & [_ HdL] & _ & HL & _).
  intros Hn Ha. apply split_not_call; try assumption; [discriminate|apply is_op_op_char].
Qed.

Lemma signed_exp_check : exp_check W = Ok W.
Proof.
  destruct signed_parts as (Hl & Hr & _ & _ & HbL & HbR & HL & HR & HfL & HfR).
  unfold exp_check.
  assert (Hb : parens_are_balanced W = true).
  { apply parens_are_balanced_spec. unfold W. apply balanced_app; [exact HbL|].
    apply parens_are_balanced_spec.
    rewrite !parens_are_balanced_skip by (reflexivity || apply delta_op_char).
    apply parens_are_balanced_spec, HbR. }
  rewrite Hb. cbn [negb].
  rewrite (remove_char_id " " W).
  2:{ unfold W. apply Forall_app. split; [exact HfL|].
      constructor; [destruct o; discriminate|]. constructor; [discriminate|exact HfR]. }
  rewrite remove_extra_parens_stop.
  2:{ apply not_true_is_false. intros Hx. apply extra_parens_inv in Hx as [Hx Hbx].
      apply (signed_not_call [] _ (List.Forall_nil _) Hbx Hx). }
  destruct (render_first all_left l Hl) as (c & s & Hs & Hcop). fold L in Hs.
  destruct (render_last all_left r Hr) as (s' & d & Hs' & Hdop). fold R in Hs'.
  assert (G0 : getitem W 0 = Ok c) by (unfold W; rewrite Hs; apply getitem_cons_0).
  assert (G1 : getitem W (-1) = Ok d).
  { unfold W. rewrite Hs'.
    replace (L ++ op_char o :: "-"%char :: s' ++ [d])
      with ((L ++ op_char o :: "-"%char :: s') ++ [d])
      by (rewrite <- app_assoc; reflexivity).
    apply getitem_last. }
  rewrite G0, G1. cbn [bind].
  fold (is_op c). fold (is_op d). rewrite Hcop, Hdop. cbn [andb].
  destruct (not_op_not_sign c Hcop) as [Hplus Hminus].
  rewrite Hminus, G0. cbn [bind]. rewrite Hplus. reflexivity.
Qed.

Lemma signed_get_function : get_function W = None.
Proof.
  destruct (get_function W) as [F|] eqn:E; [|reflexivity]. exfalso.
  apply get_function_sound in E as (Hin & Hshape & Hb).
  apply (signed_not_call F (slice_to_last (length F + 1) W)).
  - apply function_name_ok, Hin.
  - apply parens_are_balanced_spec, Hb.
  - exact Hshape.
Qed.

Lemma signed_construction :
  MathExp_new W = Some (Ok (tree (negated_right o l r))).
Proof.
  destruct signed_parts as (Hl & Hr & _ & Hbr & _ & _ & _ & _ & HfL & HfR).
  rewrite MathExp_new_step, signed_exp_check. cbn [bind_fueled].
  rewrite signed_get_function, (lookup_top_operator_eq _ _ signed_top_operator).
  cbn [bind_fueled].
  settle (0 <=? Z.of_nat (length L)).
  unfold W at 1.
  rewrite (getitem_nth _ _ (op_char o)), Nat2Z.id
    by (rewrite nth_error_app2, Nat.sub_diag by lia; reflexivity).
  cbn [bind_fueled].
  replace (Z.to_nat (Z.of_nat (length L) + 1)) with (S (length L)) by lia.
  unfold W. rewrite firstn_app, Nat.sub_diag, firstn_all, firstn_0, app_nil_r.
  rewrite skipn_app, skipn_all2 by lia.
  replace (S (length L) - length L)%nat with 1%nat by lia.
  cbn [skipn app]. rewrite ?skipn_O.
  rewrite (MathExp_new_render L l (remove_char_id _ _ HfL) Hl). cbn [bind_fueled].
  rewrite (MathExp_new_exp_check _ _ (exp_check_minus R)).
  rewrite (MathExp_new_render ("0"%char :: "-"%char :: R) (Bin Sub (Tok (str "0")) r)).
  - reflexivity.
  - apply remove_char_id. constructor; [discriminate|]. constructor; [discriminate|exact HfR].
  - apply well_formed_zero_minus; [exact Hr|]. pose proof (priority_op_char o). lia.
Qed.

End Negated.

(** X26: a [-] directly after an operator is a sign, not a split position:
    [l o -r] constructs the tree of [l o (0 - r)], for every well-formed
    [l o r]; [2*-3] evaluates to -6.0. *)
Theorem minus_after_an_operator (M : MathModule) (o : binop) (l r : expr)
    (tmp : option (gmap pystr pynum)) (H : well_formed all_left (Bin o l r)) :
  MathExp_new (render l ++ op_char o :: "-"%char :: render r) =
    Some (Ok (tree (negated_right o l r))) /\
  run M (render l ++ op_char o :: "-"%char :: render r) tmp =
    Some (value M (default ∅ tmp) (negated_right o l r)) /\
  run M (str "2*-3") None = Some (Ok (PyFloat (Z2float (-6)))).
Proof.
  pose proof (signed_construction o l r H) as E.
  split; [exact E|]. split; [|vm_compute; reflexivity].
  unfold run. rewrite E. cbn [bind_fueled]. rewrite evaluate_tree. reflexivity.
Qed.

Lemma minus_after_an_operator_witness :
  well_formed all_left (Bin Mul (Tok (str "2")) (Tok (str "3"))) /\
  (MathExp_new (render (Tok (str "2")) ++ op_char Mul :: "-"%char :: render (Tok (str "3"))) =
     Some (Ok (tree (negated_right Mul (Tok (str "2")) (Tok (str "3"))))) /\
   run sample_math
     (render (Tok (str "2")) ++ op_char Mul :: "-"%char :: render (Tok (str "3"))) None =
     Some (value sample_math (default ∅ None) (negated_right Mul (Tok (str "2")) (Tok (str "3")))) /\
   run sample_math (str "2*-3") None = Some (Ok (PyFloat (Z2float (-6))))).
Proof.
  assert (H : well_formed all_left (Bin Mul (Tok (str "2")) (Tok (str "3")))).
  { cbn. repeat split; try discriminate; try (repeat constructor; discriminate);
      vm_compute; congruence. }
  split; [exact H|].
  exact (minus_after_an_operator sample_math Mul (Tok (str "2")) (Tok (str "3")) None H).
Defined.

(** ** Agreement with arithmetic as usually written *)

Lemma binding_cases (e : expr) :
  binding e = 0 \/ binding e = -1 \/ binding e = -2 \/ binding e = -3.
Proof. destruct e as [| | |[] ? ?]; cbn [binding]; auto. Qed.

Lemma standard_to_left (e : expr) :
  well_formed standard_assoc e -> power_chain_free e -> well_formed all_left e.
Proof.
  induction e as [t|e IH|name arg IH|o l IHl r IHr];
    cbn [well_formed power_chain_free]; try tauto.
  intros (Hl & Hr & Hprio) (Hcl & Hcr & Hchain).
  split; [apply IHl; assumption|]. split; [apply IHr; assumption|].
  destruct o; cbn [standard_assoc all_left] in *; try exact Hprio.
  change (priority (op_char Pow)) with (-1) in *.
  destruct r as [| | |[] ? ?]; cbn [binding] in *; try contradiction;
    try change (priority (op_char Mul)) with (-2) in *;
    try change (priority (op_char Div)) with (-2) in *;
    try change (priority (op_char Add)) with (-3) in *;
    try change (priority (op_char Sub)) with (-3) in *; lia.
Qed.

(** X27: on every expression that never writes a power directly to
    the right of a power ([a^b^c]), the constructor builds the tree of
    arithmetic as usually written, [^] grouping to the right included, and
    evaluation gives its value. *)
Theorem standard_arithmetic_without_power_chains (M : MathModule) (s : pystr) (e : expr)
    (tmp : option (gmap pystr pynum))
    (Hs : remove_char " " s = render e) (He : well_formed standard_assoc e)
    (Hp : power_chain_free e) :
  MathExp_new s = Some (Ok (tree e)) /\
  run M s tmp = Some (value M (default ∅ tmp) e).
Proof.
  pose proof (standard_to_left e He Hp) as Hl.
  split; [apply (MathExp_new_render s e Hs Hl)|apply (run_render M s e tmp Hs Hl)].
Qed.

Lemma standard_arithmetic_without_power_chains_witness :
  remove_char " " (str "2^(3^2) - 4*x") =
    render (Bin Sub (Bin Pow (Tok (str "2")) (Par (Bin Pow (Tok (str "3")) (Tok (str "2")))))
                    (Bin Mul (Tok (str "4")) (Tok (str "x")))) /\
  well_formed standard_assoc
    (Bin Sub (Bin Pow (Tok (str "2")) (Par (Bin Pow (Tok (str "3")) (Tok (str "2")))))
             (Bin Mul (Tok (str "4")) (Tok (str "x")))) /\
  power_chain_free
    (Bin Sub (Bin Pow (Tok (str "2")) (Par (Bin Pow (Tok (str "3")) (Tok (str "2")))))
             (Bin Mul (Tok (str "4")) (Tok (str "x")))) /\
  (MathExp_new (str "2^(3^2) - 4*x") =
     Some (Ok (tree (Bin Sub (Bin Pow (Tok (str "2"))
                                (Par (Bin Pow (Tok (str "3")) (Tok (str "2")))))
                             (Bin Mul (Tok (str "4")) (Tok (str "x")))))) /\
   run sample_math (str "2^(3^2) - 4*x") None =
     Some (value sample_math (default ∅ None)
             (Bin Sub (Bin Pow (Tok (str "2")) (Par (Bin Pow (Tok (str "3")) (Tok (str "2")))))
                      (Bin Mul (Tok (str "4")) (Tok (str "x")))))).
Proof.
  assert (H : well_formed standard_assoc
    (Bin Sub (Bin Pow (Tok (str "2")) (Par (Bin Pow (Tok (str "3")) (Tok (str "2")))))
             (Bin Mul (Tok (str "4")) (Tok (str "x"))))).
  { cbn. repeat split; try discriminate; try (repeat constructor; discriminate);
      vm_compute; congruence. }
  assert (Hp : power_chain_free
    (Bin Sub (Bin Pow (Tok (str "2")) (Par (Bin Pow (Tok (str "3")) (Tok (str "2")))))
             (Bin Mul (Tok (str "4")) (Tok (str "x"))))).
  { cbn. tauto. }
  split; [reflexivity|]. split; [exact H|]. split; [exact Hp|].
  exact (standard_arithmetic_without_power_chains sample_math (str "2^(3^2) - 4*x")
           (Bin Sub (Bin Pow (Tok (str "2")) (Par (Bin Pow (Tok (str "3")) (Tok (str "2")))))
                    (Bin Mul (Tok (str "4")) (Tok (str "x"))))
           None eq_refl H Hp).
Defined.
